(** * money-lock: the core models (app/core/models.py)

    A shallow embedding of the Django models of the escrow service: the user
    manager, the verification token with its generator, the verification
    e-mail, the payment agreement with its post-commit hook, and the
    disputes, with the transactions and deletions the foreign keys decide.

    Python methods that touch the database, the clock, the random generator,
    the logger or the mailer are functions in a small monad over an explicit
    [world]; what lies outside the file (the random source, database faults,
    the mailer [send_email], Django's password hasher) is an [environment]
    the development quantifies over. *)

From Stdlib Require Import String Ascii List ZArith NArith Arith Bool Lia.
Import ListNotations.

Local Open Scope string_scope.

(** ** Python values the models use *)

Module Py.

(** The exception classes that occur.  The last three derive from
    [BaseException] only; every other class derives from [Exception]. *)
Inductive exc_class : Type :=
| ValueError
| TypeError
| IntegrityError
| OperationalError
| OtherException (name : string)
| KeyboardInterrupt
| SystemExit
| GeneratorExit.

Record exn : Type := mk_exn { exc_type : exc_class; exc_args : string }.

(** [isinstance(e, Exception)] *)
Definition isinstance_Exception (e : exn) : bool :=
  match exc_type e with
  | KeyboardInterrupt | SystemExit | GeneratorExit => false
  | _ => true
  end.

(** [str(e)] of an exception built from one message. *)
Definition str_exn (e : exn) : string := exc_args e.

(** [''.join(chars)] *)
Definition join (chars : list ascii) : string := string_of_list_ascii chars.

(** [string.ascii_letters + string.digits] *)
Definition ascii_lowercase : string := "abcdefghijklmnopqrstuvwxyz".
Definition ascii_uppercase : string := "ABCDEFGHIJKLMNOPQRSTUVWXYZ".
Definition ascii_letters : string := ascii_lowercase ++ ascii_uppercase.
Definition digits : string := "0123456789".

(** Membership in {A-Z, a-z, 0-9}, by character code. *)
Definition is_alnum (c : ascii) : bool :=
  let n := nat_of_ascii c in
  ((48 <=? n)%nat && (n <=? 57)%nat) || ((65 <=? n)%nat && (n <=? 90)%nat)
  || ((97 <=? n)%nat && (n <=? 122)%nat).

(** [timedelta(hours=h)], in microseconds. *)
Definition timedelta_hours (h : Z) : Z := (h * 3600 * 1000000)%Z.

(** A UUID is its 128-bit integer; [str(uuid)] prints the 32 hexadecimal
    digits in lower case, grouped 8-4-4-4-12. *)
Definition UUID : Type := N.

Definition hex_digit (n : N) : ascii :=
  nth (N.to_nat (n mod 16)) (list_ascii_of_string "0123456789abcdef") "0"%char.

(** Hexadecimal digits [hi-1 .. lo] (most significant first) of [u]. *)
Definition hex_field (u : N) (lo len : nat) : list ascii :=
  map (fun i => hex_digit (N.shiftr u (4 * N.of_nat (lo + i))))
      (rev (seq 0 len)).

Definition str_uuid (u : UUID) : string :=
  join (hex_field u 24 8 ++ "-"%char :: hex_field u 20 4 ++ "-"%char ::
        hex_field u 16 4 ++ "-"%char :: hex_field u 12 4 ++ "-"%char ::
        hex_field u 0 12).

(** [django.utils.html.escape], i.e. [html.escape(text, quote=True)]. *)
Definition escape_char (c : ascii) : string :=
  match nat_of_ascii c with
  | 38 => "&amp;"
  | 60 => "&lt;"
  | 62 => "&gt;"
  | 34 => "&quot;"
  | 39 => "&#x27;"
  | _ => String c EmptyString
  end.

Fixpoint escape (s : string) : string :=
  match s with
  | EmptyString => EmptyString
  | String c rest => escape_char c ++ escape rest
  end.

End Py.

Import Py.

(** ** Rows of the tables *)

Module User.
Record t : Type := mk {
  id : UUID;
  password : string;
  name : string;
  email : string;
  phone_number : option string;
  created_at : option Z;
  email_verified : bool;
  last_active : option Z;
  is_active : bool;
  is_admin : bool
}.
End User.

Module UserVerificationToken.
Record t : Type := mk {
  token : string;
  created_on : option Z;
  expires_on : option Z;
  active : bool;
  user_id : UUID
}.
End UserVerificationToken.

Module PaymentAgreement.
Definition DOWN_PAYMENT : string := "down_payment".
Definition FULL_PAYMENT : string := "full_payment".
Definition PENDING : string := "pending".
Definition COMPLETED : string := "completed".
Definition DISPUTED : string := "disputed".
Definition CANCELED : string := "canceled".

Record t : Type := mk {
  id : UUID;
  buyer : option UUID;
  buyer_email : string;
  seller : UUID;
  name : string;
  amount : Z;                 (* in hundredths: two decimal places *)
  currency : string;
  description : option string;
  days_to_deliver : nat;
  transaction_type : string;
  status : string;
  created_at : option Z;
  updated_at : option Z
}.
End PaymentAgreement.

Module Dispute.
Definition OPEN : string := "open".
Definition RESOLVED : string := "resolved".

Record t : Type := mk {
  id : UUID;
  agreement : UUID;
  raised_by : option UUID;
  status : string;
  created_at : option Z;
  updated_at : option Z
}.
End Dispute.

(** ** The world *)

Record database : Type := mk_database {
  users : list User.t;
  verification_tokens : list UserVerificationToken.t;
  agreements : list PaymentAgreement.t;
  disputes : list Dispute.t
}.

(** The payload of the mailer, [send_email(content, recipients)]. *)
Record content : Type := mk_content { subject : string; html : string }.
Record recipient : Type := mk_recipient { address : string; displayName : string }.

(** One call of [send_email]: the positional arguments that were passed. *)
Record notifier_call : Type := mk_call {
  call_content : option content;
  call_recipients : option (list recipient)
}.

Inductive level : Type := INFO | ERROR.

(** What an observer sees, oldest first. *)
Inductive event : Type :=
| Log (l : level) (msg : string)
| SendEmail (c : notifier_call)
| Insert (table : string) (key : string)
| Commit
| Rollback.

(** A method registered with [transaction.on_commit]. *)
Inductive callback : Type :=
| OnCreateAccount (self : User.t)
| OnCreateAgreement (self : PaymentAgreement.t).

(** An open [atomic] block: the rows at its savepoint and the callbacks
    registered inside it. *)
Record frame : Type := mk_frame {
  savepoint : database;
  run_on_commit : list callback
}.

(** A row written inside a transaction, by its table and key.  Django
    declares every foreign key DEFERRABLE INITIALLY DEFERRED: inside a
    transaction the database checks the keys of the rows that were written
    when the transaction commits, not when the statement runs. *)
Inductive written : Type :=
| WrittenToken (token : string)
| WrittenAgreement (id : UUID)
| WrittenDispute (id : UUID).

Record world : Type := mk_world {
  clock : Z;                   (* [timezone.now()], microseconds *)
  rng : nat;                   (* calls of [random()] made so far *)
  entropy : nat;               (* calls of [uuid.uuid4()] made so far *)
  db_ops : nat;                (* statements sent to the database so far *)
  db : database;
  atomic_blocks : list frame;  (* innermost first *)
  deferred : list written;     (* rows whose foreign keys COMMIT will check *)
  trace : list event
}.

(** What the file does not define. *)
Record environment : Type := mk_environment {
  (** [floor(random() * 62)] of the i-th call of [random()], taken modulo 62 *)
  random_index : nat -> nat;
  (** the i-th [uuid.uuid4()] *)
  uuid4 : nat -> UUID;
  (** the error, if any, of the i-th statement sent to the database *)
  db_fault : nat -> option exn;
  (** [core.azure_communications.send_email]: the exception a call raises,
      if any *)
  send_email : notifier_call -> option exn;
  (** [BaseUserManager.normalize_email] *)
  normalize_email : string -> string;
  (** [get_random_string(n)] of [django.utils.crypto] *)
  get_random_string : nat -> string;
  (** what the PBKDF2 hasher writes after its algorithm name:
      iterations, salt and digest *)
  pbkdf2_fields : string -> string
}.

(** ** The monad: state, exceptions, and loops that may not end *)

Inductive result (A : Type) : Type :=
| Return (a : A) (w : world)
| Raise (e : exn) (w : world)
| Diverge.

Arguments Return {A} a w.
Arguments Raise {A} e w.
Arguments Diverge {A}.

Definition M (A : Type) : Type := world -> result A.

Definition ret {A} (a : A) : M A := fun w => Return a w.

Definition bind {A B} (m : M A) (k : A -> M B) : M B :=
  fun w =>
    match m w with
    | Return a w' => k a w'
    | Raise e w' => Raise e w'
    | Diverge => Diverge
    end.

Definition raise {A} (e : exn) : M A := fun w => Raise e w.

(** [try: body  except Exception as e: handler(e)] *)
Definition try_except_Exception {A} (body : M A) (handler : exn -> M A) : M A :=
  fun w =>
    match body w with
    | Raise e w' => if isinstance_Exception e then handler e w' else Raise e w'
    | r => r
    end.

Declare Scope py_scope.
Delimit Scope py_scope with py.
Notation "x <- m ;; k" := (bind m (fun x => k))
  (at level 61, m at next level, right associativity) : py_scope.
Notation "m ;; k" := (bind m (fun _ => k))
  (at level 61, right associativity) : py_scope.
Local Open Scope py_scope.

(** State updates *)

Definition set_db (d : database) (w : world) : world :=
  mk_world (clock w) (rng w) (entropy w) (db_ops w) d (atomic_blocks w)
           (deferred w) (trace w).

Definition set_atomic_blocks (fs : list frame) (w : world) : world :=
  mk_world (clock w) (rng w) (entropy w) (db_ops w) (db w) fs (deferred w)
           (trace w).

Definition set_deferred (rs : list written) (w : world) : world :=
  mk_world (clock w) (rng w) (entropy w) (db_ops w) (db w) (atomic_blocks w) rs
           (trace w).

Definition emit (ev : event) (w : world) : world :=
  mk_world (clock w) (rng w) (entropy w) (db_ops w) (db w) (atomic_blocks w)
           (deferred w) (trace w ++ [ev]).

Definition advance_rng (k : nat) (w : world) : world :=
  mk_world (clock w) (rng w + k) (entropy w) (db_ops w) (db w)
           (atomic_blocks w) (deferred w) (trace w).

Definition advance_entropy (w : world) : world :=
  mk_world (clock w) (rng w) (S (entropy w)) (db_ops w) (db w)
           (atomic_blocks w) (deferred w) (trace w).

Definition advance_db_ops (w : world) : world :=
  mk_world (clock w) (rng w) (entropy w) (S (db_ops w)) (db w)
           (atomic_blocks w) (deferred w) (trace w).

Definition set_users (us : list User.t) (d : database) : database :=
  mk_database us (verification_tokens d) (agreements d) (disputes d).

Definition set_verification_tokens (ts : list UserVerificationToken.t)
    (d : database) : database :=
  mk_database (users d) ts (agreements d) (disputes d).

Definition set_agreements (ags : list PaymentAgreement.t) (d : database)
    : database :=
  mk_database (users d) (verification_tokens d) ags (disputes d).

Definition set_disputes (ds : list Dispute.t) (d : database) : database :=
  mk_database (users d) (verification_tokens d) (agreements d) ds.

(** [timezone.now()]: the wall clock of the world.  A call of the models
    takes no time in this development; time passes between the calls, see
    [later]. *)
Definition timezone_now : M Z := fun w => Return (clock w) w.

(** The same world [d] microseconds later. *)
Definition later (d : Z) (w : world) : world :=
  mk_world (clock w + d) (rng w) (entropy w) (db_ops w) (db w) (atomic_blocks w)
           (deferred w) (trace w).

(** [logger.info(msg)], [logger.error(msg)] *)
Definition logger_info (msg : string) : M unit :=
  fun w => Return tt (emit (Log INFO msg) w).
Definition logger_error (msg : string) : M unit :=
  fun w => Return tt (emit (Log ERROR msg) w).

(** The log records and the mailer calls of a trace. *)
Definition logs (tr : list event) : list (level * string) :=
  flat_map (fun ev => match ev with Log l m => [(l, m)] | _ => [] end) tr.

Definition dispatches (tr : list event) : list notifier_call :=
  flat_map (fun ev => match ev with SendEmail c => [c] | _ => [] end) tr.

(** ** CustomToken *)

(** The abstract model [CustomToken]: the columns every concrete token table
    has, and [cls.objects], the rows of the concrete class. *)
Class CustomToken (row : Type) : Type := {
  token : row -> string;
  created_on : row -> option Z;
  expires_on : row -> option Z;
  active : row -> bool;
  objects : database -> list row
}.

#[export] Instance UserVerificationToken_CustomToken
  : CustomToken UserVerificationToken.t := {
  token := UserVerificationToken.token;
  created_on := UserVerificationToken.created_on;
  expires_on := UserVerificationToken.expires_on;
  active := UserVerificationToken.active;
  objects := verification_tokens
}.

(** The property [CustomToken.is_active], read when the clock is [clock w]. *)
Definition is_active {row} `{CustomToken row} (self : row) (w : world) : bool :=
  if negb (active self) then false
  else match expires_on self with
       | None => true
       | Some e => (clock w <? e)%Z
       end.

(** ** Foreign keys *)

Definition user_exists (uid : UUID) (d : database) : bool :=
  existsb (fun r => N.eqb (User.id r) uid) (users d).

Definition agreement_exists (aid : UUID) (d : database) : bool :=
  existsb (fun r => N.eqb (PaymentAgreement.id r) aid) (agreements d).

(** The foreign keys of a row point to rows: [UserVerificationToken.user];
    [PaymentAgreement.seller] and the nullable [buyer]; [Dispute.agreement]
    and the nullable [raised_by]. *)
Definition token_resolves (d : database) (t : UserVerificationToken.t) : bool :=
  user_exists (UserVerificationToken.user_id t) d.

Definition agreement_resolves (d : database) (a : PaymentAgreement.t) : bool :=
  user_exists (PaymentAgreement.seller a) d
  && match PaymentAgreement.buyer a with
     | Some b => user_exists b d
     | None => true
     end.

Definition dispute_resolves (d : database) (x : Dispute.t) : bool :=
  agreement_exists (Dispute.agreement x) d
  && match Dispute.raised_by x with
     | Some r => user_exists r d
     | None => true
     end.

(** The check COMMIT makes for a written row: the row, if it is still in
    its table, resolves. *)
Definition foreign_keys_hold (d : database) (r : written) : bool :=
  match r with
  | WrittenToken tok =>
      forallb (fun t => negb (String.eqb (UserVerificationToken.token t) tok)
                        || token_resolves d t)
              (verification_tokens d)
  | WrittenAgreement aid =>
      forallb (fun a => negb (N.eqb (PaymentAgreement.id a) aid)
                        || agreement_resolves d a)
              (agreements d)
  | WrittenDispute xid =>
      forallb (fun x => negb (N.eqb (Dispute.id x) xid) || dispute_resolves d x)
              (disputes d)
  end.

(** Outside every [atomic] block a statement is its own transaction
    (autocommit), and its foreign keys are checked with it. *)
Definition checked_now (w : world) : bool :=
  match atomic_blocks w with
  | [] => true
  | _ :: _ => false
  end.

(** Inside a block the check of a written row waits for COMMIT. *)
Definition defer (r : written) (w : world) : world :=
  match atomic_blocks w with
  | [] => w
  | _ :: _ => set_deferred (deferred w ++ [r]) w
  end.

Section Models.

Variable E : environment.

(** One statement sent to the database: it fails when the environment says
    so. *)
Definition db_statement : M unit :=
  fun w =>
    match db_fault E (db_ops w) with
    | Some e => Raise e (advance_db_ops w)
    | None => Return tt (advance_db_ops w)
    end.

(** [population[floor(random() * len(population))]] for the call of
    [random()] number [i]. *)
Definition choice_at (population : list ascii) (i : nat) : ascii :=
  nth (random_index E i mod length population) population " "%char.

(** The [k] characters [random.choices(population, k=k)] picks when [pos]
    calls of [random()] were made before. *)
Definition choices_at (population : list ascii) (k pos : nat) : list ascii :=
  map (fun j => choice_at population (pos + j)) (seq 0 k).

(** [random.choices(population, k=k)] *)
Definition random_choices (population : string) (k : nat) : M (list ascii) :=
  fun w =>
    Return (choices_at (list_ascii_of_string population) k (rng w))
           (advance_rng k w).

(** [cls.objects.filter(token=token).exists()] *)
Definition filter_token_exists {row} `{CustomToken row} (tok : string)
    : M bool :=
  db_statement ;;
  fun w => Return (existsb (fun r => String.eqb (token r) tok)
                           (objects (db w))) w.

(** [CustomToken.generate_unique_token]: the [while True] loop, with
    [fuel] bounding the number of draws the model follows. *)
Fixpoint generate_unique_token (row : Type) `{CustomToken row} (fuel : nat)
    : M string :=
  match fuel with
  | O => fun _ => Diverge
  | S fuel' =>
      chars <- random_choices (ascii_letters ++ digits) 7 ;;
      let token := join chars in
      found <- filter_token_exists (row := row) token ;;
      if negb found then ret token
      else generate_unique_token row fuel'
  end.

(** *** Transactions and the lifecycle hooks *)

(** What follows an INSERT: outside every [atomic] block the statement is
    committed at once (autocommit). *)
Definition after_insert (table key : string) (w : world) : world :=
  let w1 := emit (Insert table key) w in
  match atomic_blocks w1 with
  | [] => emit Commit w1
  | _ :: _ => w1
  end.

(** [send_email(...)]: the call is observed, then the mailer answers. *)
Definition call_send_email (c : notifier_call) : M unit :=
  fun w =>
    let w' := emit (SendEmail c) w in
    match send_email E c with
    | Some e => Raise e w'
    | None => Return tt w'
    end.

(** [User.onCreateAccount]: [pass]. *)
Definition onCreateAccount (self : User.t) : M unit := ret tt.

(** [PaymentAgreement.onCreateAgreement]: the log line, then
    [send_email()] with no argument at all. *)
Definition onCreateAgreement (self : PaymentAgreement.t) : M unit :=
  logger_info ("Email sent to " ++ PaymentAgreement.buyer_email self) ;;
  call_send_email (mk_call None None).

Definition run_callback (cb : callback) : M unit :=
  match cb with
  | OnCreateAccount self => onCreateAccount self
  | OnCreateAgreement self => onCreateAgreement self
  end.

(** Django's [run_and_clear_commit_hooks]: in registration order; an
    exception leaves the remaining callbacks unrun. *)
Fixpoint run_callbacks (cbs : list callback) : M unit :=
  match cbs with
  | [] => ret tt
  | cb :: rest => run_callback cb ;; run_callbacks rest
  end.

(** [transaction.on_commit(cb)], which [@hook(..., on_commit=True)] calls:
    inside a block the callback waits, outside it runs at once. *)
Definition transaction_on_commit (cb : callback) : M unit :=
  fun w =>
    match atomic_blocks w with
    | [] => run_callback cb w
    | f :: fs =>
        Return tt (set_atomic_blocks
                     (mk_frame (savepoint f) (run_on_commit f ++ [cb]) :: fs) w)
    end.

(** Entering [with transaction.atomic():].  The outermost block begins a
    transaction, which has no deferred check yet; an inner block is a
    savepoint. *)
Definition atomic_enter : M unit :=
  fun w =>
    Return tt
      (set_atomic_blocks (mk_frame (db w) [] :: atomic_blocks w)
         (match atomic_blocks w with
          | [] => set_deferred [] w
          | _ :: _ => w
          end)).

(** The end of a transaction, by COMMIT or by ROLLBACK: no block is open
    and no check is waiting. *)
Definition end_transaction (w : world) : world :=
  set_deferred [] (set_atomic_blocks [] w).

(** Leaving the block after an exception: back to the savepoint, the
    callbacks registered inside are dropped.  (The deferred checks of rows
    that a savepoint takes back name rows that are gone.) *)
Definition atomic_exit_rollback : M unit :=
  fun w =>
    match atomic_blocks w with
    | [] => Return tt w
    | [f] => Return tt (emit Rollback (end_transaction (set_db (savepoint f) w)))
    | f :: fs => Return tt (emit Rollback (set_atomic_blocks fs (set_db (savepoint f) w)))
    end.

(** Leaving the block normally.  An inner block hands its callbacks to the
    enclosing one.  The outermost block sends COMMIT: the database makes
    the deferred checks of the foreign keys, and a row that fails one makes
    COMMIT fail with [IntegrityError]; a failed COMMIT rolls the transaction
    back and the exception leaves the block; after a COMMIT that succeeded
    the callbacks are run. *)
Definition atomic_exit_commit : M unit :=
  fun w =>
    match atomic_blocks w with
    | [] => Return tt w
    | [f] =>
        match db_statement w with
        | Return _ w1 =>
            if forallb (foreign_keys_hold (db w1)) (deferred w1)
            then run_callbacks (run_on_commit f) (emit Commit (end_transaction w1))
            else Raise (mk_exn IntegrityError "FOREIGN KEY constraint failed")
                       (emit Rollback (end_transaction (set_db (savepoint f) w1)))
        | Raise e w1 =>
            Raise e (emit Rollback (end_transaction (set_db (savepoint f) w1)))
        | Diverge => Diverge
        end
    | f :: g :: fs =>
        Return tt (set_atomic_blocks
                     (mk_frame (savepoint g) (run_on_commit g ++ run_on_commit f) :: fs) w)
    end.

(** [with transaction.atomic(): body] *)
Definition atomic {A} (body : M A) : M A :=
  fun w =>
    match (atomic_enter ;; body) w with
    | Return a w1 =>
        match atomic_exit_commit w1 with
        | Return _ w2 => Return a w2
        | Raise e w2 => Raise e w2
        | Diverge => Diverge
        end
    | Raise e w1 =>
        match atomic_exit_rollback w1 with
        | Return _ w2 => Raise e w2
        | Raise e' w2 => Raise e' w2
        | Diverge => Diverge
        end
    | Diverge => Diverge
    end.

(** *** MyUserManager and User *)

(** [bool(email)] for an argument that is [None] or a string. *)
Definition truthy (email : option string) : bool :=
  match email with
  | None => false
  | Some s => negb (String.eqb s EmptyString)
  end.

(** Django's [make_password]: [None] gives an unusable password, a string
    is encoded by the first configured hasher (PBKDF2 by default). *)
Definition UNUSABLE_PASSWORD_PREFIX : string := "!".
Definition UNUSABLE_PASSWORD_SUFFIX_LENGTH : nat := 40.

Definition make_password (password : option string) : string :=
  match password with
  | None => UNUSABLE_PASSWORD_PREFIX
              ++ get_random_string E UNUSABLE_PASSWORD_SUFFIX_LENGTH
  | Some raw => "pbkdf2_sha256" ++ "$" ++ pbkdf2_fields E raw
  end.

(** Django's [is_password_usable], as [user.has_usable_password()]. *)
Definition is_password_usable (encoded : string) : bool :=
  negb (String.prefix UNUSABLE_PASSWORD_PREFIX encoded).

(** [self.model(email=email)]: every other field takes its default; the
    primary key comes from [uuid.uuid4]. *)
Definition model_User (email : string) : M User.t :=
  fun w =>
    Return (User.mk (uuid4 E (entropy w)) EmptyString EmptyString email None
                    None false None true false)
           (advance_entropy w).

(** [user.set_password(password)] *)
Definition set_password (password : option string) (u : User.t) : User.t :=
  User.mk (User.id u) (make_password password) (User.name u) (User.email u)
          (User.phone_number u) (User.created_at u) (User.email_verified u)
          (User.last_active u) (User.is_active u) (User.is_admin u).

(** [user.save(using=self._db)] of an instance never saved before: the
    INSERT, with [auto_now_add] and [auto_now] filled in, the primary key
    and the unique e-mail checked by the database, then the AFTER_CREATE
    hook. *)
Definition save_new_user (u : User.t) : M User.t :=
  now <- timezone_now ;;
  let u' := User.mk (User.id u) (User.password u) (User.name u) (User.email u)
                    (User.phone_number u) (Some now) (User.email_verified u)
                    (Some now) (User.is_active u) (User.is_admin u) in
  db_statement ;;
  (fun w =>
     if existsb (fun r => N.eqb (User.id r) (User.id u')) (users (db w))
     then Raise (mk_exn IntegrityError "UNIQUE constraint failed: core_user.id") w
     else if existsb (fun r => String.eqb (User.email r) (User.email u'))
                     (users (db w))
     then Raise (mk_exn IntegrityError "UNIQUE constraint failed: core_user.email") w
     else Return tt (after_insert "core_user" (str_uuid (User.id u'))
                       (set_db (set_users (users (db w) ++ [u']) (db w)) w))) ;;
  transaction_on_commit (OnCreateAccount u') ;;
  ret u'.

(** [MyUserManager.create_user] *)
Definition create_user (email : option string) (password : option string)
    : M User.t :=
  if negb (truthy email)
  then raise (mk_exn ValueError "Users must have an email address")
  else
    user <- model_User (normalize_email E
                          (match email with Some s => s | None => EmptyString end)) ;;
    let user := set_password password user in
    save_new_user user.

(** *** The verification e-mail *)

(** [UserVerificationToken.objects.create(token=..., user=..., expires_on=...)]:
    the INSERT.  The unique token is checked with the statement; the
    foreign key to the user is checked with it in autocommit and at COMMIT
    inside a block. *)
Definition UserVerificationToken_objects_create
    (token : string) (user : User.t) (expires_on : Z)
    : M UserVerificationToken.t :=
  now <- timezone_now ;;
  let row := UserVerificationToken.mk token (Some now) (Some expires_on) true
                                      (User.id user) in
  db_statement ;;
  fun w =>
    if existsb (fun r => String.eqb (UserVerificationToken.token r) token)
               (verification_tokens (db w))
    then Raise (mk_exn IntegrityError
                  "UNIQUE constraint failed: core_userverificationtoken.token") w
    else if checked_now w && negb (token_resolves (db w) row)
    then Raise (mk_exn IntegrityError "FOREIGN KEY constraint failed") w
    else Return row
           (after_insert "core_userverificationtoken" token
              (defer (WrittenToken token)
                 (set_db (set_verification_tokens
                            (verification_tokens (db w) ++ [row]) (db w)) w))).

Definition nl : string := String "010"%char EmptyString.
Definition dquote : string := String "034"%char EmptyString.
Fixpoint spaces (n : nat) : string :=
  match n with
  | O => EmptyString
  | S n' => String " "%char (spaces n')
  end.

(** The path of the verification link. *)
Definition verification_path (user_id : UUID) (token : string) : string :=
  "/verification/verify_email/" ++ str_uuid user_id ++ "/" ++ token ++ "/".

(** The f-string [email_body]. *)
Definition email_body (self : User.t) (token : string) : string :=
  nl ++ spaces 12 ++ "<html>" ++ nl
  ++ spaces 16 ++ "<h1>Hello " ++ escape (User.name self) ++ ".</h1>" ++ nl
  ++ spaces 16 ++ "<h6>Click here to verify your email: " ++ nl
  ++ spaces 20 ++ "<a href=" ++ dquote ++ "http://localhost:5173"
  ++ verification_path (User.id self) token
  ++ dquote ++ ">Verify Email</a>" ++ nl
  ++ spaces 20 ++ "The link is valid for 24 hours." ++ nl
  ++ spaces 16 ++ "</h6>" ++ nl
  ++ spaces 12 ++ "</html>" ++ nl
  ++ spaces 12.

(** The body of the [try] in [User.send_email_verification]. *)
Definition send_email_verification_try (fuel : nat) (self : User.t) : M unit :=
  token <- generate_unique_token UserVerificationToken.t fuel ;;
  now <- timezone_now ;;
  UserVerificationToken_objects_create token self (now + timedelta_hours 24) ;;
  let content := mk_content "Email Verification" (email_body self token) in
  let recipients := [mk_recipient (User.email self) (User.name self)] in
  call_send_email (mk_call (Some content) (Some recipients)) ;;
  logger_info ("Email verification link sent to " ++ User.email self).

(** [User.send_email_verification] *)
Definition send_email_verification (fuel : nat) (self : User.t) : M unit :=
  try_except_Exception
    (send_email_verification_try fuel self)
    (fun e => logger_error ("Failed to send email: " ++ str_exn e)).

(** *** PaymentAgreement *)

(** The keyword arguments of [PaymentAgreement.objects.create] with keyword arguments:
    a field with a default may be left out.  The JSON columns and the
    document are opaque and left out of the model. *)
Record agreement_kwargs : Type := mk_kwargs {
  kw_buyer : option UUID;
  kw_buyer_email : string;
  kw_seller : UUID;
  kw_name : string;
  kw_amount : Z;
  kw_currency : option string;
  kw_description : option string;
  kw_days_to_deliver : option nat;
  kw_transaction_type : option string;
  kw_status : option string
}.

Definition or_default {A} (given : option A) (default : A) : A :=
  match given with
  | Some a => a
  | None => default
  end.

(** The constructor [PaymentAgreement] with keyword arguments *)
Definition model_PaymentAgreement (kw : agreement_kwargs)
    : M PaymentAgreement.t :=
  fun w =>
    Return (PaymentAgreement.mk
              (uuid4 E (entropy w)) (kw_buyer kw) (kw_buyer_email kw)
              (kw_seller kw) (kw_name kw) (kw_amount kw)
              (or_default (kw_currency kw) "KE")
              (kw_description kw)
              (or_default (kw_days_to_deliver kw) 0)
              (or_default (kw_transaction_type kw) PaymentAgreement.FULL_PAYMENT)
              (or_default (kw_status kw) PaymentAgreement.PENDING)
              None None)
           (advance_entropy w).

(** [agreement.save()] of a new instance: the INSERT with both timestamps
    filled in, the primary key checked with the statement and the foreign
    keys with it in autocommit and at COMMIT inside a block; then the
    AFTER_CREATE hook, which is registered [on_commit]. *)
Definition save_new_agreement (a : PaymentAgreement.t) : M PaymentAgreement.t :=
  now <- timezone_now ;;
  let a' := PaymentAgreement.mk
              (PaymentAgreement.id a) (PaymentAgreement.buyer a)
              (PaymentAgreement.buyer_email a) (PaymentAgreement.seller a)
              (PaymentAgreement.name a) (PaymentAgreement.amount a)
              (PaymentAgreement.currency a) (PaymentAgreement.description a)
              (PaymentAgreement.days_to_deliver a)
              (PaymentAgreement.transaction_type a)
              (PaymentAgreement.status a) (Some now) (Some now) in
  db_statement ;;
  (fun w =>
     if existsb (fun r => N.eqb (PaymentAgreement.id r) (PaymentAgreement.id a'))
                (agreements (db w))
     then Raise (mk_exn IntegrityError
                   "UNIQUE constraint failed: core_paymentagreement.id") w
     else if checked_now w && negb (agreement_resolves (db w) a')
     then Raise (mk_exn IntegrityError "FOREIGN KEY constraint failed") w
     else Return tt (after_insert "core_paymentagreement"
                       (str_uuid (PaymentAgreement.id a'))
                       (defer (WrittenAgreement (PaymentAgreement.id a'))
                          (set_db (set_agreements (a' :: agreements (db w)) (db w))
                                  w)))) ;;
  transaction_on_commit (OnCreateAgreement a') ;;
  ret a'.

(** [PaymentAgreement.objects.create] with keyword arguments *)
Definition PaymentAgreement_objects_create (kw : agreement_kwargs)
    : M PaymentAgreement.t :=
  a <- model_PaymentAgreement kw ;;
  save_new_agreement a.

End Models.

(** Modelled from the spec: the mailer [core.azure_communications.send_email],
    which the repository keeps outside this file.  Its contract is
    [send(content, recipients)]; a call that leaves an argument out is a
    [TypeError], any complete call is accepted. *)
Definition contract_send_email (c : notifier_call) : option exn :=
  match call_content c, call_recipients c with
  | Some _, Some _ => None
  | _, _ => Some (mk_exn TypeError "send_email() missing required positional arguments")
  end.

(** ** Vocabulary of the statements *)

(** The token the generator draws when [pos] calls of [random()] were made
    before. *)
Definition draw (E : environment) (pos : nat) : string :=
  join (choices_at E (list_ascii_of_string (ascii_letters ++ digits)) 7 pos).

(** [tok] is the token of some row. *)
Definition taken {row} `{CustomToken row} (tok : string) (rows : list row) : bool :=
  existsb (fun r => String.eqb (token r) tok) rows.

(** A well-formed token: seven characters of {A-Z, a-z, 0-9}. *)
Definition well_formed_token (tok : string) : Prop :=
  String.length tok = 7
  /\ Forall (fun c => is_alnum c = true) (list_ascii_of_string tok).

(** The world after [n] rounds of the generator's loop: seven calls of
    [random()] and one query each. *)
Definition after_attempts (n : nat) (w : world) : world :=
  mk_world (clock w) (rng w + 7 * n) (entropy w) (db_ops w + n) (db w)
           (atomic_blocks w) (deferred w) (trace w).

(** ** Sample environments and worlds *)

(** An environment in which nothing fails: the database and the mailer
    accept every call; the random source is [rand]. *)
Definition calm_environment (rand : nat -> nat) : environment :=
  mk_environment rand (fun i => N.of_nat i) (fun _ => None) (fun _ => None)
                 (fun s => s) (fun _ => "Xk3fQ0aZ")
                 (fun _ => "870000$c2FsdA$ZGlnZXN0").

(** A random source whose first [7 * n] indices are 0 and whose later ones
    are 1: the generator draws ["aaaaaaa"] [n] times, then ["bbbbbbb"]. *)
Definition stubborn_source (n : nat) : nat -> nat :=
  fun i => if (i <? 7 * n)%nat then 0 else 1.

(** A random source that only ever yields index 0. *)
Definition constant_source : nat -> nat := fun _ => 0.

Definition sample_user : User.t :=
  User.mk 7%N "pbkdf2_sha256$870000$c2FsdA$ZGlnZXN0" "Ann <Lee>" "ann@example.org"
          None (Some 0%Z) false (Some 0%Z) true false.

Definition token_aaaaaaa : UserVerificationToken.t :=
  UserVerificationToken.mk "aaaaaaa" (Some 0%Z) None true 7%N.

(** A world at time [now] with the given rows, outside every transaction. *)
Definition world_of (now : Z) (d : database) : world :=
  mk_world now 0 0 0 d [] [] [].

Definition sample_db : database :=
  mk_database [sample_user] [token_aaaaaaa] [] [].

(** The row [send_email_verification] creates for [self] when it draws
    [tok] at time [now]. *)
Definition minted_token (self : User.t) (tok : string) (now : Z)
    : UserVerificationToken.t :=
  UserVerificationToken.mk tok (Some now) (Some (now + timedelta_hours 24)%Z)
                           true (User.id self).

(** The world once the INSERT of the token row [r] went through. *)
Definition persist_token (r : UserVerificationToken.t) (w : world) : world :=
  after_insert "core_userverificationtoken" (UserVerificationToken.token r)
    (defer (WrittenToken (UserVerificationToken.token r))
       (set_db (set_verification_tokens (verification_tokens (db w) ++ [r]) (db w))
               (advance_db_ops w))).

(** The call of the mailer that carries the verification e-mail. *)
Definition verification_call (self : User.t) (tok : string) : notifier_call :=
  mk_call (Some (mk_content "Email Verification" (email_body self tok)))
          (Some [mk_recipient (User.email self) (User.name self)]).

(** [sub] occurs in [s]. *)
Definition contains (s sub : string) : Prop :=
  exists pre post, s = pre ++ sub ++ post.

(** The characters HTML gives a meaning to; [&] starts the entities. *)
Definition html_special (c : ascii) : bool :=
  match nat_of_ascii c with
  | 60 | 62 | 34 | 39 => true
  | _ => false
  end.

(** The world a computation ends in, when it ends. *)
Definition final_world {A} (r : result A) : option world :=
  match r with
  | Return _ w => Some w
  | Raise _ w => Some w
  | Diverge => None
  end.

(** An environment with another mailer. *)
Definition with_mailer (mailer : notifier_call -> option exn) (E : environment)
    : environment :=
  mk_environment (random_index E) (uuid4 E) (db_fault E) mailer
                 (normalize_email E) (get_random_string E) (pbkdf2_fields E).

(** A mailer whose worker is stopped while it sends: [SystemExit]. *)
Definition exiting_mailer : notifier_call -> option exn :=
  fun _ => Some (mk_exn SystemExit "1").

(** A mailer that cannot reach its server. *)
Definition unreachable_mailer : notifier_call -> option exn :=
  fun _ => Some (mk_exn (OtherException "ServiceRequestError") "connection refused").

(** The row [create_user] saves for [email] and [password] in [w]. *)
Definition new_user (E : environment) (email : string) (password : option string)
    (w : world) : User.t :=
  User.mk (uuid4 E (entropy w)) (make_password E password) EmptyString
          (normalize_email E email) None (Some (clock w)) false (Some (clock w))
          true false.

(** The database takes the row [u]: key and e-mail are new. *)
Definition user_insertable (u : User.t) (d : database) : bool :=
  negb (existsb (fun r => N.eqb (User.id r) (User.id u)) (users d))
  && negb (existsb (fun r => String.eqb (User.email r) (User.email u)) (users d)).

(** The row [PaymentAgreement.objects.create] saves for [kw] in [w]. *)
Definition new_agreement (E : environment) (kw : agreement_kwargs) (w : world)
    : PaymentAgreement.t :=
  PaymentAgreement.mk
    (uuid4 E (entropy w)) (kw_buyer kw) (kw_buyer_email kw) (kw_seller kw)
    (kw_name kw) (kw_amount kw) (or_default (kw_currency kw) "KE")
    (kw_description kw) (or_default (kw_days_to_deliver kw) 0)
    (or_default (kw_transaction_type kw) PaymentAgreement.FULL_PAYMENT)
    (or_default (kw_status kw) PaymentAgreement.PENDING)
    (Some (clock w)) (Some (clock w)).

(** The database takes the row [a]: the key is new, seller and buyer exist. *)
Definition agreement_insertable (a : PaymentAgreement.t) (d : database) : bool :=
  negb (existsb (fun r => N.eqb (PaymentAgreement.id r) (PaymentAgreement.id a))
                (agreements d))
  && (user_exists (PaymentAgreement.seller a) d
      && match PaymentAgreement.buyer a with
         | Some b => user_exists b d
         | None => true
         end).

(** The rows, counters and deferred checks once the INSERT of [a] went
    through (the events are added by [after_insert]). *)
Definition store_agreement (a : PaymentAgreement.t) (w : world) : world :=
  defer (WrittenAgreement (PaymentAgreement.id a))
    (set_db (set_agreements (a :: agreements (db w)) (db w))
            (advance_db_ops (advance_entropy w))).

Definition insert_event (a : PaymentAgreement.t) : event :=
  Insert "core_paymentagreement" (str_uuid (PaymentAgreement.id a)).

(** The call [onCreateAgreement] makes: no content, no recipients. *)
Definition hook_call : notifier_call := mk_call None None.

(** What [onCreateAgreement] lets an observer see. *)
Definition hook_events (a : PaymentAgreement.t) : list event :=
  [Log INFO ("Email sent to " ++ PaymentAgreement.buyer_email a);
   SendEmail hook_call].

Definition add_events (evs : list event) (w : world) : world :=
  fold_left (fun w' ev => emit ev w') evs w.

Definition sample_kwargs : agreement_kwargs :=
  mk_kwargs (Some 7%N) "ann@example.org" 7%N "Bicycle" 10000%Z (Some "KE")
            None None None None.


(** The world inside an outermost [atomic] block that was entered in [w]. *)
Definition in_transaction (w : world) : world :=
  set_atomic_blocks [mk_frame (db w) []] (set_deferred [] w).

(** The database takes the INSERT of [a] in [w]: the key is new and, where
    the foreign keys are checked with the statement, seller and buyer have
    rows. *)
Definition agreement_accepted (a : PaymentAgreement.t) (w : world) : bool :=
  negb (existsb (fun r => N.eqb (PaymentAgreement.id r) (PaymentAgreement.id a))
                (agreements (db w)))
  && negb (checked_now w && negb (agreement_resolves (db w) a)).

(** The result that returns [b] where [r] returns, and ends as [r] ends
    otherwise. *)
Definition returning {A B} (b : B) (r : result A) : result B :=
  match r with
  | Return _ w => Return b w
  | Raise e w => Raise e w
  | Diverge => Diverge
  end.

(** What running a registered callback lets an observer see. *)
Definition callback_events (cb : callback) : list event :=
  match cb with
  | OnCreateAccount _ => []
  | OnCreateAgreement a => hook_events a
  end.

(** *** Fair random sources *)

(** The position of [c] in [l] (the length of [l] when it is absent). *)
Fixpoint index_of (c : ascii) (l : list ascii) : nat :=
  match l with
  | [] => 0
  | x :: l' => if Ascii.eqb x c then 0 else S (index_of c l')
  end.

Definition alphabet_index (c : ascii) : nat :=
  index_of c (list_ascii_of_string (ascii_letters ++ digits)).

(** Digit [t] of [j] in base 62, least significant first, and the number
    with the digits [ds]. *)
Fixpoint digit (t j : nat) : nat :=
  match t with
  | O => j mod 62
  | S t' => digit t' (j / 62)
  end.

Fixpoint horner (ds : list nat) : nat :=
  match ds with
  | [] => 0
  | d :: ds' => d + 62 * horner ds'
  end.

(** A source that counts: round [j] draws the seven digits of [j]. *)
Definition enumerating_source : nat -> nat :=
  fun i => digit (i mod 7) (i / 7).

(** The counting source after [n] rounds of ["aaaaaaa"]. *)
Definition delayed_source (n : nat) : nat -> nat :=
  fun i => if (i <? 7 * n)%nat then 0 else enumerating_source (i - 7 * n).

(** A random source is fair from [pos] on when every well-formed token is
    the draw of some later round. *)
Definition fair_from (E : environment) (pos : nat) : Prop :=
  forall tok, well_formed_token tok -> exists j, draw E (pos + 7 * j) = tok.

(** ** The rest of the models *)

(** The keyword arguments of [Dispute.objects.create]; the JSON column is
    opaque and left out. *)
Record dispute_kwargs : Type := mk_dispute_kwargs {
  dk_agreement : UUID;
  dk_raised_by : option UUID;
  dk_status : option string
}.

(** [User.__str__], [User.has_perm], [User.has_module_perms] and the
    property [User.is_staff]. *)
Definition User_str (self : User.t) : string := User.email self.
Definition has_perm (self : User.t) (perm : string) : bool := true.
Definition has_module_perms (self : User.t) (app_label : string) : bool := true.
Definition is_staff (self : User.t) : bool := User.is_admin self.

Definition set_is_admin (b : bool) (u : User.t) : User.t :=
  User.mk (User.id u) (User.password u) (User.name u) (User.email u)
          (User.phone_number u) (User.created_at u) (User.email_verified u)
          (User.last_active u) (User.is_active u) b.

Definition set_buyer (b : option UUID) (a : PaymentAgreement.t)
    : PaymentAgreement.t :=
  PaymentAgreement.mk
    (PaymentAgreement.id a) b (PaymentAgreement.buyer_email a)
    (PaymentAgreement.seller a) (PaymentAgreement.name a)
    (PaymentAgreement.amount a) (PaymentAgreement.currency a)
    (PaymentAgreement.description a) (PaymentAgreement.days_to_deliver a)
    (PaymentAgreement.transaction_type a) (PaymentAgreement.status a)
    (PaymentAgreement.created_at a) (PaymentAgreement.updated_at a).

Definition set_raised_by (r : option UUID) (x : Dispute.t) : Dispute.t :=
  Dispute.mk (Dispute.id x) (Dispute.agreement x) r (Dispute.status x)
             (Dispute.created_at x) (Dispute.updated_at x).

Definition is_user (uid : UUID) (o : option UUID) : bool :=
  match o with
  | Some u => N.eqb u uid
  | None => false
  end.

(** What follows an UPDATE or a DELETE: outside every [atomic] block the
    statement is committed at once. *)
Definition after_write (w : world) : world :=
  match atomic_blocks w with
  | [] => emit Commit w
  | _ :: _ => w
  end.

(** The rows that are left when the user [uid] is deleted, as the
    [on_delete] arguments of the foreign keys say: the tokens of the user
    and the agreements the user sells go with the user (CASCADE), and with
    those agreements their disputes (CASCADE); where the user is buyer of
    an agreement or raised a dispute the reference becomes NULL (SET_NULL),
    by an UPDATE that leaves the other columns as they are. *)
Definition delete_user_rows (uid : UUID) (d : database) : database :=
  let sold := filter (fun a => N.eqb (PaymentAgreement.seller a) uid)
                     (agreements d) in
  let kept := filter (fun a => negb (N.eqb (PaymentAgreement.seller a) uid))
                     (agreements d) in
  let ds_kept :=
    filter (fun x => negb (existsb (fun a => N.eqb (PaymentAgreement.id a)
                                                   (Dispute.agreement x)) sold))
           (disputes d) in
  mk_database
    (filter (fun u => negb (N.eqb (User.id u) uid)) (users d))
    (filter (fun t => negb (N.eqb (UserVerificationToken.user_id t) uid))
            (verification_tokens d))
    (map (fun a => if is_user uid (PaymentAgreement.buyer a)
                   then set_buyer None a else a) kept)
    (map (fun x => if is_user uid (Dispute.raised_by x)
                   then set_raised_by None x else x) ds_kept).

(** The rows that are left when the agreement [aid] is deleted: its
    disputes go with it (CASCADE). *)
Definition delete_agreement_rows (aid : UUID) (d : database) : database :=
  mk_database
    (users d) (verification_tokens d)
    (filter (fun a => negb (N.eqb (PaymentAgreement.id a) aid)) (agreements d))
    (filter (fun x => negb (N.eqb (Dispute.agreement x) aid)) (disputes d)).

Section MoreModels.

Variable E : environment.

(** [user.save(using=self._db)] of an instance that was saved before: the
    UPDATE by primary key, with [auto_now] refreshing [last_active] and the
    unique e-mail checked against the other rows; when the UPDATE matches
    no row Django inserts the row.  No hook is registered for updates. *)
Definition save_user (u : User.t) : M User.t :=
  now <- timezone_now ;;
  let u' := User.mk (User.id u) (User.password u) (User.name u) (User.email u)
                    (User.phone_number u) (User.created_at u)
                    (User.email_verified u) (Some now) (User.is_active u)
                    (User.is_admin u) in
  db_statement E ;;
  (fun w =>
     if existsb (fun r => negb (N.eqb (User.id r) (User.id u'))
                          && String.eqb (User.email r) (User.email u'))
                (users (db w))
     then Raise (mk_exn IntegrityError "UNIQUE constraint failed: core_user.email") w
     else if existsb (fun r => N.eqb (User.id r) (User.id u')) (users (db w))
     then Return tt
            (after_write
               (set_db (set_users
                          (map (fun r => if N.eqb (User.id r) (User.id u')
                                         then u' else r) (users (db w)))
                          (db w)) w))
     else Return tt
            (after_insert "core_user" (str_uuid (User.id u'))
               (set_db (set_users (users (db w) ++ [u']) (db w)) w))) ;;
  ret u'.

(** [MyUserManager.create_superuser] *)
Definition create_superuser (email : option string) (password : option string)
    : M User.t :=
  user <- create_user E email password ;;
  let user := set_is_admin true user in
  save_user user.

(** [Dispute.objects.create] with keyword arguments: the constructor with
    the defaults, then the INSERT, with the primary key checked with the
    statement and the foreign keys with it in autocommit and at COMMIT
    inside a block.  [Dispute] is a plain model: no hook. *)
Definition Dispute_objects_create (kw : dispute_kwargs) : M Dispute.t :=
  fun w =>
    let x := Dispute.mk (uuid4 E (entropy w)) (dk_agreement kw) (dk_raised_by kw)
                        (or_default (dk_status kw) Dispute.OPEN)
                        (Some (clock w)) (Some (clock w)) in
    match db_statement E (advance_entropy w) with
    | Return _ w1 =>
        if existsb (fun r => N.eqb (Dispute.id r) (Dispute.id x)) (disputes (db w1))
        then Raise (mk_exn IntegrityError "UNIQUE constraint failed: core_dispute.id") w1
        else if checked_now w1 && negb (dispute_resolves (db w1) x)
        then Raise (mk_exn IntegrityError "FOREIGN KEY constraint failed") w1
        else Return x
               (after_insert "core_dispute" (str_uuid (Dispute.id x))
                  (defer (WrittenDispute (Dispute.id x))
                     (set_db (set_disputes (disputes (db w1) ++ [x]) (db w1)) w1)))
    | Raise e w1 => Raise e w1
    | Diverge => Diverge
    end.

(** [user.delete()]: the rows go in one transaction. *)
Definition User_delete (self : User.t) : M unit :=
  db_statement E ;;
  fun w =>
    Return tt (after_write (set_db (delete_user_rows (User.id self) (db w)) w)).

(** [agreement.delete()] *)
Definition PaymentAgreement_delete (self : PaymentAgreement.t) : M unit :=
  db_statement E ;;
  fun w =>
    Return tt
      (after_write
         (set_db (delete_agreement_rows (PaymentAgreement.id self) (db w)) w)).

(** The related user of a foreign key, fetched when the attribute is read. *)
Definition related_user (uid : UUID) : M User.t :=
  db_statement E ;;
  fun w =>
    match find (fun r => N.eqb (User.id r) uid) (users (db w)) with
    | Some u => Return u w
    | None => Raise (mk_exn (OtherException "DoesNotExist")
                            "User matching query does not exist.") w
    end.

(** [PaymentAgreement.__str__]: [str(None)] is ["None"], [str(user)] is the
    e-mail. *)
Definition PaymentAgreement_str (self : PaymentAgreement.t) : M string :=
  buyer <- match PaymentAgreement.buyer self with
           | None => ret "None"
           | Some b => (u <- related_user b ;; ret (User_str u))
           end ;;
  seller <- (u <- related_user (PaymentAgreement.seller self) ;; ret (User_str u)) ;;
  ret ("Agreement " ++ str_uuid (PaymentAgreement.id self) ++ " between "
       ++ buyer ++ " and " ++ seller).

End MoreModels.

(** *** Invariants of the tables *)

(** The unique columns hold no value twice. *)
Definition keys_unique (d : database) : Prop :=
  NoDup (map User.id (users d))
  /\ NoDup (map User.email (users d))
  /\ NoDup (map UserVerificationToken.token (verification_tokens d))
  /\ NoDup (map PaymentAgreement.id (agreements d)).

(** Every foreign key points to a row. *)
Definition references_resolve (d : database) : Prop :=
  (forall t, In t (verification_tokens d) ->
             user_exists (UserVerificationToken.user_id t) d = true)
  /\ (forall a, In a (agreements d) ->
                user_exists (PaymentAgreement.seller a) d = true
                /\ forall b, PaymentAgreement.buyer a = Some b ->
                             user_exists b d = true).

Definition disputes_resolve (d : database) : Prop :=
  forall x, In x (disputes d) ->
    agreement_exists (Dispute.agreement x) d = true
    /\ forall r, Dispute.raised_by x = Some r -> user_exists r d = true.

(** The events of a trace that are no database bookkeeping. *)
Definition visible (tr : list event) : list event :=
  filter (fun ev => match ev with
                    | Log _ _ | SendEmail _ => true
                    | _ => false
                    end) tr.

(** The row [Dispute.objects.create] saves for [kw] in [w]. *)
Definition new_dispute (E : environment) (kw : dispute_kwargs) (w : world)
    : Dispute.t :=
  Dispute.mk (uuid4 E (entropy w)) (dk_agreement kw) (dk_raised_by kw)
             (or_default (dk_status kw) Dispute.OPEN)
             (Some (clock w)) (Some (clock w)).

Definition second_user : User.t :=
  User.mk 9%N "pbkdf2_sha256$870000$c2FsdA$ZGlnZXN0" "Bo" "bo@example.org"
          None (Some 0%Z) false (Some 0%Z) true false.

(** Ann buys from Bo, Bo buys from Ann, and Ann disputes Bo's delivery. *)
Definition bought_by_ann : PaymentAgreement.t :=
  PaymentAgreement.mk 100%N (Some 7%N) "ann@example.org" 9%N "Bicycle" 10000%Z
                      "KE" None 3 "full_payment" "active" (Some 5%Z) (Some 5%Z).

Definition sold_by_ann : PaymentAgreement.t :=
  PaymentAgreement.mk 101%N (Some 9%N) "bo@example.org" 7%N "Lamp" 2500%Z
                      "KE" None 0 "full_payment" "pending" (Some 6%Z) (Some 6%Z).

Definition market_disputes : list Dispute.t :=
  [Dispute.mk 200%N 100%N (Some 7%N) "open" (Some 8%Z) (Some 8%Z);
   Dispute.mk 201%N 101%N (Some 9%N) "open" (Some 9%Z) (Some 9%Z)].

Definition market_db : database :=
  mk_database [sample_user; second_user] [token_aaaaaaa]
              [sold_by_ann; bought_by_ann] market_disputes.

(** ** The token generator *)

Section Generator.

Variable E : environment.
Context {row : Type} `{CustomToken row}.

Lemma length_join (l : list ascii) : String.length (join l) = length l.
Proof.
  unfold join. induction l as [|c l IH]; simpl; [reflexivity | now rewrite IH].
Qed.

Lemma choices_at_length (population : list ascii) (k pos : nat) :
  length (choices_at E population k pos) = k.
Proof. unfold choices_at. now rewrite length_map, length_seq. Qed.

Lemma choice_at_In (population : list ascii) (i : nat) :
  population <> [] -> In (choice_at E population i) population.
Proof.
  intros Hne. unfold choice_at. apply nth_In.
  apply Nat.mod_upper_bound. destruct population; [congruence | discriminate].
Qed.

Lemma draw_well_formed (pos : nat) : well_formed_token (draw E pos).
Proof.
  unfold well_formed_token, draw. split.
  - now rewrite length_join, choices_at_length.
  - unfold join. rewrite list_ascii_of_string_of_list_ascii.
    unfold choices_at. apply Forall_map, Forall_forall. intros j _.
    assert (Hall : forallb is_alnum (list_ascii_of_string (ascii_letters ++ digits)) = true)
      by reflexivity.
    rewrite forallb_forall in Hall. apply Hall, choice_at_In. discriminate.
Qed.

Lemma taken_false_not_In (tok : string) (rows : list row) :
  taken tok rows = false -> ~ In tok (map token rows).
Proof.
  unfold taken. intros Hf Hin. apply in_map_iff in Hin.
  destruct Hin as [r [Hr Hin]].
  assert (Ht : existsb (fun r => String.eqb (token r) tok) rows = true).
  { apply existsb_exists. exists r. split; [assumption|]. now apply String.eqb_eq. }
  congruence.
Qed.

Lemma after_attempts_one (w : world) :
  advance_db_ops (advance_rng 7 w) = after_attempts 1 w.
Proof.
  unfold advance_db_ops, advance_rng, after_attempts. simpl.
  f_equal; lia.
Qed.

Lemma after_attempts_S (n : nat) (w : world) :
  after_attempts n (after_attempts 1 w) = after_attempts (S n) w.
Proof. unfold after_attempts. simpl. f_equal; lia. Qed.

(** One round of the loop. *)
Lemma generate_unique_token_step (fuel : nat) (w : world) :
  generate_unique_token E row (S fuel) w =
  match db_fault E (db_ops w) with
  | Some e => Raise e (after_attempts 1 w)
  | None =>
      if taken (draw E (rng w)) (objects (db w))
      then generate_unique_token E row fuel (after_attempts 1 w)
      else Return (draw E (rng w)) (after_attempts 1 w)
  end.
Proof.
  rewrite <- after_attempts_one.
  cbn [generate_unique_token]. unfold bind, random_choices, filter_token_exists,
    bind, db_statement, ret, taken, draw.
  cbn [db_ops advance_rng db rng advance_db_ops].
  destruct (db_fault E (db_ops w)); [reflexivity|].
  destruct (existsb _ _); reflexivity.
Qed.

(** C1.  Every token [generate_unique_token] returns has exactly seven
    characters, each of them in {A-Z, a-z, 0-9}, and differs from the token
    of every row already persisted in the table of the same concrete class
    (the table the class reads through [objects]). *)
Theorem generate_unique_token_well_formed_and_unused
    (fuel : nat) (w w' : world) (tok : string) :
  generate_unique_token E row fuel w = Return tok w' ->
  String.length tok = 7
  /\ Forall (fun c => is_alnum c = true) (list_ascii_of_string tok)
  /\ (forall r, In r (objects (db w)) -> token r <> tok).
Proof.
  revert w. induction fuel as [|fuel IH]; intros w Hrun.
  - discriminate Hrun.
  - rewrite generate_unique_token_step in Hrun.
    destruct (db_fault E (db_ops w)); [discriminate|].
    destruct (taken (draw E (rng w)) (objects (db w))) eqn:Htaken.
    + apply IH in Hrun. exact Hrun.
    + injection Hrun as Htok _. subst tok.
      destruct (draw_well_formed (rng w)) as [Hlen Halnum].
      repeat split; try assumption.
      intros r Hin Heq. apply (taken_false_not_In _ _ Htaken).
      apply in_map_iff. exists r. now split.
Qed.

(** The loop returns the first draw that is not taken, and needs exactly
    that many rounds. *)
Lemma generate_unique_token_first_unused (k : nat) :
  forall w : world,
    (forall j, j < k -> taken (draw E (rng w + 7 * j)) (objects (db w)) = true) ->
    taken (draw E (rng w + 7 * k)) (objects (db w)) = false ->
    (forall j, j <= k -> db_fault E (db_ops w + j) = None) ->
    forall fuel, k < fuel ->
      generate_unique_token E row fuel w
      = Return (draw E (rng w + 7 * k)) (after_attempts (S k) w).
Proof.
  induction k as [|k IH]; intros w Hbefore Hfresh Hdb fuel Hfuel;
    (destruct fuel as [|fuel]; [lia|]); rewrite generate_unique_token_step.
  - specialize (Hdb 0 (Nat.le_refl 0)).
    rewrite Nat.add_0_r in Hdb. rewrite Nat.mul_0_r, Nat.add_0_r in *.
    rewrite Hdb, Hfresh. reflexivity.
  - pose proof (Hdb 0 (Nat.le_0_l _)) as Hdb0. rewrite Nat.add_0_r in Hdb0.
    pose proof (Hbefore 0 (Nat.lt_0_succ _)) as Hb0.
    rewrite Nat.mul_0_r, Nat.add_0_r in Hb0.
    rewrite Hdb0, Hb0.
    rewrite (IH (after_attempts 1 w)).
    + rewrite after_attempts_S. cbn [after_attempts rng].
      replace (rng w + 7 * 1 + 7 * k) with (rng w + 7 * S k) by lia.
      reflexivity.
    + intros j Hj. cbn [after_attempts rng db].
      replace (rng w + 7 * 1 + 7 * j) with (rng w + 7 * S j) by lia.
      apply Hbefore. lia.
    + cbn [after_attempts rng db].
      replace (rng w + 7 * 1 + 7 * k) with (rng w + 7 * S k) by lia.
      exact Hfresh.
    + intros j Hj. cbn [after_attempts db_ops].
      replace (db_ops w + 1 + j) with (db_ops w + S j) by lia.
      apply Hdb. lia.
    + lia.
Qed.

(** While every draw is taken the loop goes on. *)
Lemma generate_unique_token_keeps_drawing (fuel : nat) :
  forall w : world,
    (forall j, j < fuel -> taken (draw E (rng w + 7 * j)) (objects (db w)) = true) ->
    (forall j, j < fuel -> db_fault E (db_ops w + j) = None) ->
    generate_unique_token E row fuel w = Diverge.
Proof.
  induction fuel as [|fuel IH]; intros w Htaken Hdb; [reflexivity|].
  rewrite generate_unique_token_step.
  pose proof (Hdb 0 (Nat.lt_0_succ _)) as Hdb0. rewrite Nat.add_0_r in Hdb0.
  pose proof (Htaken 0 (Nat.lt_0_succ _)) as Hb0.
  simpl (7 * 0) in Hb0. rewrite Nat.add_0_r in Hb0.
  rewrite Hdb0, Hb0. apply IH.
  - intros j Hj. cbn [after_attempts rng db].
    replace (rng w + 7 * 1 + 7 * j) with (rng w + 7 * S j) by lia.
    apply Htaken. lia.
  - intros j Hj. cbn [after_attempts db_ops].
    replace (db_ops w + 1 + j) with (db_ops w + S j) by lia.
    apply Hdb. lia.
Qed.

End Generator.

(** *** The generator on the sample sources *)

Lemma constant_source_draw (pos : nat) :
  draw (calm_environment constant_source) pos = "aaaaaaa".
Proof. reflexivity. Qed.

Lemma stubborn_source_draw_before (n j : nat) :
  j < n -> draw (calm_environment (stubborn_source n)) (7 * j) = "aaaaaaa".
Proof.
  intros Hj. unfold draw, choices_at, choice_at, calm_environment, stubborn_source.
  cbn [seq map random_index].
  assert (Hlt : forall t, t < 7 -> (7 * j + t <? 7 * n)%nat = true)
    by (intros t Ht; apply Nat.ltb_lt; lia).
  rewrite !Hlt by lia. reflexivity.
Qed.

Lemma stubborn_source_draw_at (n : nat) :
  draw (calm_environment (stubborn_source n)) (7 * n) = "bbbbbbb".
Proof.
  unfold draw, choices_at, choice_at, calm_environment, stubborn_source.
  cbn [seq map random_index].
  assert (Hge : forall t, (7 * n + t <? 7 * n)%nat = false)
    by (intros t; apply Nat.ltb_ge; lia).
  rewrite !Hge. reflexivity.
Qed.

(** With the constant source and ["aaaaaaa"] in the table, no number of
    rounds is enough. *)
Lemma constant_source_never_returns (fuel : nat) :
  generate_unique_token (calm_environment constant_source)
                        UserVerificationToken.t fuel (world_of 0 sample_db)
  = Diverge.
Proof.
  apply generate_unique_token_keeps_drawing.
  - intros j _. rewrite constant_source_draw. reflexivity.
  - reflexivity.
Qed.

(** Witness of C1: the second draw of the stubborn source is returned. *)
Lemma generate_unique_token_well_formed_and_unused_witness :
  generate_unique_token (calm_environment (stubborn_source 1))
                        UserVerificationToken.t 2 (world_of 0 sample_db)
  = Return "bbbbbbb" (after_attempts 2 (world_of 0 sample_db))
  /\ String.length "bbbbbbb" = 7
  /\ Forall (fun c => is_alnum c = true) (list_ascii_of_string "bbbbbbb")
  /\ (forall r, In r (objects (db (world_of 0 sample_db))) ->
                token r <> "bbbbbbb").
Proof.
  split; [reflexivity|].
  apply (generate_unique_token_well_formed_and_unused
           (calm_environment (stubborn_source 1)) 2 (world_of 0 sample_db)
           (after_attempts 2 (world_of 0 sample_db)) "bbbbbbb").
  reflexivity.
Defined.

(** *** Fair random sources *)

Lemma alphabet_index_correct (c : ascii) :
  is_alnum c = true ->
  (alphabet_index c <? 62)%nat = true
  /\ nth (alphabet_index c) (list_ascii_of_string (ascii_letters ++ digits)) " "%char = c.
Proof.
  destruct c as [[] [] [] [] [] [] [] []]; intros Halnum;
    try discriminate Halnum; split; reflexivity.
Qed.

Lemma digit_horner (ds : list nat) :
  Forall (fun d => d < 62) ds ->
  forall t, t < length ds -> digit t (horner ds) = nth t ds 0.
Proof.
  induction 1 as [|d ds Hd Hds IH]; intros t Ht; cbn [length] in Ht; [lia|].
  cbn [horner]. destruct t as [|t]; cbn [digit nth].
  - rewrite Nat.mul_comm, Nat.Div0.mod_add. now apply Nat.mod_small.
  - rewrite Nat.mul_comm, Nat.div_add by lia.
    rewrite (Nat.div_small d 62) by assumption. cbn [Nat.add].
    apply IH. lia.
Qed.

Lemma enumerating_source_at (j t : nat) :
  t < 7 -> enumerating_source (7 * j + t) = digit t j.
Proof.
  intros Ht. unfold enumerating_source.
  replace (7 * j + t) with (t + j * 7) by lia.
  rewrite Nat.Div0.mod_add, Nat.div_add by lia.
  rewrite (Nat.mod_small t 7), (Nat.div_small t 7) by assumption.
  reflexivity.
Qed.

Lemma delayed_source_at (n j t : nat) :
  t < 7 -> delayed_source n (7 * (n + j) + t) = digit t j.
Proof.
  intros Ht. unfold delayed_source.
  assert (Hge : (7 * (n + j) + t <? 7 * n)%nat = false) by (apply Nat.ltb_ge; lia).
  rewrite Hge. replace (7 * (n + j) + t - 7 * n) with (7 * j + t) by lia.
  now apply enumerating_source_at.
Qed.

Lemma delayed_source_before (n j : nat) :
  j < n -> draw (calm_environment (delayed_source n)) (7 * j) = "aaaaaaa".
Proof.
  intros Hj. unfold draw, choices_at, choice_at, calm_environment, delayed_source.
  cbn [seq map random_index].
  assert (Hlt : forall t, t < 7 -> (7 * j + t <? 7 * n)%nat = true)
    by (intros t Ht; apply Nat.ltb_lt; lia).
  rewrite !Hlt by lia. reflexivity.
Qed.

(** The counting source draws the token whose characters have the indices
    [ds] in round [horner ds], once the [n] rounds of the delay are over. *)
Lemma delayed_source_draw (n : nat) (ds : list nat) :
  length ds = 7 ->
  Forall (fun d => d < 62) ds ->
  draw (calm_environment (delayed_source n)) (7 * (n + horner ds))
  = join (map (fun d => nth d (list_ascii_of_string (ascii_letters ++ digits)) " "%char)
              ds).
Proof.
  intros Hlen Hds.
  assert (Hdigit : forall t, t < 7 ->
            random_index (calm_environment (delayed_source n))
                         (7 * (n + horner ds) + t) mod 62 = nth t ds 0).
  { intros t Ht. cbn [calm_environment random_index].
    rewrite delayed_source_at by assumption.
    rewrite digit_horner by (assumption || lia).
    apply Nat.mod_small.
    rewrite Forall_forall in Hds. apply Hds, nth_In. lia. }
  unfold draw, choices_at, choice_at.
  change (length (list_ascii_of_string (ascii_letters ++ digits))) with 62.
  cbn [seq map]. rewrite !Hdigit by lia.
  destruct ds as [|d0 [|d1 [|d2 [|d3 [|d4 [|d5 [|d6 [|d7 ds]]]]]]]];
    try discriminate Hlen.
  reflexivity.
Qed.

(** The counting source is fair, with or without delay. *)
Lemma delayed_source_fair (n : nat) :
  fair_from (calm_environment (delayed_source n)) 0.
Proof.
  intros tok [Hlen Halnum].
  exists (n + horner (map alphabet_index (list_ascii_of_string tok))).
  cbn [Nat.add]. rewrite delayed_source_draw.
  - rewrite map_map. rewrite <- (string_of_list_ascii_of_string tok) at 2.
    unfold join. f_equal.
    rewrite <- (map_id (list_ascii_of_string tok)) at 2.
    apply map_ext_in. intros c Hc.
    rewrite Forall_forall in Halnum.
    exact (proj2 (alphabet_index_correct c (Halnum c Hc))).
  - rewrite length_map. rewrite <- Hlen. clear.
    induction tok as [|c tok IH]; cbn; [reflexivity | now rewrite IH].
  - apply Forall_map. eapply Forall_impl; [|exact Halnum].
    intros c Hc. apply Nat.ltb_lt. exact (proj1 (alphabet_index_correct c Hc)).
Qed.

(** Among the draws up to an unused one there is a first unused one. *)
Lemma first_unused_draw
    (E : environment) (row : Type) (C : CustomToken row) (w : world) :
  forall j,
    taken (draw E (rng w + 7 * j)) (objects (db w)) = false ->
    exists k,
      k <= j
      /\ (forall i, i < k -> taken (draw E (rng w + 7 * i)) (objects (db w)) = true)
      /\ taken (draw E (rng w + 7 * k)) (objects (db w)) = false.
Proof.
  induction j as [j IH] using lt_wf_ind. intros Hunused.
  assert (Hsearch : forall m,
             (forall i, i < m ->
                taken (draw E (rng w + 7 * i)) (objects (db w)) = true)
             \/ (exists i, i < m
                 /\ taken (draw E (rng w + 7 * i)) (objects (db w)) = false)).
  { induction m as [|m [Hall|[i [Hi Hfree]]]].
    - left. intros i Hi. lia.
    - destruct (taken (draw E (rng w + 7 * m)) (objects (db w))) eqn:Hm.
      + left. intros i Hi. destruct (Nat.eq_dec i m) as [->|Hne];
          [exact Hm | apply Hall; lia].
      + right. exists m. split; [lia | exact Hm].
    - right. exists i. split; [lia | exact Hfree]. }
  destruct (Hsearch j) as [Hall|[i [Hi Hfree]]].
  - exists j. split; [lia|]. split; assumption.
  - destruct (IH i Hi Hfree) as [k [Hk Hfirst]].
    exists k. split; [lia | exact Hfirst].
Qed.

(** C9.  For a table of the class in which some well-formed token is
    unused, [generate_unique_token] ends: under a fair random source (one
    that draws every seven-character alphanumeric token at some round) and
    with a database that answers, there is a round [k] at which the loop
    returns, it returns the draw of that round, which is not in the table,
    all the draws before were in the table, and fewer rounds do not end the
    loop.  The number of rounds has no bound: for every [n] there are such a
    table and a fair source for which [n] rounds are not enough. *)
Theorem generate_unique_token_terminates_when_a_value_is_unused :
  (forall (E : environment) (row : Type) (C : CustomToken row) (w : world),
      (exists tok, well_formed_token tok /\ taken tok (objects (db w)) = false) ->
      fair_from E (rng w) ->
      (forall j, db_fault E (db_ops w + j) = None) ->
      exists k,
        (forall fuel, k < fuel ->
           generate_unique_token E row fuel w
           = Return (draw E (rng w + 7 * k)) (after_attempts (S k) w))
        /\ (forall fuel, fuel <= k -> generate_unique_token E row fuel w = Diverge)
        /\ taken (draw E (rng w + 7 * k)) (objects (db w)) = false
        /\ (forall i, i < k ->
              taken (draw E (rng w + 7 * i)) (objects (db w)) = true))
  /\ (forall n : nat, exists (E : environment) (w : world),
        (exists tok, well_formed_token tok
                     /\ taken tok (verification_tokens (db w)) = false)
        /\ fair_from E (rng w)
        /\ (forall j, db_fault E (db_ops w + j) = None)
        /\ generate_unique_token E UserVerificationToken.t n w = Diverge).
Proof.
  split.
  - intros E row C w [tok [Hwf Hunused]] Hfair Hdb.
    destruct (Hfair tok Hwf) as [j Hj].
    rewrite <- Hj in Hunused.
    destruct (first_unused_draw E row C w j Hunused) as [k [_ [Hbefore Hfree]]].
    exists k. repeat split; try assumption.
    + intros fuel Hfuel. apply generate_unique_token_first_unused; auto.
    + intros fuel Hfuel. apply generate_unique_token_keeps_drawing.
      * intros i Hi. apply Hbefore. lia.
      * intros i Hi. apply Hdb.
  - intros n.
    exists (calm_environment (delayed_source n)), (world_of 0 sample_db).
    split; [|split; [|split]].
    + exists "bbbbbbb". split; [|reflexivity].
      split; [reflexivity|]. repeat constructor.
    + apply delayed_source_fair.
    + reflexivity.
    + apply generate_unique_token_keeps_drawing.
      * intros j Hj. cbn [world_of rng Nat.add].
        rewrite delayed_source_before by assumption. reflexivity.
      * reflexivity.
Qed.

(** Witness of C9: the counting source, delayed by two rounds, on the
    sample table, in which ["bbbbbbb"] is unused. *)
Lemma generate_unique_token_terminates_when_a_value_is_unused_witness :
  exists k tok w',
    generate_unique_token (calm_environment (delayed_source 2))
                          UserVerificationToken.t (S k) (world_of 0 sample_db)
    = Return tok w'
    /\ taken tok (verification_tokens sample_db) = false.
Proof.
  destruct (proj1 generate_unique_token_terminates_when_a_value_is_unused
              (calm_environment (delayed_source 2)) UserVerificationToken.t _
              (world_of 0 sample_db)) as [k [Hret [_ [Hfree _]]]].
  - exists "bbbbbbb". split; [|reflexivity].
    split; [reflexivity|]. repeat constructor.
  - apply delayed_source_fair.
  - reflexivity.
  - exists k. eexists. eexists. split; [apply Hret; lia | exact Hfree].
Defined.

(** Fairness is needed: with ["aaaaaaa"] persisted and a source that draws
    it every time, ["bbbbbbb"] is unused and yet the loop never returns. *)
Lemma generate_unique_token_unfair_source_never_returns :
  (exists tok, well_formed_token tok
               /\ taken tok (verification_tokens sample_db) = false)
  /\ forall fuel,
       generate_unique_token (calm_environment constant_source)
                             UserVerificationToken.t fuel (world_of 0 sample_db)
       = Diverge.
Proof.
  split.
  - exists "bbbbbbb". split; [|reflexivity].
    split; [reflexivity|]. repeat constructor.
  - apply constant_source_never_returns.
Qed.

(** ** The derived property [is_active] *)

(** C2.  For every token row, [is_active] equals
    [active AND (expires_on is absent OR now < expires_on)]; in particular
    it is false for a row whose [expires_on] lies in the past, whatever
    [active] is, and false for a row with [active = False], whatever the
    expiry is. *)
Theorem is_active_is_active_and_not_expired :
  forall (row : Type) (C : CustomToken row) (self : row) (w : world),
    is_active self w
    = active self && match expires_on self with
                     | None => true
                     | Some e => (clock w <? e)%Z
                     end
    /\ (forall e, expires_on self = Some e -> (e < clock w)%Z ->
                  is_active self w = false)
    /\ (active self = false -> is_active self w = false).
Proof.
  intros row C self w. unfold is_active. repeat split.
  - destruct (active self); reflexivity.
  - intros e He Hpast. rewrite He. destruct (active self); [|reflexivity].
    cbn [negb]. apply Z.ltb_ge. lia.
  - intros Hoff. rewrite Hoff. reflexivity.
Qed.

(** Witness of C2: a row that expired at time 5, read at time 10, and a
    row switched off. *)
Lemma is_active_is_active_and_not_expired_witness :
  is_active (UserVerificationToken.mk "aaaaaaa" (Some 0%Z) (Some 5%Z) true 7%N)
            (world_of 10 sample_db) = false
  /\ is_active (UserVerificationToken.mk "aaaaaaa" (Some 0%Z) None false 7%N)
               (world_of 10 sample_db) = false.
Proof.
  split.
  - apply (proj1 (proj2 (is_active_is_active_and_not_expired
                           UserVerificationToken.t _
                           (UserVerificationToken.mk "aaaaaaa" (Some 0%Z) (Some 5%Z) true 7%N)
                           (world_of 10 sample_db))) 5%Z).
    + reflexivity.
    + reflexivity.
  - apply (proj2 (proj2 (is_active_is_active_and_not_expired
                           UserVerificationToken.t _
                           (UserVerificationToken.mk "aaaaaaa" (Some 0%Z) None false 7%N)
                           (world_of 10 sample_db)))).
    reflexivity.
Defined.

(** ** The verification e-mail *)

Section Verification.

Variable E : environment.

(** The INSERT of the token row, when the database takes it. *)
Lemma UserVerificationToken_objects_create_ok
    (tok : string) (self : User.t) (expiry : Z) (w : world) :
  db_fault E (db_ops w) = None ->
  taken tok (verification_tokens (db w)) = false ->
  (checked_now w = true -> user_exists (User.id self) (db w) = true) ->
  UserVerificationToken_objects_create E tok self expiry w
  = Return (UserVerificationToken.mk tok (Some (clock w)) (Some expiry) true
                                     (User.id self))
           (persist_token
              (UserVerificationToken.mk tok (Some (clock w)) (Some expiry) true
                                        (User.id self)) w).
Proof.
  intros Hdb Hfresh Huser.
  unfold UserVerificationToken_objects_create, bind, timezone_now, db_statement.
  rewrite Hdb. unfold taken in Hfresh.
  cbn [db advance_db_ops token UserVerificationToken_CustomToken] in *.
  rewrite Hfresh. unfold token_resolves.
  cbn [UserVerificationToken.user_id db advance_db_ops].
  change (checked_now (advance_db_ops w)) with (checked_now w).
  destruct (checked_now w); [|reflexivity].
  rewrite (Huser eq_refl). reflexivity.
Qed.

(** A failing query makes the generator raise. *)
Lemma generate_unique_token_query_fault (fuel : nat) (w : world) (e : exn) :
  db_fault E (db_ops w) = Some e ->
  generate_unique_token E UserVerificationToken.t (S fuel) w
  = Raise e (after_attempts 1 w).
Proof. intros Hdb. rewrite generate_unique_token_step, Hdb. reflexivity. Qed.

(** [try: ... except Exception] turns an [Exception] into the error log. *)
Lemma send_email_verification_caught
    (fuel : nat) (self : User.t) (w w1 : world) (e : exn) :
  send_email_verification_try E fuel self w = Raise e w1 ->
  isinstance_Exception e = true ->
  send_email_verification E fuel self w
  = Return tt (emit (Log ERROR ("Failed to send email: " ++ str_exn e)) w1).
Proof.
  intros Htry Hclass. unfold send_email_verification, try_except_Exception.
  rewrite Htry, Hclass. reflexivity.
Qed.

(** What passes the handler is no [Exception]. *)
Lemma send_email_verification_passes_only_BaseException
    (fuel : nat) (self : User.t) (w w' : world) (e : exn) :
  send_email_verification E fuel self w = Raise e w' ->
  isinstance_Exception e = false.
Proof.
  unfold send_email_verification, try_except_Exception.
  destruct (send_email_verification_try E fuel self w) as [a w1|e1 w1|];
    try discriminate.
  destruct (isinstance_Exception e1) eqn:Hclass; [discriminate|].
  intros Heq. injection Heq as He _. now subst e1.
Qed.

Section Run.

Variables (self : User.t) (w : world) (k : nat).

Hypothesis draws_taken :
  forall j, j < k ->
    taken (draw E (rng w + 7 * j)) (verification_tokens (db w)) = true.
Hypothesis draw_unused :
  taken (draw E (rng w + 7 * k)) (verification_tokens (db w)) = false.
Hypothesis database_up :
  forall j, j <= S k -> db_fault E (db_ops w + j) = None.
Hypothesis user_persisted :
  checked_now w = true -> user_exists (User.id self) (db w) = true.

(** The [try] block when token and row go through: the mailer decides. *)
Lemma send_email_verification_try_run (fuel : nat) :
  k < fuel ->
  send_email_verification_try E fuel self w
  = let tok := draw E (rng w + 7 * k) in
    let w3 := persist_token (minted_token self tok (clock w))
                            (after_attempts (S k) w) in
    match send_email E (verification_call self tok) with
    | Some e => Raise e (emit (SendEmail (verification_call self tok)) w3)
    | None =>
        Return tt
          (emit (Log INFO ("Email verification link sent to " ++ User.email self))
                (emit (SendEmail (verification_call self tok)) w3))
    end.
Proof.
  intros Hfuel. unfold send_email_verification_try.
  unfold bind at 1.
  rewrite (generate_unique_token_first_unused E k w draws_taken draw_unused)
    by (assumption || (intros j Hj; apply database_up; lia)).
  unfold bind at 1. unfold timezone_now at 1.
  unfold bind at 1.
  rewrite UserVerificationToken_objects_create_ok.
  - cbn [after_attempts clock].
    unfold bind, call_send_email, logger_info, verification_call, minted_token.
    cbv zeta.
    destruct (send_email E _); reflexivity.
  - cbn [after_attempts db_ops]. apply database_up. lia.
  - exact draw_unused.
  - exact user_persisted.
Qed.

End Run.

(** The [try] block when the INSERT of the token row fails. *)
Lemma send_email_verification_try_persist_fault
    (self : User.t) (w : world) (k fuel : nat) (e : exn) :
  (forall j, j < k ->
     taken (draw E (rng w + 7 * j)) (verification_tokens (db w)) = true) ->
  taken (draw E (rng w + 7 * k)) (verification_tokens (db w)) = false ->
  (forall j, j <= k -> db_fault E (db_ops w + j) = None) ->
  db_fault E (db_ops w + S k) = Some e ->
  k < fuel ->
  send_email_verification_try E fuel self w
  = Raise e (advance_db_ops (after_attempts (S k) w)).
Proof.
  intros Htaken Hunused Hup Hdown Hfuel. unfold send_email_verification_try.
  unfold bind at 1.
  rewrite (generate_unique_token_first_unused E k w Htaken Hunused Hup fuel Hfuel).
  unfold bind, timezone_now, UserVerificationToken_objects_create, bind,
    timezone_now, db_statement.
  cbn [after_attempts db_ops]. rewrite Hdown. reflexivity.
Qed.

End Verification.

Lemma db_defer (r : written) (w : world) : db (defer r w) = db w.
Proof. unfold defer. destruct (atomic_blocks w); reflexivity. Qed.

Lemma clock_defer (r : written) (w : world) : clock (defer r w) = clock w.
Proof. unfold defer. destruct (atomic_blocks w); reflexivity. Qed.

Lemma trace_defer (r : written) (w : world) : trace (defer r w) = trace w.
Proof. unfold defer. destruct (atomic_blocks w); reflexivity. Qed.

Lemma atomic_blocks_defer (r : written) (w : world) :
  atomic_blocks (defer r w) = atomic_blocks w.
Proof.
  unfold defer. destruct (atomic_blocks w) eqn:Hblocks; exact Hblocks.
Qed.

Lemma db_after_insert (table key : string) (w : world) :
  db (after_insert table key w) = db w.
Proof. unfold after_insert, emit. cbn. destruct (atomic_blocks w); reflexivity. Qed.

Lemma clock_after_insert (table key : string) (w : world) :
  clock (after_insert table key w) = clock w.
Proof. unfold after_insert, emit. cbn. destruct (atomic_blocks w); reflexivity. Qed.

Lemma dispatches_app (tr1 tr2 : list event) :
  dispatches (tr1 ++ tr2) = (dispatches tr1 ++ dispatches tr2)%list.
Proof. unfold dispatches. apply flat_map_app. Qed.

Lemma dispatches_after_insert (table key : string) (w : world) :
  dispatches (trace (after_insert table key w)) = dispatches (trace w).
Proof.
  unfold after_insert, emit. cbn.
  destruct (atomic_blocks w); cbn; rewrite !dispatches_app; cbn;
    now rewrite ?app_nil_r.
Qed.

Lemma list_ascii_of_string_app (s t : string) :
  list_ascii_of_string (s ++ t) = (list_ascii_of_string s ++ list_ascii_of_string t)%list.
Proof. induction s as [|c s IH]; cbn; [reflexivity | now rewrite IH]. Qed.

Lemma escape_char_no_special (c : ascii) :
  forallb (fun x => negb (html_special x)) (list_ascii_of_string (escape_char c)) = true.
Proof. destruct c as [[] [] [] [] [] [] [] []]; reflexivity. Qed.

(** No character of an escaped text opens a tag or closes an attribute. *)
Lemma escape_no_special (s : string) :
  forallb (fun x => negb (html_special x)) (list_ascii_of_string (escape s)) = true.
Proof.
  induction s as [|c s IH]; [reflexivity|].
  cbn [escape]. rewrite list_ascii_of_string_app, forallb_app, IH.
  now rewrite escape_char_no_special.
Qed.

Lemma append_assoc (s t u : string) : (s ++ t) ++ u = s ++ (t ++ u).
Proof. induction s as [|c s IH]; cbn; [reflexivity | now rewrite IH]. Qed.

(** The greeting with the escaped name occurs in the body. *)
Lemma email_body_contains_name (self : User.t) (tok : string) :
  contains (email_body self tok)
           ("<h1>Hello " ++ escape (User.name self) ++ ".</h1>").
Proof.
  unfold contains, email_body.
  exists (nl ++ spaces 12 ++ "<html>" ++ nl ++ spaces 16).
  eexists. rewrite !append_assoc. reflexivity.
Qed.

(** The link with the path [/verification/verify_email/{user_id}/{token}/]
    occurs in the body, as the target of the anchor. *)
Lemma email_body_contains_link (self : User.t) (tok : string) :
  contains (email_body self tok)
           ("<a href=" ++ dquote ++ "http://localhost:5173"
            ++ "/verification/verify_email/" ++ str_uuid (User.id self)
            ++ "/" ++ tok ++ "/" ++ dquote ++ ">").
Proof.
  unfold contains, email_body, verification_path.
  exists (nl ++ spaces 12 ++ "<html>" ++ nl
          ++ spaces 16 ++ "<h1>Hello " ++ escape (User.name self) ++ ".</h1>" ++ nl
          ++ spaces 16 ++ "<h6>Click here to verify your email: " ++ nl
          ++ spaces 20).
  eexists. rewrite !append_assoc. reflexivity.
Qed.

(** C6.  When the generator finds an unused token and the database takes
    the row, [send_email_verification] persists a token for the user whose
    [expires_on] is the time of the call plus exactly 24 hours, whatever the
    mailer does afterwards; the row is active right after the call and at
    every time before the expiry, and inactive from the expiry on. *)
Theorem send_email_verification_token_expires_after_24_hours :
  forall (E : environment) (self : User.t) (w : world) (k fuel : nat),
    (forall j, j < k ->
       taken (draw E (rng w + 7 * j)) (verification_tokens (db w)) = true) ->
    taken (draw E (rng w + 7 * k)) (verification_tokens (db w)) = false ->
    (forall j, j <= S k -> db_fault E (db_ops w + j) = None) ->
    user_exists (User.id self) (db w) = true ->
    k < fuel ->
    let r := minted_token self (draw E (rng w + 7 * k)) (clock w) in
    exists w',
      final_world (send_email_verification E fuel self w) = Some w'
      /\ verification_tokens (db w') = (verification_tokens (db w) ++ [r])%list
      /\ UserVerificationToken.user_id r = User.id self
      /\ expires_on r = Some (clock w + 24 * 3600 * 1000000)%Z
      /\ clock w' = clock w
      /\ is_active r w' = true
      /\ (forall w2, (clock w2 < clock w + 24 * 3600 * 1000000)%Z ->
                     is_active r w2 = true)
      /\ (forall w2, (clock w + 24 * 3600 * 1000000 <= clock w2)%Z ->
                     is_active r w2 = false).
Proof.
  intros E self w k fuel Htaken Hunused Hup Huser Hfuel r.
  assert (Hactive : forall w2, (clock w2 < clock w + 24 * 3600 * 1000000)%Z ->
                               is_active r w2 = true).
  { intros w2 Hlt. unfold is_active, r, minted_token, timedelta_hours. cbn.
    apply Z.ltb_lt. lia. }
  assert (Hexpired : forall w2, (clock w + 24 * 3600 * 1000000 <= clock w2)%Z ->
                                is_active r w2 = false).
  { intros w2 Hle. unfold is_active, r, minted_token, timedelta_hours. cbn.
    apply Z.ltb_ge. lia. }
  assert (Hfinal : exists w',
             final_world (send_email_verification E fuel self w) = Some w'
             /\ db w' = db (persist_token r (after_attempts (S k) w))
             /\ clock w' = clock w).
  { unfold send_email_verification, try_except_Exception.
    rewrite (send_email_verification_try_run E self w k Htaken Hunused Hup (fun _ => Huser) fuel Hfuel).
    cbv zeta. fold r.
    destruct (send_email E _) as [e|].
    - destruct (isinstance_Exception e); eexists; (split; [reflexivity|]);
        unfold logger_error, persist_token;
        cbn [emit db clock];
        rewrite ?db_after_insert, ?clock_after_insert, ?db_defer, ?clock_defer;
        split; reflexivity.
    - eexists. split; [reflexivity|].
      unfold persist_token. cbn [emit db clock].
      rewrite ?db_after_insert, ?clock_after_insert, ?db_defer, ?clock_defer.
      split; reflexivity. }
  destruct Hfinal as [w' [Hw' [Hdb Hclock]]].
  exists w'. split; [exact Hw'|]. split.
  { rewrite Hdb. unfold persist_token. rewrite db_after_insert, db_defer.
    reflexivity. }
  split; [reflexivity|]. split; [reflexivity|]. split; [exact Hclock|].
  split; [|split; assumption].
  apply Hactive. rewrite Hclock. lia.
Qed.

(** Witness of C6: the sample user at time 1000. *)
Lemma send_email_verification_token_expires_after_24_hours_witness :
  exists w',
    final_world (send_email_verification (calm_environment (stubborn_source 0)) 1
                   sample_user (world_of 1000 sample_db)) = Some w'
    /\ verification_tokens (db w')
       = [token_aaaaaaa;
          UserVerificationToken.mk "bbbbbbb" (Some 1000%Z) (Some 86400001000%Z)
                                   true 7%N]
    /\ is_active (UserVerificationToken.mk "bbbbbbb" (Some 1000%Z)
                    (Some 86400001000%Z) true 7%N) w' = true
    /\ is_active (UserVerificationToken.mk "bbbbbbb" (Some 1000%Z)
                    (Some 86400001000%Z) true 7%N)
                 (world_of 90000001000 sample_db) = false.
Proof.
  destruct (send_email_verification_token_expires_after_24_hours
              (calm_environment (stubborn_source 0)) sample_user
              (world_of 1000 sample_db) 0 1)
    as [w' [Hfinal [Hrows [_ [_ [_ [Hnow [_ Hlater]]]]]]]].
  - intros j Hj. lia.
  - reflexivity.
  - intros j Hj. reflexivity.
  - reflexivity.
  - lia.
  - exists w'. split; [exact Hfinal|]. split; [exact Hrows|].
    split; [exact Hnow|]. apply Hlater. cbn. lia.
Defined.

(** C7.  When token and row go through, [send_email_verification] calls the
    mailer exactly once, with the subject ["Email Verification"], an HTML
    body that contains the user's name in escaped form and a link whose
    path is [/verification/verify_email/{user_id}/{token}/] (the user's
    UUID and the seven-character token just drawn), and the recipient list
    [[{address: email, displayName: name}]]. *)
Theorem send_email_verification_composes_the_mail :
  forall (E : environment) (self : User.t) (w : world) (k fuel : nat),
    (forall j, j < k ->
       taken (draw E (rng w + 7 * j)) (verification_tokens (db w)) = true) ->
    taken (draw E (rng w + 7 * k)) (verification_tokens (db w)) = false ->
    (forall j, j <= S k -> db_fault E (db_ops w + j) = None) ->
    user_exists (User.id self) (db w) = true ->
    k < fuel ->
    let tok := draw E (rng w + 7 * k) in
    exists (w' : world) (body : string),
      final_world (send_email_verification E fuel self w) = Some w'
      /\ dispatches (trace w')
         = (dispatches (trace w)
            ++ [mk_call (Some (mk_content "Email Verification" body))
                        (Some [mk_recipient (User.email self) (User.name self)])])%list
      /\ In (minted_token self tok (clock w)) (verification_tokens (db w'))
      /\ String.length tok = 7
      /\ contains body ("<h1>Hello " ++ escape (User.name self) ++ ".</h1>")
      /\ forallb (fun x => negb (html_special x))
                 (list_ascii_of_string (escape (User.name self))) = true
      /\ contains body
           ("<a href=" ++ dquote ++ "http://localhost:5173"
            ++ "/verification/verify_email/" ++ str_uuid (User.id self)
            ++ "/" ++ tok ++ "/" ++ dquote ++ ">").
Proof.
  intros E self w k fuel Htaken Hunused Hup Huser Hfuel tok.
  assert (Hfinal : exists w',
             final_world (send_email_verification E fuel self w) = Some w'
             /\ db w' = db (persist_token (minted_token self tok (clock w))
                                          (after_attempts (S k) w))
             /\ dispatches (trace w')
                = (dispatches (trace w) ++ [verification_call self tok])%list).
  { unfold send_email_verification, try_except_Exception.
    rewrite (send_email_verification_try_run E self w k Htaken Hunused Hup (fun _ => Huser) fuel Hfuel).
    cbv zeta. fold tok.
    destruct (send_email E _) as [e|].
    - destruct (isinstance_Exception e); eexists; (split; [reflexivity|]);
        unfold logger_error, persist_token;
        cbn [emit db trace]; rewrite ?db_after_insert, ?dispatches_app,
          ?dispatches_after_insert, ?db_defer, ?trace_defer;
        cbn; rewrite ?app_nil_r; split; reflexivity.
    - eexists. split; [reflexivity|].
      unfold persist_token. cbn [emit db trace].
      rewrite ?db_after_insert, ?dispatches_app, ?dispatches_after_insert,
        ?db_defer, ?trace_defer.
      cbn. rewrite ?app_nil_r. split; reflexivity. }
  destruct Hfinal as [w' [Hw' [Hdb Hcalls]]].
  exists w', (email_body self tok).
  split; [exact Hw'|]. split; [exact Hcalls|]. split.
  { rewrite Hdb. unfold persist_token. rewrite db_after_insert, db_defer. cbn.
    apply in_or_app. right. left. reflexivity. }
  split; [exact (proj1 (draw_well_formed E _))|].
  split; [apply email_body_contains_name|].
  split; [apply escape_no_special|].
  apply email_body_contains_link.
Qed.

(** Witness of C7: the mail for the sample user, whose name holds a tag. *)
Lemma send_email_verification_composes_the_mail_witness :
  exists (w' : world) (body : string),
    final_world (send_email_verification (calm_environment (stubborn_source 0)) 1
                   sample_user (world_of 1000 sample_db)) = Some w'
    /\ dispatches (trace w')
       = [mk_call (Some (mk_content "Email Verification" body))
                  (Some [mk_recipient "ann@example.org" "Ann <Lee>"])]
    /\ contains body "<h1>Hello Ann &lt;Lee&gt;.</h1>"
    /\ contains body
         ("<a href=" ++ dquote
          ++ "http://localhost:5173/verification/verify_email/00000000-0000-0000-0000-000000000007/bbbbbbb/"
          ++ dquote ++ ">").
Proof.
  destruct (send_email_verification_composes_the_mail
              (calm_environment (stubborn_source 0)) sample_user
              (world_of 1000 sample_db) 0 1)
    as [w' [body [Hfinal [Hcalls [_ [_ [Hname [_ Hlink]]]]]]]].
  - intros j Hj. lia.
  - reflexivity.
  - intros j Hj. reflexivity.
  - reflexivity.
  - lia.
  - exists w', body. split; [exact Hfinal|]. split; [exact Hcalls|].
    split; [exact Hname | exact Hlink].
Defined.

(** C3, as the code has it.  Every exception of class [Exception] raised
    inside [send_email_verification] is caught and logged, and the call
    returns normally, with the value it returns on success, so the caller
    sees no difference: this holds for a failing query of the generator,
    for a failing INSERT of the token row and for a failing call of the
    mailer.  An exception that passes is therefore not an [Exception]. *)
Theorem send_email_verification_swallows_every_Exception :
  forall (E : environment) (fuel : nat) (self : User.t) (w : world),
    (forall e w1,
        send_email_verification_try E fuel self w = Raise e w1 ->
        isinstance_Exception e = true ->
        send_email_verification E fuel self w
        = Return tt (emit (Log ERROR ("Failed to send email: " ++ str_exn e)) w1))
    /\ (forall e w', send_email_verification E fuel self w = Raise e w' ->
                     isinstance_Exception e = false)
    /\ (forall e, db_fault E (db_ops w) = Some e ->
                  isinstance_Exception e = true ->
                  send_email_verification E (S fuel) self w
                  = Return tt (emit (Log ERROR ("Failed to send email: " ++ str_exn e))
                                    (after_attempts 1 w)))
    /\ (forall e k,
          (forall j, j < k ->
             taken (draw E (rng w + 7 * j)) (verification_tokens (db w)) = true) ->
          taken (draw E (rng w + 7 * k)) (verification_tokens (db w)) = false ->
          (forall j, j <= k -> db_fault E (db_ops w + j) = None) ->
          db_fault E (db_ops w + S k) = Some e ->
          isinstance_Exception e = true ->
          k < fuel ->
          send_email_verification E fuel self w
          = Return tt (emit (Log ERROR ("Failed to send email: " ++ str_exn e))
                            (advance_db_ops (after_attempts (S k) w))))
    /\ (forall e k,
          (forall j, j < k ->
             taken (draw E (rng w + 7 * j)) (verification_tokens (db w)) = true) ->
          taken (draw E (rng w + 7 * k)) (verification_tokens (db w)) = false ->
          (forall j, j <= S k -> db_fault E (db_ops w + j) = None) ->
          user_exists (User.id self) (db w) = true ->
          send_email E (verification_call self (draw E (rng w + 7 * k))) = Some e ->
          isinstance_Exception e = true ->
          k < fuel ->
          send_email_verification E fuel self w
          = Return tt
              (emit (Log ERROR ("Failed to send email: " ++ str_exn e))
                 (emit (SendEmail (verification_call self (draw E (rng w + 7 * k))))
                    (persist_token
                       (minted_token self (draw E (rng w + 7 * k)) (clock w))
                       (after_attempts (S k) w))))).
Proof.
  intros E fuel self w. split; [|split; [|split; [|split]]].
  - intros e w1. apply send_email_verification_caught.
  - intros e w'. apply send_email_verification_passes_only_BaseException.
  - intros e Hdb Hclass. apply send_email_verification_caught; [|exact Hclass].
    unfold send_email_verification_try. unfold bind at 1.
    now rewrite (generate_unique_token_query_fault E fuel w e Hdb).
  - intros e k Htaken Hunused Hup Hdown Hclass Hfuel.
    apply send_email_verification_caught; [|exact Hclass].
    now apply send_email_verification_try_persist_fault.
  - intros e k Htaken Hunused Hup Huser Hmail Hclass Hfuel.
    apply send_email_verification_caught; [|exact Hclass].
    rewrite (send_email_verification_try_run E self w k Htaken Hunused Hup (fun _ => Huser) fuel Hfuel).
    cbv zeta. rewrite Hmail. reflexivity.
Qed.

(** Witness of C3: the mailer cannot reach its server; the call returns,
    the row stays, and the log has the error. *)
Lemma send_email_verification_swallows_every_Exception_witness :
  exists w',
    send_email_verification
      (with_mailer unreachable_mailer (calm_environment (stubborn_source 0))) 1
      sample_user (world_of 1000 sample_db) = Return tt w'
    /\ logs (trace w') = [(ERROR, "Failed to send email: connection refused")].
Proof.
  eexists. split.
  - apply (proj2 (proj2 (proj2 (proj2
             (send_email_verification_swallows_every_Exception
                (with_mailer unreachable_mailer (calm_environment (stubborn_source 0)))
                1 sample_user (world_of 1000 sample_db)))))
             (mk_exn (OtherException "ServiceRequestError") "connection refused") 0).
    + intros j Hj. lia.
    + reflexivity.
    + intros j Hj. reflexivity.
    + reflexivity.
    + reflexivity.
    + reflexivity.
    + lia.
  - reflexivity.
Defined.

(** C3 as stated fails for the exceptions that are no [Exception]: when the
    worker is told to exit while the mailer sends, [SystemExit] leaves
    [send_email_verification]. *)
Lemma send_email_verification_lets_SystemExit_through :
  ~ (forall (E : environment) (fuel : nat) (self : User.t) (w : world)
            (e : exn) (w1 : world),
       send_email_verification_try E fuel self w = Raise e w1 ->
       exists w', send_email_verification E fuel self w = Return tt w').
Proof.
  intros Hclaim.
  destruct (send_email_verification_try
              (with_mailer exiting_mailer (calm_environment (stubborn_source 0))) 1
              sample_user (world_of 1000 sample_db)) as [a w1|e w1|] eqn:Htry.
  - vm_compute in Htry. discriminate Htry.
  - destruct (Hclaim _ _ _ _ _ _ Htry) as [w' Hret].
    vm_compute in Hret. discriminate Hret.
  - vm_compute in Htry. discriminate Htry.
Qed.

(** ** The user manager *)

(** C5.  [create_user] called with [None] or with the empty string as
    e-mail raises the validation error ["Users must have an email address"]
    to its caller, and the world, the table of users included, is what it
    was. *)
Theorem create_user_without_email_raises :
  forall (E : environment) (password : option string) (w : world),
    create_user E None password w
    = Raise (mk_exn ValueError "Users must have an email address") w
    /\ create_user E (Some EmptyString) password w
       = Raise (mk_exn ValueError "Users must have an email address") w.
Proof. intros E password w. split; reflexivity. Qed.

Lemma atomic_blocks_after_insert (table key : string) (w : world) :
  atomic_blocks (after_insert table key w) = atomic_blocks w.
Proof. unfold after_insert, emit. cbn. destruct (atomic_blocks w); reflexivity. Qed.

Lemma prefix_append (s t : string) : String.prefix s (s ++ t) = true.
Proof.
  induction s as [|c s IH]; cbn; [destruct t; reflexivity|].
  destruct (ascii_dec c c); [exact IH | congruence].
Qed.

(** [create_user] with an e-mail, when the database takes the row. *)
Lemma create_user_run (E : environment) (email : string)
    (password : option string) (w : world) :
  email <> EmptyString ->
  db_fault E (db_ops w) = None ->
  user_insertable (new_user E email password w) (db w) = true ->
  exists w',
    create_user E (Some email) password w
    = Return (new_user E email password w) w'
    /\ users (db w') = (users (db w) ++ [new_user E email password w])%list.
Proof.
  intros Hemail Hdb Hfresh.
  unfold create_user, truthy.
  destruct (String.eqb_spec email EmptyString) as [Heq|_]; [contradiction|].
  cbn [negb]. unfold bind at 1. unfold model_User at 1.
  unfold save_new_user, bind, timezone_now, db_statement.
  cbn [advance_entropy db_ops clock set_password
         User.id User.password User.name User.email User.phone_number
         User.email_verified User.is_active User.is_admin].
  rewrite Hdb. cbn [advance_db_ops db].
  unfold user_insertable, new_user in Hfresh.
  cbn [User.id User.email] in Hfresh.
  apply andb_prop in Hfresh. destruct Hfresh as [Hid Hmail].
  apply negb_true_iff in Hid. apply negb_true_iff in Hmail.
  cbn [advance_entropy advance_db_ops db].
  rewrite Hid, Hmail.
  unfold transaction_on_commit. rewrite atomic_blocks_after_insert.
  change (atomic_blocks (set_db _ (advance_db_ops (advance_entropy w))))
    with (atomic_blocks w).
  destruct (atomic_blocks w) as [|f fs]; cbn [run_callback onCreateAccount ret];
    eexists; (split; [reflexivity|]); cbn [db set_atomic_blocks];
    rewrite db_after_insert; reflexivity.
Qed.

(** C8, as the code has it.  For a non-empty e-mail that the database
    accepts, [create_user] returns and persists a user with
    [is_active = True] and [is_admin = False] whose stored password is
    [make_password(password)]: with a password given it is a usable PBKDF2
    encoding, which differs from every plaintext that is not itself of that
    shape; with no password (the default, [None]) it is marked unusable. *)
Theorem create_user_active_not_admin_password_encoded :
  forall (E : environment) (email : string) (password : option string) (w : world),
    email <> EmptyString ->
    db_fault E (db_ops w) = None ->
    user_insertable (new_user E email password w) (db w) = true ->
    exists (u : User.t) (w' : world),
      create_user E (Some email) password w = Return u w'
      /\ In u (users (db w'))
      /\ User.email u = normalize_email E email
      /\ User.is_active u = true
      /\ User.is_admin u = false
      /\ User.password u = make_password E password
      /\ (password = None -> is_password_usable (User.password u) = false)
      /\ (forall raw, password = Some raw ->
            is_password_usable (User.password u) = true
            /\ (String.prefix "pbkdf2_sha256$" raw = false ->
                User.password u <> raw)).
Proof.
  intros E email password w Hemail Hdb Hfresh.
  destruct (create_user_run E email password w Hemail Hdb Hfresh)
    as [w' [Hrun Husers]].
  exists (new_user E email password w), w'.
  split; [exact Hrun|]. split.
  { rewrite Husers. apply in_or_app. right. left. reflexivity. }
  repeat (split; [reflexivity|]). split.
  - intros Hnone. subst password. cbn [new_user User.password make_password].
    unfold is_password_usable. now rewrite prefix_append.
  - intros raw Hsome. subst password. cbn [new_user User.password make_password].
    split; [reflexivity|].
    intros Hshape Heq.
    change ("pbkdf2_sha256" ++ "$" ++ pbkdf2_fields E raw)
      with ("pbkdf2_sha256$" ++ pbkdf2_fields E raw) in Heq.
    rewrite <- Heq, prefix_append in Hshape. discriminate Hshape.
Qed.

(** Witness of C8: a user created with a password. *)
Lemma create_user_active_not_admin_password_encoded_witness :
  exists (u : User.t) (w' : world),
    create_user (calm_environment constant_source) (Some "bob@example.org")
                (Some "s3cret") (world_of 1000 sample_db) = Return u w'
    /\ User.is_active u = true
    /\ User.is_admin u = false
    /\ is_password_usable (User.password u) = true
    /\ User.password u <> "s3cret".
Proof.
  destruct (create_user_active_not_admin_password_encoded
              (calm_environment constant_source) "bob@example.org"
              (Some "s3cret") (world_of 1000 sample_db))
    as [u [w' [Hrun [_ [_ [Hactive [Hadmin [_ [_ Hpassword]]]]]]]]].
  - discriminate.
  - reflexivity.
  - reflexivity.
  - exists u, w'. destruct (Hpassword "s3cret" eq_refl) as [Husable Hdiffers].
    repeat split; try assumption. apply Hdiffers. reflexivity.
Defined.

(** C8 as stated fails for the call it names, [create_user(email)]: the
    password is then [None] and the stored password is not usable. *)
Lemma create_user_without_password_is_unusable :
  ~ (forall (E : environment) (email : string) (w : world) (u : User.t) (w' : world),
       email <> EmptyString ->
       create_user E (Some email) None w = Return u w' ->
       User.is_active u = true /\ User.is_admin u = false
       /\ is_password_usable (User.password u) = true).
Proof.
  intros Hclaim.
  destruct (create_user (calm_environment constant_source) (Some "bob@example.org")
                        None (world_of 1000 sample_db)) as [u w'|e w'|] eqn:Hrun.
  - assert (Hne : "bob@example.org" <> EmptyString) by discriminate.
    destruct (Hclaim _ _ _ _ _ Hne Hrun) as [_ [_ Husable]].
    vm_compute in Hrun. injection Hrun as Hu _. subst u.
    vm_compute in Husable. discriminate Husable.
  - vm_compute in Hrun. discriminate Hrun.
  - vm_compute in Hrun. discriminate Hrun.
Qed.

(** ** The payment agreement and its hook *)

Lemma existsb_false_forall {A : Type} (f : A -> bool) (l : list A) :
  existsb f l = false -> forall x, In x l -> f x = false.
Proof.
  intros Hnone x Hin. destruct (f x) eqn:Hfx; [|reflexivity].
  assert (Hsome : existsb f l = true) by (apply existsb_exists; now exists x).
  congruence.
Qed.

(** COMMIT accepts a written agreement whose key was new and whose seller
    and buyer have rows. *)
Lemma foreign_keys_hold_new_agreement (d : database) (a : PaymentAgreement.t) :
  existsb (fun r => N.eqb (PaymentAgreement.id r) (PaymentAgreement.id a))
          (agreements d) = false ->
  agreement_resolves d a = true ->
  foreign_keys_hold (set_agreements (a :: agreements d) d)
                    (WrittenAgreement (PaymentAgreement.id a)) = true.
Proof.
  intros Hid Hkeys. unfold foreign_keys_hold.
  apply forallb_forall. intros r [<-|Hr].
  - change (agreement_resolves (set_agreements (a :: agreements d) d) a)
      with (agreement_resolves d a).
    rewrite Hkeys. apply orb_true_r.
  - now rewrite (existsb_false_forall _ _ Hid r Hr).
Qed.

Section Agreements.

Variable E : environment.

Lemma onCreateAgreement_run (self : PaymentAgreement.t) (w : world) :
  onCreateAgreement E self w
  = match send_email E hook_call with
    | Some e => Raise e (add_events (hook_events self) w)
    | None => Return tt (add_events (hook_events self) w)
    end.
Proof.
  unfold onCreateAgreement, bind, logger_info, call_send_email, hook_call,
    add_events, hook_events.
  cbn [fold_left]. destruct (send_email E _); reflexivity.
Qed.

Lemma trace_add_events (evs : list event) (w : world) :
  trace (add_events evs w) = (trace w ++ evs)%list.
Proof.
  unfold add_events. revert w.
  induction evs as [|ev evs IH]; intros w; cbn [fold_left].
  - now rewrite app_nil_r.
  - rewrite IH. cbn [emit trace]. now rewrite <- app_assoc.
Qed.

Lemma db_add_events (evs : list event) (w : world) :
  db (add_events evs w) = db w.
Proof.
  unfold add_events. revert w.
  induction evs as [|ev evs IH]; intros w; cbn [fold_left];
    [reflexivity | now rewrite IH].
Qed.


Lemma final_world_returning {A B : Type} (b : B) (r : result A) :
  final_world (returning b r) = final_world r.
Proof. destruct r; reflexivity. Qed.

(** The creation up to the hook, when the database takes the INSERT. *)
Lemma create_agreement_insert (kw : agreement_kwargs) (w : world) :
  db_fault E (db_ops w) = None ->
  agreement_accepted (new_agreement E kw w) w = true ->
  PaymentAgreement_objects_create E kw w
  = returning (new_agreement E kw w)
      (transaction_on_commit E (OnCreateAgreement (new_agreement E kw w))
         (after_insert "core_paymentagreement"
            (str_uuid (uuid4 E (entropy w)))
            (store_agreement (new_agreement E kw w) w))).
Proof.
  intros Hdb Haccepted.
  unfold agreement_accepted in Haccepted. apply andb_prop in Haccepted.
  destruct Haccepted as [Hid Hkeys]. apply negb_true_iff in Hid.
  apply negb_true_iff in Hkeys.
  unfold PaymentAgreement_objects_create. unfold bind at 1.
  unfold model_PaymentAgreement at 1.
  unfold save_new_agreement, bind, timezone_now, db_statement.
  cbn [advance_entropy db_ops clock
         PaymentAgreement.id PaymentAgreement.buyer PaymentAgreement.buyer_email
         PaymentAgreement.seller PaymentAgreement.name PaymentAgreement.amount
         PaymentAgreement.currency PaymentAgreement.description
         PaymentAgreement.days_to_deliver PaymentAgreement.transaction_type
         PaymentAgreement.status].
  rewrite Hdb. cbn [advance_entropy advance_db_ops db].
  unfold new_agreement in Hid. cbn [PaymentAgreement.id] in Hid. rewrite Hid.
  change (checked_now (advance_db_ops (advance_entropy w))) with (checked_now w).
  unfold new_agreement in Hkeys.
  unfold agreement_resolves in *.
  cbn [PaymentAgreement.seller PaymentAgreement.buyer] in *.
  rewrite Hkeys.
  unfold store_agreement, new_agreement, ret, returning.
  cbn [PaymentAgreement.id].
  destruct (transaction_on_commit E _ _); reflexivity.
Qed.

(** A row that is insertable in autocommit is accepted in every world. *)
Lemma agreement_insertable_accepted (a : PaymentAgreement.t) (w : world) :
  agreement_insertable a (db w) = true -> agreement_accepted a w = true.
Proof.
  unfold agreement_insertable, agreement_accepted. intros Hfresh.
  apply andb_prop in Hfresh. destruct Hfresh as [-> Hkeys].
  unfold agreement_resolves. rewrite Hkeys. cbn [negb andb].
  now rewrite andb_false_r.
Qed.

(** Inside a block only the key decides. *)
Lemma agreement_accepted_in_block
    (a : PaymentAgreement.t) (w : world) (f : frame) (fs : list frame) :
  atomic_blocks w = f :: fs ->
  existsb (fun r => N.eqb (PaymentAgreement.id r) (PaymentAgreement.id a))
          (agreements (db w)) = false ->
  agreement_accepted a w = true.
Proof.
  intros Hblock Hid. unfold agreement_accepted, checked_now.
  now rewrite Hid, Hblock.
Qed.

(** Outside every block the row is committed at once and the hook runs
    right after, on the world the commit left. *)
Lemma create_agreement_autocommit (kw : agreement_kwargs) (w : world) :
  atomic_blocks w = [] ->
  db_fault E (db_ops w) = None ->
  agreement_insertable (new_agreement E kw w) (db w) = true ->
  PaymentAgreement_objects_create E kw w
  = let a := new_agreement E kw w in
    returning a
      (onCreateAgreement E a
         (add_events [insert_event a; Commit] (store_agreement a w))).
Proof.
  intros Hauto Hdb Hfresh.
  rewrite (create_agreement_insert kw w Hdb
             (agreement_insertable_accepted _ _ Hfresh)).
  unfold transaction_on_commit. rewrite atomic_blocks_after_insert.
  unfold store_agreement at 1. rewrite atomic_blocks_defer.
  cbn [atomic_blocks set_db advance_db_ops advance_entropy].
  rewrite Hauto. cbn [run_callback].
  unfold after_insert.
  cbn [atomic_blocks emit]. unfold store_agreement at 1.
  rewrite atomic_blocks_defer.
  cbn [atomic_blocks set_db advance_db_ops advance_entropy].
  rewrite Hauto. reflexivity.
Qed.

(** Inside a block the hook only joins the callbacks of the block. *)
Lemma create_agreement_in_block
    (kw : agreement_kwargs) (w : world) (f : frame) (fs : list frame) :
  atomic_blocks w = f :: fs ->
  db_fault E (db_ops w) = None ->
  existsb (fun r => N.eqb (PaymentAgreement.id r)
                          (PaymentAgreement.id (new_agreement E kw w)))
          (agreements (db w)) = false ->
  PaymentAgreement_objects_create E kw w
  = let a := new_agreement E kw w in
    Return a
      (set_atomic_blocks
         (mk_frame (savepoint f) (run_on_commit f ++ [OnCreateAgreement a]) :: fs)
         (add_events [insert_event a] (store_agreement a w))).
Proof.
  intros Hblock Hdb Hid.
  rewrite (create_agreement_insert kw w Hdb
             (agreement_accepted_in_block _ _ f fs Hblock Hid)).
  unfold transaction_on_commit. rewrite atomic_blocks_after_insert.
  unfold store_agreement at 1. rewrite atomic_blocks_defer.
  cbn [atomic_blocks set_db advance_db_ops advance_entropy].
  rewrite Hblock. unfold after_insert.
  cbn [atomic_blocks emit]. unfold store_agreement at 1.
  rewrite atomic_blocks_defer.
  cbn [atomic_blocks set_db advance_db_ops advance_entropy].
  rewrite Hblock. reflexivity.
Qed.

(** The rows and the waiting checks after an INSERT inside a block. *)
Lemma store_agreement_in_block
    (a : PaymentAgreement.t) (w : world) (f : frame) (fs : list frame) :
  atomic_blocks w = f :: fs ->
  store_agreement a w
  = set_deferred (deferred w ++ [WrittenAgreement (PaymentAgreement.id a)])
      (set_db (set_agreements (a :: agreements (db w)) (db w))
              (advance_db_ops (advance_entropy w))).
Proof.
  intros Hblock. unfold store_agreement, defer.
  cbn [atomic_blocks set_db advance_db_ops advance_entropy].
  now rewrite Hblock.
Qed.

(** The outermost block ends normally: COMMIT, then the callbacks. *)
Lemma atomic_exit_commit_outermost (w : world) (f : frame) :
  atomic_blocks w = [f] ->
  db_fault E (db_ops w) = None ->
  forallb (foreign_keys_hold (db w)) (deferred w) = true ->
  atomic_exit_commit E w
  = run_callbacks E (run_on_commit f)
      (emit Commit (end_transaction (advance_db_ops w))).
Proof.
  intros Hblock Hdb Hkeys. unfold atomic_exit_commit, db_statement.
  rewrite Hblock, Hdb. cbn [advance_db_ops db deferred]. now rewrite Hkeys.
Qed.

(** COMMIT fails: the transaction is rolled back and no callback is run. *)
Lemma atomic_exit_commit_refused (w : world) (f : frame) :
  atomic_blocks w = [f] ->
  db_fault E (db_ops w) = None ->
  forallb (foreign_keys_hold (db w)) (deferred w) = false ->
  atomic_exit_commit E w
  = Raise (mk_exn IntegrityError "FOREIGN KEY constraint failed")
          (emit Rollback
             (end_transaction (set_db (savepoint f) (advance_db_ops w)))).
Proof.
  intros Hblock Hdb Hkeys. unfold atomic_exit_commit, db_statement.
  rewrite Hblock, Hdb. cbn [advance_db_ops db deferred]. now rewrite Hkeys.
Qed.



End Agreements.

Lemma add_events_app (evs1 evs2 : list event) (w : world) :
  add_events (evs1 ++ evs2) w = add_events evs2 (add_events evs1 w).
Proof. unfold add_events. apply fold_left_app. Qed.

(** With a mailer that takes the call, every queued hook runs, in order. *)
Lemma run_callbacks_accepting (E : environment) (q : list callback) :
  send_email E hook_call = None ->
  forall w, run_callbacks E q w = Return tt (add_events (flat_map callback_events q) w).
Proof.
  intros Haccept. induction q as [|cb q IH]; intros w; [reflexivity|].
  cbn [run_callbacks flat_map]. unfold bind. rewrite add_events_app.
  destruct cb as [u|a]; cbn [run_callback callback_events].
  - unfold onCreateAccount, ret. apply IH.
  - rewrite onCreateAgreement_run, Haccept. apply IH.
Qed.

(** With a mailer that raises, the first agreement hook ends the run: the
    callbacks queued behind it are not run. *)
Lemma run_callbacks_raising
    (E : environment) (a : PaymentAgreement.t) (rest : list callback)
    (w : world) (e : exn) :
  send_email E hook_call = Some e ->
  run_callbacks E (OnCreateAgreement a :: rest) w
  = Raise e (add_events (hook_events a) w).
Proof.
  intros Hraise. cbn [run_callbacks run_callback]. unfold bind.
  now rewrite onCreateAgreement_run, Hraise.
Qed.

(** Two agreements created in one block, with the mailer of the contract:
    both rows are committed, the hook of the first raises [TypeError], and
    the hook of the second is never run. *)
Lemma second_hook_skipped_when_first_raises :
  exists (e : exn) (w' : world),
    atomic (with_mailer contract_send_email (calm_environment constant_source))
           (PaymentAgreement_objects_create
              (with_mailer contract_send_email (calm_environment constant_source))
              sample_kwargs ;;
            PaymentAgreement_objects_create
              (with_mailer contract_send_email (calm_environment constant_source))
              sample_kwargs)
           (world_of 1000 sample_db)
    = Raise e w'
    /\ exc_type e = TypeError
    /\ length (agreements (db w')) = 2
    /\ dispatches (trace w') = [hook_call].
Proof.
  eexists. eexists. split; [vm_compute; reflexivity|].
  repeat split.
Qed.




(** C10.  [onCreateAgreement] calls the mailer with no argument at all:
    neither content nor recipients, so nothing in the call is addressed to
    [buyer_email].  Whatever the mailer raises on that call, of any class,
    leaves the hook uncaught, and with it the run of the commit callbacks
    and a creation made outside a transaction; under the mailer's contract
    [send(content, recipients)] the call is a [TypeError]. *)
Theorem onCreateAgreement_sends_no_payload_and_catches_nothing :
  forall (E : environment) (self : PaymentAgreement.t) (w : world),
    call_content hook_call = None
    /\ call_recipients hook_call = None
    /\ dispatches (trace (add_events (hook_events self) w))
       = (dispatches (trace w) ++ [hook_call])%list
    /\ (send_email E hook_call = None ->
        onCreateAgreement E self w = Return tt (add_events (hook_events self) w))
    /\ (forall e, send_email E hook_call = Some e ->
          onCreateAgreement E self w = Raise e (add_events (hook_events self) w)
          /\ (forall rest,
                run_callbacks E (OnCreateAgreement self :: rest) w
                = Raise e (add_events (hook_events self) w))
          /\ (atomic_blocks w = [] ->
              transaction_on_commit E (OnCreateAgreement self) w
              = Raise e (add_events (hook_events self) w))
          /\ (forall kw,
                atomic_blocks w = [] ->
                db_fault E (db_ops w) = None ->
                agreement_insertable (new_agreement E kw w) (db w) = true ->
                exists w', PaymentAgreement_objects_create E kw w = Raise e w'))
    /\ contract_send_email hook_call
       = Some (mk_exn TypeError "send_email() missing required positional arguments").
Proof.
  intros E self w.
  split; [reflexivity|]. split; [reflexivity|]. split.
  { rewrite trace_add_events, dispatches_app. reflexivity. }
  split.
  { intros Haccept. now rewrite onCreateAgreement_run, Haccept. }
  split; [|reflexivity].
  intros e Hraise. split; [|split; [|split]].
  - now rewrite onCreateAgreement_run, Hraise.
  - intros rest. now apply run_callbacks_raising.
  - intros Hauto. unfold transaction_on_commit. rewrite Hauto.
    cbn [run_callback]. now rewrite onCreateAgreement_run, Hraise.
  - intros kw Hauto Hdb Hfresh.
    rewrite (create_agreement_autocommit E kw w Hauto Hdb Hfresh). cbv zeta.
    rewrite onCreateAgreement_run, Hraise. eexists. reflexivity.
Qed.

(** Witness of C10: under the mailer of the contract the creation of the
    sample agreement ends with [TypeError], after the row was committed. *)
Lemma onCreateAgreement_sends_no_payload_and_catches_nothing_witness :
  exists w',
    PaymentAgreement_objects_create
      (with_mailer contract_send_email (calm_environment constant_source))
      sample_kwargs (world_of 1000 sample_db)
    = Raise (mk_exn TypeError "send_email() missing required positional arguments") w'.
Proof.
  apply (proj2 (proj2 (proj2 (proj1 (proj2 (proj2 (proj2 (proj2
           (onCreateAgreement_sends_no_payload_and_catches_nothing
              (with_mailer contract_send_email (calm_environment constant_source))
              (new_agreement
                 (with_mailer contract_send_email (calm_environment constant_source))
                 sample_kwargs (world_of 1000 sample_db))
              (world_of 1000 sample_db))))))
           (mk_exn TypeError "send_email() missing required positional arguments")
           eq_refl)))
         sample_kwargs);
    reflexivity.
Defined.

(** ** More on the tokens *)

(** X1.  [is_active] can only go from true to false as time passes: a row
    that is active at some time was active at every earlier time, and a row
    that is inactive stays inactive, as long as the row itself is not
    changed. *)
Theorem is_active_only_decays :
  forall (row : Type) (C : CustomToken row) (self : row) (w1 w2 : world),
    (clock w1 <= clock w2)%Z ->
    (is_active self w2 = true -> is_active self w1 = true)
    /\ (is_active self w1 = false -> is_active self w2 = false).
Proof.
  intros row C self w1 w2 Hle. unfold is_active.
  destruct (active self); cbn [negb]; [|split; intros H; (discriminate || reflexivity)].
  destruct (expires_on self) as [e|]; [|split; intros H; (discriminate || reflexivity)].
  split; intros H.
  - apply Z.ltb_lt in H. apply Z.ltb_lt. lia.
  - apply Z.ltb_ge in H. apply Z.ltb_ge. lia.
Qed.

Lemma is_active_only_decays_witness :
  is_active (UserVerificationToken.mk "aaaaaaa" (Some 0%Z) (Some 50%Z) true 7%N)
            (world_of 60 sample_db) = false.
Proof.
  assert (Hle : (clock (world_of 50 sample_db) <= clock (world_of 60 sample_db))%Z)
    by (unfold world_of; cbn [clock]; lia).
  apply (proj2 (is_active_only_decays UserVerificationToken.t _
                  (UserVerificationToken.mk "aaaaaaa" (Some 0%Z) (Some 50%Z) true 7%N)
                  (world_of 50 sample_db) (world_of 60 sample_db) Hle)).
  reflexivity.
Defined.

(** How a run of the generator ends: after [n] rounds, with the draw of the
    last round, which is not taken, or with the error of the last query. *)
Lemma generate_unique_token_outcome
    (E : environment) (row : Type) (C : CustomToken row) (fuel : nat) :
  forall w : world,
    match generate_unique_token E row fuel w with
    | Return tok w' =>
        exists n, 1 <= n <= fuel /\ w' = after_attempts n w
                  /\ tok = draw E (rng w + 7 * (n - 1))
                  /\ taken tok (objects (db w)) = false
    | Raise e w' =>
        exists n, 1 <= n <= fuel /\ w' = after_attempts n w
                  /\ db_fault E (db_ops w + (n - 1)) = Some e
    | Diverge => True
    end.
Proof.
  induction fuel as [|fuel IH]; intros w; [exact I|].
  rewrite generate_unique_token_step.
  destruct (db_fault E (db_ops w)) as [e|] eqn:Hdb.
  - exists 1. split; [lia|]. split; [reflexivity|].
    replace (db_ops w + (1 - 1)) with (db_ops w) by lia. exact Hdb.
  - destruct (taken (draw E (rng w)) (objects (db w))) eqn:Htaken.
    + specialize (IH (after_attempts 1 w)).
      destruct (generate_unique_token E row fuel (after_attempts 1 w))
        as [tok w'|e w'|]; [| |exact I].
      * destruct IH as [n [Hn [Hw' [Htok Hfree]]]].
        exists (S n). split; [lia|]. split; [now rewrite <- after_attempts_S|].
        cbn [after_attempts rng db] in Htok, Hfree.
        replace (rng w + 7 * (S n - 1)) with (rng w + 7 * 1 + 7 * (n - 1)) by lia.
        now split.
      * destruct IH as [n [Hn [Hw' Hfault]]].
        exists (S n). split; [lia|]. split; [now rewrite <- after_attempts_S|].
        cbn [after_attempts db_ops] in Hfault.
        replace (db_ops w + (S n - 1)) with (db_ops w + 1 + (n - 1)) by lia.
        exact Hfault.
    + exists 1. split; [lia|]. split; [reflexivity|].
      replace (rng w + 7 * (1 - 1)) with (rng w) by lia.
      split; [reflexivity | exact Htaken].
Qed.

(** X2.  [generate_unique_token] only reads: however it ends, with a token
    or with the error of a query, the tables, the clock, the open
    transactions and the trace are what they were; what it used is seven
    calls of [random()] and one query for each of its rounds. *)
Theorem generate_unique_token_only_reads :
  forall (E : environment) (row : Type) (C : CustomToken row)
         (fuel : nat) (w w' : world),
    final_world (generate_unique_token E row fuel w) = Some w' ->
    db w' = db w /\ clock w' = clock w /\ trace w' = trace w
    /\ atomic_blocks w' = atomic_blocks w /\ entropy w' = entropy w
    /\ exists n, 1 <= n <= fuel
                 /\ rng w' = rng w + 7 * n /\ db_ops w' = db_ops w + n.
Proof.
  intros E row C fuel w w' Hfinal.
  pose proof (generate_unique_token_outcome E row C fuel w) as Hout.
  destruct (generate_unique_token E row fuel w) as [tok w1|e w1|];
    [| |discriminate Hfinal]; injection Hfinal as ->.
  - destruct Hout as [n [Hn [-> _]]]. repeat split; try reflexivity.
    exists n. repeat split; try lia; reflexivity.
  - destruct Hout as [n [Hn [-> _]]]. repeat split; try reflexivity.
    exists n. repeat split; try lia; reflexivity.
Qed.

Lemma generate_unique_token_only_reads_witness :
  exists w',
    final_world (generate_unique_token (calm_environment (stubborn_source 1))
                   UserVerificationToken.t 5 (world_of 0 sample_db)) = Some w'
    /\ db w' = sample_db /\ trace w' = [] /\ rng w' = 14 /\ db_ops w' = 2.
Proof.
  assert (Hrun : final_world
                   (generate_unique_token (calm_environment (stubborn_source 1))
                      UserVerificationToken.t 5 (world_of 0 sample_db))
                 = Some (after_attempts 2 (world_of 0 sample_db)))
    by reflexivity.
  exists (after_attempts 2 (world_of 0 sample_db)). split; [exact Hrun|].
  destruct (generate_unique_token_only_reads
              (calm_environment (stubborn_source 1)) UserVerificationToken.t _ 5
              (world_of 0 sample_db) (after_attempts 2 (world_of 0 sample_db))
              Hrun) as [Hdb [_ [Htrace _]]].
  split; [exact Hdb|]. split; [exact Htrace|]. split; reflexivity.
Defined.

Ltac destruct_outcome :=
  repeat match goal with
         | |- context [match db_fault ?E ?i with _ => _ end] =>
             destruct (db_fault E i) eqn:?
         | |- context [if existsb ?f ?l then _ else _] =>
             destruct (existsb f l) eqn:?
         | |- context [if negb ?b then _ else _] =>
             destruct b eqn:?; cbn [negb]
         | |- context [match send_email ?E ?c with _ => _ end] =>
             destruct (send_email E c) eqn:?
         | |- context [if isinstance_Exception ?e then _ else _] =>
             destruct (isinstance_Exception e) eqn:?
         end.

Lemma deferred_after_insert (table key : string) (w : world) :
  deferred (after_insert table key w) = deferred w.
Proof. unfold after_insert, emit. cbn. destruct (atomic_blocks w); reflexivity. Qed.

Lemma deferred_defer_same (r : written) (w1 w2 : world) :
  atomic_blocks w1 = atomic_blocks w2 ->
  deferred w1 = deferred w2 ->
  deferred (defer r w1) = deferred (defer r w2).
Proof.
  intros Hblocks Hrows. unfold defer. rewrite Hblocks.
  destruct (atomic_blocks w2); cbn [deferred set_deferred]; now rewrite Hrows.
Qed.

(** How [send_email_verification] leaves the world: either the tables are
    what they were and no mail was handed to the mailer, or the row of a
    new, unused token was added, for a user who has a row where the foreign
    key is checked with the INSERT, and exactly the mail with that token was
    handed over. *)
Lemma send_email_verification_outcome
    (E : environment) (fuel : nat) (self : User.t) (w w' : world) :
  final_world (send_email_verification E fuel self w) = Some w' ->
  clock w' = clock w
  /\ atomic_blocks w' = atomic_blocks w
  /\ ((db w' = db w /\ dispatches (trace w') = dispatches (trace w)
       /\ deferred w' = deferred w)
      \/ exists tok,
           db w' = set_verification_tokens
                     (verification_tokens (db w)
                      ++ [minted_token self tok (clock w)]) (db w)
           /\ well_formed_token tok
           /\ taken tok (verification_tokens (db w)) = false
           /\ (checked_now w = true -> user_exists (User.id self) (db w) = true)
           /\ deferred w' = deferred (defer (WrittenToken tok) w)
           /\ dispatches (trace w')
              = (dispatches (trace w) ++ [verification_call self tok])%list).
Proof.
  unfold send_email_verification, try_except_Exception,
    send_email_verification_try.
  unfold bind at 1.
  pose proof (generate_unique_token_outcome E UserVerificationToken.t _ fuel w)
    as Hgen.
  destruct (generate_unique_token E UserVerificationToken.t fuel w)
    as [tok w1|e w1|].
  - destruct Hgen as [n [Hn [-> [Htok Hfree]]]].
    unfold bind, timezone_now, UserVerificationToken_objects_create, bind,
      timezone_now, db_statement, call_send_email, logger_info, logger_error.
    cbn [after_attempts db_ops clock db advance_db_ops].
    cbn [objects UserVerificationToken_CustomToken] in Hfree.
    unfold taken in Hfree. cbn [token UserVerificationToken_CustomToken] in Hfree.
    change (checked_now (advance_db_ops (after_attempts n w)))
      with (checked_now w).
    unfold token_resolves. cbn [UserVerificationToken.user_id].
    destruct (db_fault E (db_ops w + n)) eqn:Hinsert;
      cbn [after_attempts db_ops clock db advance_db_ops];
      rewrite ?Hfree.
    + destruct_outcome; intros Hfinal; injection Hfinal as <-;
        cbn [emit clock atomic_blocks db trace deferred advance_db_ops];
        rewrite ?dispatches_app; cbn [dispatches flat_map app];
        rewrite ?app_nil_r;
        (split; [reflexivity|]); (split; [reflexivity|]);
        left; repeat split.
    + change (checked_now (advance_db_ops (after_attempts n w)))
        with (checked_now w).
      destruct (checked_now w && negb (user_exists (User.id self) (db w)))
        eqn:Hkey.
      * destruct_outcome; intros Hfinal; injection Hfinal as <-;
          cbn [emit clock atomic_blocks db trace deferred advance_db_ops];
          rewrite ?dispatches_app; cbn [dispatches flat_map app];
          rewrite ?app_nil_r;
          (split; [reflexivity|]); (split; [reflexivity|]);
          left; repeat split.
      * assert (Huser : checked_now w = true ->
                        user_exists (User.id self) (db w) = true).
        { intros Hnow. rewrite Hnow in Hkey. cbn [andb] in Hkey.
          now apply negb_false_iff in Hkey. }
        destruct_outcome; intros Hfinal; injection Hfinal as <-;
          cbn [emit clock atomic_blocks db trace deferred];
          rewrite ?clock_after_insert, ?atomic_blocks_after_insert,
            ?db_after_insert, ?deferred_after_insert, ?dispatches_app,
            ?dispatches_after_insert, ?clock_defer, ?atomic_blocks_defer,
            ?db_defer, ?trace_defer;
          cbn [set_db clock atomic_blocks db trace advance_db_ops dispatches
                 flat_map app];
          rewrite ?app_nil_r;
          (split; [reflexivity|]); (split; [reflexivity|]);
          right; exists tok; (split; [reflexivity|]);
          (split; [subst tok; apply draw_well_formed|]);
          (split; [exact Hfree|]); (split; [exact Huser|]);
          (split; [apply deferred_defer_same; reflexivity | reflexivity]).
  - destruct Hgen as [n [Hn [-> Hfault]]].
    unfold logger_error.
    destruct_outcome; intros Hfinal; injection Hfinal as <-;
      cbn [emit clock atomic_blocks db trace after_attempts deferred];
      rewrite ?dispatches_app;
      cbn [dispatches flat_map app]; rewrite ?app_nil_r;
      repeat split; left; repeat split.
  - discriminate.
Qed.

Lemma NoDup_snoc {A : Type} (l : list A) (x : A) :
  NoDup l -> ~ In x l -> NoDup (l ++ [x]).
Proof.
  induction 1 as [|y l Hy Hl IH]; intros Hx; cbn.
  - constructor; [intros []|constructor].
  - constructor.
    + intros Hin. apply in_app_or in Hin. destruct Hin as [Hin|[Heq|[]]].
      * contradiction.
      * apply Hx. left. now subst.
    + apply IH. intros Hin. apply Hx. now right.
Qed.

Lemma taken_false_fresh (tok : string) (rows : list UserVerificationToken.t) :
  taken tok rows = false -> ~ In tok (map UserVerificationToken.token rows).
Proof. exact (taken_false_not_In (row := UserVerificationToken.t) tok rows). Qed.

Lemma checked_now_autocommit (w : world) :
  checked_now w = true <-> atomic_blocks w = [].
Proof.
  unfold checked_now. destruct (atomic_blocks w); split; intros H;
    (reflexivity || discriminate).
Qed.

(** X3.  [send_email_verification] keeps the tables sound, however it
    ends: the unique columns stay free of duplicates (the token column in
    particular) and the tables of users, agreements and disputes are not
    touched.  Called outside a transaction, or for a user who has a row, it
    leaves every foreign key pointing to a row.  A token row that points to
    no user after the call is the row the call wrote, for its own user,
    inside an open [atomic] block, and the check of its foreign key is
    waiting for COMMIT. *)
Theorem send_email_verification_keeps_tables_sound :
  forall (E : environment) (fuel : nat) (self : User.t) (w w' : world),
    final_world (send_email_verification E fuel self w) = Some w' ->
    keys_unique (db w) ->
    references_resolve (db w) ->
    keys_unique (db w')
    /\ users (db w') = users (db w)
    /\ agreements (db w') = agreements (db w)
    /\ disputes (db w') = disputes (db w)
    /\ (atomic_blocks w = [] \/ user_exists (User.id self) (db w) = true ->
        references_resolve (db w'))
    /\ (forall t, In t (verification_tokens (db w')) ->
                  token_resolves (db w') t = false ->
                  atomic_blocks w <> []
                  /\ UserVerificationToken.user_id t = User.id self
                  /\ In (WrittenToken (UserVerificationToken.token t))
                        (deferred w')).
Proof.
  intros E fuel self w w' Hfinal Hkeys Hrefs.
  destruct (send_email_verification_outcome E fuel self w w' Hfinal)
    as [_ [_ [[Hdb _]|[tok [Hdb [_ [Hfree [Huser [Hwaiting _]]]]]]]]].
  - rewrite Hdb.
    split; [assumption|]. repeat (split; [reflexivity|]).
    split; [intros _; assumption|].
    intros t Hin Hdangling. unfold token_resolves in Hdangling.
    rewrite (proj1 Hrefs t Hin) in Hdangling. discriminate Hdangling.
  - destruct Hkeys as [Hids [Hmails [Htoks Hags]]].
    destruct Hrefs as [Htokrefs Hagrefs].
    rewrite Hdb.
    split; [|repeat (split; [reflexivity|]); split].
    + repeat split; try assumption.
      cbn [set_verification_tokens verification_tokens].
      rewrite map_app. apply NoDup_snoc; [assumption|].
      now apply taken_false_fresh.
    + intros Hchecked. split.
      * cbn [set_verification_tokens verification_tokens]. intros t Hin.
        apply in_app_or in Hin. destruct Hin as [Hin|[<-|[]]].
        -- exact (Htokrefs t Hin).
        -- destruct Hchecked as [Hauto|Hrow]; [|exact Hrow].
           apply Huser. now apply checked_now_autocommit.
      * exact Hagrefs.
    + cbn [set_verification_tokens verification_tokens]. intros t Hin Hdangling.
      apply in_app_or in Hin. destruct Hin as [Hin|[<-|[]]].
      * unfold token_resolves in Hdangling.
        change (user_exists (UserVerificationToken.user_id t) (db w) = false)
          in Hdangling.
        rewrite (Htokrefs t Hin) in Hdangling. discriminate Hdangling.
      * change (user_exists (User.id self) (db w) = false) in Hdangling.
        assert (Hblock : atomic_blocks w <> []).
        { intros Hauto. apply checked_now_autocommit in Hauto.
          rewrite (Huser Hauto) in Hdangling. discriminate Hdangling. }
        split; [exact Hblock|]. split; [reflexivity|].
        rewrite Hwaiting. unfold defer.
        destruct (atomic_blocks w); [contradiction|].
        cbn [deferred set_deferred minted_token UserVerificationToken.token].
        apply in_or_app. right. now left.
Qed.

Lemma send_email_verification_keeps_tables_sound_witness :
  exists w',
    final_world (send_email_verification (calm_environment (stubborn_source 1)) 3
                   sample_user (world_of 1000 sample_db)) = Some w'
    /\ keys_unique (db w') /\ references_resolve (db w').
Proof.
  destruct (send_email_verification (calm_environment (stubborn_source 1)) 3
              sample_user (world_of 1000 sample_db)) as [a w'|e w'|] eqn:Hrun;
    [| vm_compute in Hrun; discriminate Hrun | vm_compute in Hrun; discriminate Hrun].
  exists w'. split; [reflexivity|].
  assert (Hfinal : final_world (send_email_verification
                      (calm_environment (stubborn_source 1)) 3 sample_user
                      (world_of 1000 sample_db)) = Some w')
    by (rewrite Hrun; reflexivity).
  destruct (send_email_verification_keeps_tables_sound _ _ _ _ _ Hfinal)
    as [Hkeys [_ [_ [_ [Hrefs _]]]]].
  - repeat split; cbn; repeat constructor; intros []; try discriminate; assumption.
  - split.
    + intros t [<-|[]]. reflexivity.
    + intros a0 [].
  - split; [exact Hkeys|]. apply Hrefs. left. reflexivity.
Defined.

(** X4.  However [send_email_verification] ends, it hands at most one mail
    to the mailer, and a mail only after the row of its token was inserted:
    if a mail was handed over, it is the verification mail of the user with
    a well-formed token whose row is in the table. *)
Theorem send_email_verification_mails_only_persisted_tokens :
  forall (E : environment) (fuel : nat) (self : User.t) (w w' : world),
    final_world (send_email_verification E fuel self w) = Some w' ->
    dispatches (trace w') = dispatches (trace w)
    \/ exists tok,
         dispatches (trace w')
         = (dispatches (trace w) ++ [verification_call self tok])%list
         /\ well_formed_token tok
         /\ In (minted_token self tok (clock w)) (verification_tokens (db w')).
Proof.
  intros E fuel self w w' Hfinal.
  destruct (send_email_verification_outcome E fuel self w w' Hfinal)
    as [_ [_ [[_ [Hmails _]]|[tok [Hdb [Hwf [_ [_ [_ Hmails]]]]]]]]].
  - now left.
  - right. exists tok. split; [exact Hmails|]. split; [exact Hwf|].
    rewrite Hdb. cbn. apply in_or_app. right. now left.
Qed.

Lemma send_email_verification_mails_only_persisted_tokens_witness :
  exists w',
    final_world (send_email_verification
                   (with_mailer unreachable_mailer (calm_environment (stubborn_source 0)))
                   1 sample_user (world_of 1000 sample_db)) = Some w'
    /\ (dispatches (trace w') = dispatches (trace (world_of 1000 sample_db))
        \/ exists tok,
             dispatches (trace w')
             = (dispatches (trace (world_of 1000 sample_db))
                ++ [verification_call sample_user tok])%list
             /\ well_formed_token tok
             /\ In (minted_token sample_user tok 1000)
                   (verification_tokens (db w'))).
Proof.
  destruct (send_email_verification
              (with_mailer unreachable_mailer (calm_environment (stubborn_source 0)))
              1 sample_user (world_of 1000 sample_db)) as [a w'|e w'|] eqn:Hrun;
    [| vm_compute in Hrun; discriminate Hrun | vm_compute in Hrun; discriminate Hrun].
  exists w'. split; [reflexivity|].
  apply (send_email_verification_mails_only_persisted_tokens
           (with_mailer unreachable_mailer (calm_environment (stubborn_source 0)))
           1 sample_user (world_of 1000 sample_db) w').
  rewrite Hrun. reflexivity.
Defined.

Lemma logs_after_insert (table key : string) (w : world) :
  logs (trace (after_insert table key w)) = logs (trace w).
Proof.
  unfold after_insert, emit, logs. cbn.
  destruct (atomic_blocks w); cbn; rewrite !flat_map_app; cbn;
    now rewrite ?app_nil_r.
Qed.

Lemma db_ops_after_insert (table key : string) (w : world) :
  db_ops (after_insert table key w) = db_ops w.
Proof. unfold after_insert, emit. cbn. destruct (atomic_blocks w); reflexivity. Qed.

Lemma db_ops_defer (r : written) (w : world) : db_ops (defer r w) = db_ops w.
Proof. unfold defer. destruct (atomic_blocks w); reflexivity. Qed.

(** The call when token and row go through and the mailer raises nothing
    but [Exception]s: it returns, with the row inserted and the mail handed
    over. *)
Lemma send_email_verification_inserts_and_mails
    (E : environment) (self : User.t) (w : world) (k fuel : nat) :
  (forall j, j < k ->
     taken (draw E (rng w + 7 * j)) (verification_tokens (db w)) = true) ->
  taken (draw E (rng w + 7 * k)) (verification_tokens (db w)) = false ->
  (forall j, j <= S k -> db_fault E (db_ops w + j) = None) ->
  (checked_now w = true -> user_exists (User.id self) (db w) = true) ->
  (forall e, send_email E (verification_call self (draw E (rng w + 7 * k)))
             = Some e -> isinstance_Exception e = true) ->
  k < fuel ->
  exists w',
    send_email_verification E fuel self w = Return tt w'
    /\ db w' = set_verification_tokens
                 (verification_tokens (db w)
                  ++ [minted_token self (draw E (rng w + 7 * k)) (clock w)])
                 (db w)
    /\ atomic_blocks w' = atomic_blocks w
    /\ deferred w' = deferred (defer (WrittenToken (draw E (rng w + 7 * k))) w)
    /\ db_ops w' = db_ops w + S (S k)
    /\ dispatches (trace w')
       = (dispatches (trace w)
          ++ [verification_call self (draw E (rng w + 7 * k))])%list.
Proof.
  intros Htaken Hunused Hup Huser Hclass Hfuel.
  unfold send_email_verification, try_except_Exception.
  rewrite (send_email_verification_try_run E self w k Htaken Hunused Hup Huser
             fuel Hfuel).
  cbv zeta.
  destruct (send_email E _) as [e|] eqn:Hmail;
    [rewrite (Hclass e eq_refl)|]; eexists; (split; [reflexivity|]);
    unfold logger_error, persist_token;
    cbn [emit db atomic_blocks deferred db_ops trace];
    rewrite ?db_after_insert, ?atomic_blocks_after_insert,
      ?deferred_after_insert, ?db_ops_after_insert, ?dispatches_app,
      ?dispatches_after_insert, ?db_defer, ?atomic_blocks_defer, ?db_ops_defer,
      ?trace_defer;
    cbn [set_db db atomic_blocks db_ops trace advance_db_ops after_attempts
           dispatches flat_map app minted_token UserVerificationToken.token];
    rewrite ?app_nil_r;
    (split; [reflexivity|]); (split; [reflexivity|]);
    (split; [apply deferred_defer_same; reflexivity|]);
    (split; [lia | reflexivity]).
Qed.

(** A block at top level whose body wrote a row that COMMIT refuses: the
    [IntegrityError] leaves the block and the tables are what they were
    when the block was entered. *)
Lemma atomic_commit_refused
    (E : environment) {A : Type} (body : M A) (w w1 : world) (a : A) (f : frame) :
  atomic_blocks w = [] ->
  body (in_transaction w) = Return a w1 ->
  atomic_blocks w1 = [f] ->
  db_fault E (db_ops w1) = None ->
  forallb (foreign_keys_hold (db w1)) (deferred w1) = false ->
  atomic E body w
  = Raise (mk_exn IntegrityError "FOREIGN KEY constraint failed")
          (emit Rollback
             (end_transaction (set_db (savepoint f) (advance_db_ops w1)))).
Proof.
  intros Hauto Hbody Hblock Hdb Hkeys.
  unfold atomic. unfold bind at 1. unfold atomic_enter at 1. rewrite Hauto.
  fold (in_transaction w). rewrite Hbody.
  now rewrite (atomic_exit_commit_refused E w1 f Hblock Hdb Hkeys).
Qed.

(** COMMIT refuses a written token whose user has no row. *)
Lemma foreign_keys_hold_dangling_token
    (d : database) (rows : list UserVerificationToken.t)
    (r : UserVerificationToken.t) :
  user_exists (UserVerificationToken.user_id r) d = false ->
  foreign_keys_hold (set_verification_tokens (rows ++ [r]) d)
                    (WrittenToken (UserVerificationToken.token r)) = false.
Proof.
  intros Hdangling. unfold foreign_keys_hold.
  cbn [set_verification_tokens verification_tokens].
  rewrite forallb_app. cbn [forallb]. rewrite String.eqb_refl.
  unfold token_resolves.
  change (user_exists (UserVerificationToken.user_id r)
            (set_verification_tokens (rows ++ [r]) d))
    with (user_exists (UserVerificationToken.user_id r) d).
  rewrite Hdangling. cbn. apply andb_false_r.
Qed.

(** X5.  For a user without a row in the table of users no token row is
    left.  Called outside a transaction, the INSERT is refused at once: no
    table changes and no mail is handed to the mailer.  Called as an
    [atomic] block, the INSERT goes through and the mail is handed over,
    with the link to the new token; then COMMIT refuses the row, the
    [IntegrityError] leaves the block, uncaught, and the tables are what
    they were. *)
Theorem send_email_verification_of_unsaved_user_leaves_no_row :
  forall (E : environment) (fuel : nat) (self : User.t) (w : world),
    user_exists (User.id self) (db w) = false ->
    atomic_blocks w = [] ->
    (forall w', final_world (send_email_verification E fuel self w) = Some w' ->
                db w' = db w /\ dispatches (trace w') = dispatches (trace w))
    /\ (forall k,
          (forall j, j < k ->
             taken (draw E (rng w + 7 * j)) (verification_tokens (db w)) = true) ->
          taken (draw E (rng w + 7 * k)) (verification_tokens (db w)) = false ->
          (forall j, j <= S (S k) -> db_fault E (db_ops w + j) = None) ->
          (forall e, send_email E (verification_call self (draw E (rng w + 7 * k)))
                     = Some e -> isinstance_Exception e = true) ->
          k < fuel ->
          exists w',
            atomic E (send_email_verification E fuel self) w
            = Raise (mk_exn IntegrityError "FOREIGN KEY constraint failed") w'
            /\ db w' = db w
            /\ atomic_blocks w' = []
            /\ dispatches (trace w')
               = (dispatches (trace w)
                  ++ [verification_call self (draw E (rng w + 7 * k))])%list).
Proof.
  intros E fuel self w Hnew Hauto. split.
  - intros w' Hfinal.
    destruct (send_email_verification_outcome E fuel self w w' Hfinal)
      as [_ [_ [[Hdb [Hmails _]]|[tok [_ [_ [_ [Huser _]]]]]]]].
    + now split.
    + rewrite Huser in Hnew by now apply checked_now_autocommit.
      discriminate Hnew.
  - intros k Htaken Hunused Hup Hclass Hfuel.
    destruct (send_email_verification_inserts_and_mails
                E self (in_transaction w) k fuel)
      as [w1 [Hrun [Hdb1 [Hblocks1 [Hwaiting1 [Hops1 Hmails1]]]]]];
      try assumption.
    + intros j Hj. apply Hup. lia.
    + discriminate.
    + rewrite (atomic_commit_refused E _ w w1 tt (mk_frame (db w) []) Hauto Hrun).
      * eexists. split; [reflexivity|].
        cbn [emit end_transaction set_deferred set_atomic_blocks set_db
               advance_db_ops db atomic_blocks trace savepoint].
        rewrite dispatches_app, Hmails1. cbn. rewrite app_nil_r.
        repeat split.
      * exact Hblocks1.
      * rewrite Hops1. apply Hup. apply Nat.le_refl.
      * rewrite Hwaiting1, Hdb1.
        cbn [defer in_transaction atomic_blocks set_atomic_blocks set_deferred
               deferred app forallb db].
        change (draw E (rng w + 7 * k))
          with (UserVerificationToken.token
                  (minted_token self (draw E (rng w + 7 * k)) (clock w))).
        rewrite foreign_keys_hold_dangling_token; [reflexivity | exact Hnew].
Qed.

Lemma send_email_verification_of_unsaved_user_leaves_no_row_witness :
  (exists w',
      send_email_verification (calm_environment (stubborn_source 0)) 1 second_user
                              (world_of 1000 sample_db) = Return tt w'
      /\ db w' = sample_db
      /\ dispatches (trace w') = []
      /\ logs (trace w')
         = [(ERROR, "Failed to send email: FOREIGN KEY constraint failed")])
  /\ (exists w',
         atomic (calm_environment (stubborn_source 0))
                (send_email_verification (calm_environment (stubborn_source 0)) 1
                                         second_user)
                (world_of 1000 sample_db)
         = Raise (mk_exn IntegrityError "FOREIGN KEY constraint failed") w'
         /\ db w' = sample_db
         /\ dispatches (trace w') = [verification_call second_user "bbbbbbb"]).
Proof.
  destruct (send_email_verification_of_unsaved_user_leaves_no_row
              (calm_environment (stubborn_source 0)) 1 second_user
              (world_of 1000 sample_db) eq_refl eq_refl) as [Hauto Hblock].
  split.
  - eexists. split; [reflexivity|].
    destruct (Hauto _ eq_refl) as [Hdb Hmails].
    split; [exact Hdb|]. split; [exact Hmails | reflexivity].
  - destruct (Hblock 0) as [w' [Hrun [Hdb [_ Hmails]]]].
    + intros j Hj. lia.
    + reflexivity.
    + intros j Hj. reflexivity.
    + intros e He. discriminate He.
    + lia.
    + exists w'. split; [exact Hrun|]. split; [exact Hdb | exact Hmails].
Defined.

(** X6.  The row is inserted before the mail is sent and the two are not
    one transaction: when the mailer fails with an [Exception], the call
    returns normally and the token row stays in the table, active, although
    its mail was not delivered. *)
Theorem send_email_verification_failed_mail_leaves_token :
  forall (E : environment) (self : User.t) (w : world) (k fuel : nat) (e : exn),
    (forall j, j < k ->
       taken (draw E (rng w + 7 * j)) (verification_tokens (db w)) = true) ->
    taken (draw E (rng w + 7 * k)) (verification_tokens (db w)) = false ->
    (forall j, j <= S k -> db_fault E (db_ops w + j) = None) ->
    user_exists (User.id self) (db w) = true ->
    send_email E (verification_call self (draw E (rng w + 7 * k))) = Some e ->
    isinstance_Exception e = true ->
    k < fuel ->
    exists w',
      send_email_verification E fuel self w = Return tt w'
      /\ verification_tokens (db w')
         = (verification_tokens (db w)
            ++ [minted_token self (draw E (rng w + 7 * k)) (clock w)])%list
      /\ is_active (minted_token self (draw E (rng w + 7 * k)) (clock w)) w' = true
      /\ logs (trace w')
         = (logs (trace w)
            ++ [(ERROR, ("Failed to send email: " ++ str_exn e)%string)])%list.
Proof.
  intros E self w k fuel e Htaken Hunused Hup Huser Hmail Hclass Hfuel.
  eexists. split.
  - apply send_email_verification_caught; [|exact Hclass].
    rewrite (send_email_verification_try_run E self w k Htaken Hunused Hup (fun _ => Huser) fuel Hfuel).
    cbv zeta. rewrite Hmail. reflexivity.
  - unfold persist_token. cbn [emit db trace clock].
    rewrite db_after_insert, db_defer. split; [reflexivity|]. split.
    + unfold is_active, minted_token, timedelta_hours. cbn.
      rewrite clock_after_insert, clock_defer. cbn. apply Z.ltb_lt. lia.
    + unfold logs. rewrite !flat_map_app.
      fold (logs (trace (after_insert "core_userverificationtoken"
                           (UserVerificationToken.token
                              (minted_token self (draw E (rng w + 7 * k)) (clock w)))
                           (defer (WrittenToken
                                     (UserVerificationToken.token
                                        (minted_token self (draw E (rng w + 7 * k))
                                                      (clock w))))
                                  (set_db
                                     (set_verification_tokens
                                        (verification_tokens
                                           (db (after_attempts (S k) w))
                                         ++ [minted_token self
                                               (draw E (rng w + 7 * k)) (clock w)])
                                        (db (after_attempts (S k) w)))
                                     (advance_db_ops (after_attempts (S k) w))))))).
      rewrite logs_after_insert, trace_defer. cbn. now rewrite !app_nil_r.
Qed.

Lemma send_email_verification_failed_mail_leaves_token_witness :
  exists w',
    send_email_verification
      (with_mailer unreachable_mailer (calm_environment (stubborn_source 0))) 1
      sample_user (world_of 1000 sample_db) = Return tt w'
    /\ map UserVerificationToken.token (verification_tokens (db w'))
       = ["aaaaaaa"; "bbbbbbb"]
    /\ logs (trace w') = [(ERROR, "Failed to send email: connection refused")].
Proof.
  destruct (send_email_verification_failed_mail_leaves_token
              (with_mailer unreachable_mailer (calm_environment (stubborn_source 0)))
              sample_user (world_of 1000 sample_db) 0 1
              (mk_exn (OtherException "ServiceRequestError") "connection refused"))
    as [w' [Hrun [Hrows [_ Hlogs]]]].
  - intros j Hj. lia.
  - reflexivity.
  - intros j Hj. reflexivity.
  - reflexivity.
  - reflexivity.
  - reflexivity.
  - lia.
  - exists w'. split; [exact Hrun|]. split.
    + rewrite Hrows. reflexivity.
    + rewrite Hlogs. reflexivity.
Defined.

(** X7.  A second request does not revoke the first token.  When two calls
    for the same user, the second one [d] microseconds after the first,
    both insert a row, the table holds the two rows side by side, with
    different tokens and each with the expiry of its own call; the second
    token is active after the second call, and the first one is active
    then exactly when less than 24 hours lie between the calls: nothing
    switches it off, it only expires. *)
Theorem send_email_verification_twice_keeps_both_tokens :
  forall (E : environment) (fuel1 fuel2 : nat) (self : User.t) (w w1 w2 : world)
         (d : Z),
    (0 <= d)%Z ->
    final_world (send_email_verification E fuel1 self w) = Some w1 ->
    final_world (send_email_verification E fuel2 self (later d w1)) = Some w2 ->
    length (verification_tokens (db w2)) = 2 + length (verification_tokens (db w)) ->
    exists tok1 tok2,
      verification_tokens (db w2)
      = (verification_tokens (db w)
         ++ [minted_token self tok1 (clock w);
             minted_token self tok2 (clock w + d)])%list
      /\ tok1 <> tok2
      /\ clock w2 = (clock w + d)%Z
      /\ is_active (minted_token self tok2 (clock w + d)) w2 = true
      /\ is_active (minted_token self tok1 (clock w)) w2
         = (d <? timedelta_hours 24)%Z.
Proof.
  intros E fuel1 fuel2 self w w1 w2 d Hd Hfirst Hsecond Hlen.
  destruct (send_email_verification_outcome E fuel1 self w w1 Hfirst)
    as [Hclock1 [_ Hcase1]].
  destruct (send_email_verification_outcome E fuel2 self (later d w1) w2 Hsecond)
    as [Hclock2 [_ Hcase2]].
  cbn [later clock db] in Hclock2, Hcase2.
  rewrite Hclock1 in Hclock2, Hcase2.
  destruct Hcase1 as [[Hdb1 _]|[tok1 [Hdb1 _]]];
    destruct Hcase2 as [[Hdb2 _]|[tok2 [Hdb2 [_ [Hfree2 _]]]]];
    rewrite Hdb2, ?Hdb1 in Hlen; cbn in Hlen; rewrite ?length_app in Hlen;
    cbn in Hlen; try lia.
  exists tok1, tok2. split; [|split; [|split; [exact Hclock2|split]]].
  - rewrite Hdb2, Hdb1. cbn. now rewrite <- app_assoc.
  - intros Heq. rewrite Hdb1 in Hfree2. unfold taken in Hfree2.
    cbn [set_verification_tokens verification_tokens] in Hfree2.
    rewrite existsb_app in Hfree2. apply orb_false_elim in Hfree2.
    destruct Hfree2 as [_ Hlast]. cbn in Hlast.
    rewrite Heq, String.eqb_refl in Hlast. discriminate Hlast.
  - unfold is_active, minted_token, timedelta_hours. cbn.
    rewrite Hclock2. apply Z.ltb_lt. lia.
  - unfold is_active, minted_token, timedelta_hours. cbn.
    rewrite Hclock2.
    destruct (Z.ltb_spec (clock w + d) (clock w + 86400000000)),
             (Z.ltb_spec d 86400000000); (reflexivity || lia).
Qed.

(** Witness of X7: the second request comes 25 hours after the first. *)
Lemma send_email_verification_twice_keeps_both_tokens_witness :
  exists w1 w2 tok1 tok2,
    final_world (send_email_verification (calm_environment (delayed_source 0)) 5
                   sample_user (world_of 1000 sample_db)) = Some w1
    /\ final_world (send_email_verification (calm_environment (delayed_source 0)) 5
                      sample_user (later 90000000000 w1)) = Some w2
    /\ verification_tokens (db w2)
       = [token_aaaaaaa; minted_token sample_user tok1 1000;
          minted_token sample_user tok2 90000001000]
    /\ tok1 <> tok2
    /\ is_active (minted_token sample_user tok2 90000001000) w2 = true
    /\ is_active (minted_token sample_user tok1 1000) w2 = false.
Proof.
  pose (end_of := fun r : result unit =>
                    match r with
                    | Return _ x | Raise _ x => x
                    | Diverge => world_of 1000 sample_db
                    end).
  pose (w1 := end_of (send_email_verification (calm_environment (delayed_source 0)) 5
                        sample_user (world_of 1000 sample_db))).
  pose (w2 := end_of (send_email_verification (calm_environment (delayed_source 0)) 5
                        sample_user (later 90000000000 w1))).
  assert (Hfirst : final_world (send_email_verification
                      (calm_environment (delayed_source 0)) 5 sample_user
                      (world_of 1000 sample_db)) = Some w1)
    by (vm_compute; reflexivity).
  assert (Hsecond : final_world (send_email_verification
                       (calm_environment (delayed_source 0)) 5 sample_user
                       (later 90000000000 w1))
                    = Some w2)
    by (vm_compute; reflexivity).
  assert (Hd : (0 <= 90000000000)%Z) by lia.
  destruct (send_email_verification_twice_keeps_both_tokens _ _ _ _ _ _ _ _
              Hd Hfirst Hsecond)
    as [tok1 [tok2 [Hrows [Hdiff [_ [Hsecond_active Hfirst_active]]]]]].
  - vm_compute. reflexivity.
  - exists w1, w2, tok1, tok2.
    split; [exact Hfirst|]. split; [exact Hsecond|]. split; [exact Hrows|].
    split; [exact Hdiff|]. split; [exact Hsecond_active|].
    transitivity ((90000000000 <? timedelta_hours 24)%Z);
      [exact Hfirst_active | reflexivity].
Defined.

(** ** More on the user manager *)

Lemma visible_app (tr1 tr2 : list event) :
  visible (tr1 ++ tr2) = (visible tr1 ++ visible tr2)%list.
Proof. unfold visible. apply filter_app. Qed.

Lemma visible_after_insert (table key : string) (w : world) :
  visible (trace (after_insert table key w)) = visible (trace w).
Proof.
  unfold after_insert, emit. cbn.
  destruct (atomic_blocks w); cbn; rewrite !visible_app; cbn;
    now rewrite ?app_nil_r.
Qed.

Lemma visible_after_write (w : world) :
  visible (trace (after_write w)) = visible (trace w).
Proof.
  unfold after_write, emit.
  destruct (atomic_blocks w); cbn; rewrite ?visible_app; cbn;
    now rewrite ?app_nil_r.
Qed.

Lemma db_after_write (w : world) : db (after_write w) = db w.
Proof. unfold after_write, emit. destruct (atomic_blocks w); reflexivity. Qed.

(** How [create_user] leaves the world: the tables of tokens and agreements
    and what an observer reads in the log and at the mailer are what they
    were; the table of users is what it was or has the new row at its end. *)
Lemma create_user_outcome
    (E : environment) (email password : option string) (w w' : world) :
  final_world (create_user E email password w) = Some w' ->
  verification_tokens (db w') = verification_tokens (db w)
  /\ agreements (db w') = agreements (db w)
  /\ visible (trace w') = visible (trace w)
  /\ (users (db w') = users (db w)
      \/ exists s,
           email = Some s /\ s <> EmptyString
           /\ user_insertable (new_user E s password w) (db w) = true
           /\ users (db w') = (users (db w) ++ [new_user E s password w])%list).
Proof.
  unfold create_user.
  destruct (truthy email) eqn:Htruthy; cbn [negb];
    [|intros Hfinal; injection Hfinal as <-; repeat split; now left].
  destruct email as [s|]; [|discriminate Htruthy].
  assert (Hs : s <> EmptyString).
  { intros ->. discriminate Htruthy. }
  unfold bind at 1. unfold model_User at 1.
  unfold save_new_user, bind, timezone_now, db_statement.
  cbn [advance_entropy db_ops clock set_password
         User.id User.password User.name User.email User.phone_number
         User.email_verified User.is_active User.is_admin].
  destruct (db_fault E (db_ops w)); cbn [advance_entropy advance_db_ops db];
    [intros Hfinal; injection Hfinal as <-; repeat split; now left|].
  destruct (existsb (fun r => N.eqb (User.id r) (uuid4 E (entropy w)))
                    (users (db w))) eqn:Hid;
    [intros Hfinal; injection Hfinal as <-; repeat split; now left|].
  destruct (existsb (fun r => String.eqb (User.email r) (normalize_email E s))
                    (users (db w))) eqn:Hmail;
    [intros Hfinal; injection Hfinal as <-; repeat split; now left|].
  unfold transaction_on_commit. rewrite atomic_blocks_after_insert.
  change (atomic_blocks (set_db _ (advance_db_ops (advance_entropy w))))
    with (atomic_blocks w).
  destruct (atomic_blocks w) as [|f fs]; cbn [run_callback onCreateAccount ret];
    intros Hfinal; injection Hfinal as <-; cbn [db trace set_atomic_blocks];
    rewrite db_after_insert, visible_after_insert; cbn;
    (repeat split; try reflexivity); right; exists s;
    (split; [reflexivity|]); (split; [exact Hs|]); (split; [|reflexivity]);
    unfold user_insertable, new_user; cbn [User.id User.email];
    now rewrite Hid, Hmail.
Qed.

Lemma user_exists_app (uid : UUID) (d : database) (u : User.t) :
  user_exists uid d = true ->
  user_exists uid (set_users (users d ++ [u]) d) = true.
Proof.
  unfold user_exists. cbn. intros H. rewrite existsb_app, H. reflexivity.
Qed.

Lemma existsb_false_not_In {A B : Type} (f : A -> B) (eqb : B -> B -> bool)
    (b : B) (l : list A) :
  (forall x, eqb x x = true) ->
  existsb (fun r => eqb (f r) b) l = false -> ~ In b (map f l).
Proof.
  intros Hrefl Hnone Hin. apply in_map_iff in Hin. destruct Hin as [r [<- Hr]].
  assert (Hsome : existsb (fun r0 => eqb (f r0) (f r)) l = true)
    by (apply existsb_exists; exists r; split; [assumption | apply Hrefl]).
  congruence.
Qed.

(** X8.  [create_user] keeps the tables sound and is silent, however it
    ends: ids and e-mails of the users stay unique, every foreign key still
    points to a row, tokens and agreements are not touched, and nothing is
    logged and no mail is sent (the hook [onCreateAccount] does nothing, so
    registering a user does not send the verification mail). *)
Theorem create_user_keeps_tables_sound_and_is_silent :
  forall (E : environment) (email password : option string) (w w' : world),
    final_world (create_user E email password w) = Some w' ->
    keys_unique (db w) ->
    references_resolve (db w) ->
    keys_unique (db w') /\ references_resolve (db w')
    /\ verification_tokens (db w') = verification_tokens (db w)
    /\ agreements (db w') = agreements (db w)
    /\ visible (trace w') = visible (trace w).
Proof.
  intros E email password w w' Hfinal Hkeys Hrefs.
  destruct (create_user_outcome E email password w w' Hfinal)
    as [Htoks [Hags [Hsilent Husers]]].
  destruct Hkeys as [Hids [Hmails [Hutoks Huags]]].
  destruct Hrefs as [Htokrefs Hagrefs].
  assert (Hexists : forall uid, user_exists uid (db w) = true ->
                                user_exists uid (db w') = true).
  { intros uid Huid. unfold user_exists in *.
    destruct Husers as [->|[s [_ [_ [_ ->]]]]]; [exact Huid|].
    rewrite existsb_app, Huid. reflexivity. }
  split; [|split; [|repeat split; assumption]].
  - unfold keys_unique. rewrite Htoks, Hags.
    destruct Husers as [->|[s [_ [_ [Hfresh ->]]]]]; [repeat split; assumption|].
    unfold user_insertable in Hfresh. apply andb_prop in Hfresh.
    destruct Hfresh as [Hid Hmail].
    apply negb_true_iff in Hid. apply negb_true_iff in Hmail.
    rewrite !map_app. repeat split; try assumption.
    + apply NoDup_snoc; [assumption|].
      apply (existsb_false_not_In User.id N.eqb); [apply N.eqb_refl | exact Hid].
    + apply NoDup_snoc; [assumption|].
      apply (existsb_false_not_In User.email String.eqb);
        [apply String.eqb_refl | exact Hmail].
  - split.
    + rewrite Htoks. intros t Hin. apply Hexists, Htokrefs, Hin.
    + rewrite Hags. intros a Hin. destruct (Hagrefs a Hin) as [Hseller Hbuyer].
      split; [now apply Hexists|]. intros b Hb. now apply Hexists, Hbuyer.
Qed.

Ltac nodup_small :=
  cbn; repeat (constructor; [cbn; intuition discriminate|]); constructor.

Lemma sample_db_sound : keys_unique sample_db /\ references_resolve sample_db.
Proof.
  split.
  - unfold keys_unique. repeat split; nodup_small.
  - split.
    + intros t [<-|[]]. reflexivity.
    + intros a [].
Qed.

Lemma create_user_keeps_tables_sound_and_is_silent_witness :
  exists w',
    final_world (create_user (calm_environment constant_source)
                   (Some "bob@example.org") (Some "s3cret")
                   (world_of 1000 sample_db)) = Some w'
    /\ keys_unique (db w') /\ references_resolve (db w')
    /\ visible (trace w') = [].
Proof.
  pose (w' := match create_user (calm_environment constant_source)
                      (Some "bob@example.org") (Some "s3cret")
                      (world_of 1000 sample_db) with
              | Return _ x | Raise _ x => x
              | Diverge => world_of 1000 sample_db
              end).
  assert (Hfinal : final_world (create_user (calm_environment constant_source)
                      (Some "bob@example.org") (Some "s3cret")
                      (world_of 1000 sample_db)) = Some w')
    by (vm_compute; reflexivity).
  destruct (create_user_keeps_tables_sound_and_is_silent _ _ _ _ _ Hfinal
              (proj1 sample_db_sound) (proj2 sample_db_sound))
    as [Hkeys [Hrefs [_ [_ Hsilent]]]].
  exists w'. split; [exact Hfinal|]. split; [exact Hkeys|].
  split; [exact Hrefs | exact Hsilent].
Defined.

(** X9.  An e-mail that is already in the table (after normalisation) is
    refused: [create_user] raises the database's [IntegrityError] to its
    caller and the tables are what they were. *)
Theorem create_user_with_known_email_is_refused :
  forall (E : environment) (email : string) (password : option string) (w : world),
    email <> EmptyString ->
    db_fault E (db_ops w) = None ->
    existsb (fun r => String.eqb (User.email r) (normalize_email E email))
            (users (db w)) = true ->
    exists e w',
      create_user E (Some email) password w = Raise e w'
      /\ exc_type e = IntegrityError
      /\ db w' = db w.
Proof.
  intros E email password w Hemail Hdb Hknown.
  unfold create_user, truthy.
  destruct (String.eqb_spec email EmptyString) as [Heq|_]; [contradiction|].
  cbn [negb]. unfold bind at 1. unfold model_User at 1.
  unfold save_new_user, bind, timezone_now, db_statement.
  cbn [advance_entropy db_ops clock set_password
         User.id User.password User.name User.email User.phone_number
         User.email_verified User.is_active User.is_admin].
  rewrite Hdb. cbn [advance_entropy advance_db_ops db].
  rewrite Hknown.
  destruct (existsb (fun r => N.eqb (User.id r) (uuid4 E (entropy w)))
                    (users (db w))); eexists; eexists;
    (split; [reflexivity|]); split; reflexivity.
Qed.

Lemma create_user_with_known_email_is_refused_witness :
  exists e w',
    create_user (calm_environment constant_source) (Some "ann@example.org")
                (Some "s3cret") (world_of 1000 sample_db) = Raise e w'
    /\ exc_type e = IntegrityError
    /\ db w' = sample_db.
Proof.
  apply (create_user_with_known_email_is_refused
           (calm_environment constant_source) "ann@example.org" (Some "s3cret")
           (world_of 1000 sample_db)).
  - discriminate.
  - reflexivity.
  - reflexivity.
Defined.

(** [create_user] when the database takes the row, with what the next
    statement will find. *)
Lemma create_user_run_world (E : environment) (email : string)
    (password : option string) (w : world) :
  email <> EmptyString ->
  db_fault E (db_ops w) = None ->
  user_insertable (new_user E email password w) (db w) = true ->
  exists w1,
    create_user E (Some email) password w
    = Return (new_user E email password w) w1
    /\ db w1 = set_users (users (db w) ++ [new_user E email password w]) (db w)
    /\ db_ops w1 = S (db_ops w)
    /\ clock w1 = clock w
    /\ visible (trace w1) = visible (trace w).
Proof.
  intros Hemail Hdb Hfresh.
  unfold create_user, truthy.
  destruct (String.eqb_spec email EmptyString) as [Heq|_]; [contradiction|].
  cbn [negb]. unfold bind at 1. unfold model_User at 1.
  unfold save_new_user, bind, timezone_now, db_statement.
  cbn [advance_entropy db_ops clock set_password
         User.id User.password User.name User.email User.phone_number
         User.email_verified User.is_active User.is_admin].
  rewrite Hdb. cbn [advance_entropy advance_db_ops db].
  unfold user_insertable, new_user in Hfresh.
  cbn [User.id User.email] in Hfresh.
  apply andb_prop in Hfresh. destruct Hfresh as [Hid Hmail].
  apply negb_true_iff in Hid. apply negb_true_iff in Hmail.
  rewrite Hid, Hmail.
  unfold transaction_on_commit. rewrite atomic_blocks_after_insert.
  change (atomic_blocks (set_db _ (advance_db_ops (advance_entropy w))))
    with (atomic_blocks w).
  destruct (atomic_blocks w) as [|f fs] eqn:Hblocks;
    cbn [run_callback onCreateAccount ret];
    eexists; (split; [reflexivity|]);
    cbn [db db_ops clock trace set_atomic_blocks];
    rewrite db_after_insert, visible_after_insert;
    unfold after_insert, emit; cbn [atomic_blocks set_db advance_db_ops
      advance_entropy]; rewrite Hblocks; cbn; repeat split.
Qed.

(** The UPDATE of the row that was inserted last. *)
Lemma save_user_updates_last_row
    (E : environment) (u u0 : User.t) (old : list User.t) (w : world) :
  db_fault E (db_ops w) = None ->
  users (db w) = (old ++ [u0])%list ->
  User.id u0 = User.id u ->
  existsb (fun r => N.eqb (User.id r) (User.id u)) old = false ->
  existsb (fun r => String.eqb (User.email r) (User.email u)) old = false ->
  exists w',
    save_user E u w
    = Return (User.mk (User.id u) (User.password u) (User.name u) (User.email u)
                      (User.phone_number u) (User.created_at u)
                      (User.email_verified u) (Some (clock w)) (User.is_active u)
                      (User.is_admin u)) w'
    /\ db w' = set_users
                 (old ++ [User.mk (User.id u) (User.password u) (User.name u)
                                  (User.email u) (User.phone_number u)
                                  (User.created_at u) (User.email_verified u)
                                  (Some (clock w)) (User.is_active u)
                                  (User.is_admin u)]) (db w)
    /\ visible (trace w') = visible (trace w).
Proof.
  intros Hdb Hrows Hsame Hids Hmails.
  unfold save_user, bind, timezone_now, db_statement. rewrite Hdb.
  cbn [advance_db_ops db User.id User.email]. rewrite Hrows.
  assert (Hother :
            existsb (fun r => negb (N.eqb (User.id r) (User.id u))
                              && String.eqb (User.email r) (User.email u))
                    (old ++ [u0]) = false).
  { rewrite existsb_app. apply orb_false_intro.
    - apply not_true_is_false. intros Hsome.
      apply existsb_exists in Hsome. destruct Hsome as [r [Hr Hboth]].
      apply andb_prop in Hboth. destruct Hboth as [_ Hmail].
      rewrite (existsb_false_forall _ _ Hmails r Hr) in Hmail. discriminate.
    - cbn. rewrite Hsame, N.eqb_refl. reflexivity. }
  rewrite Hother.
  assert (Hfound : existsb (fun r => N.eqb (User.id r) (User.id u)) (old ++ [u0])
                   = true).
  { rewrite existsb_app. cbn. rewrite Hsame, N.eqb_refl. apply orb_true_r. }
  rewrite Hfound. unfold ret.
  eexists. split; [reflexivity|].
  rewrite db_after_write, visible_after_write. cbn [db set_db trace].
  split; [|reflexivity].
  f_equal. rewrite map_app. cbn [map]. rewrite Hsame, N.eqb_refl. f_equal.
  rewrite <- (map_id old) at 2. apply map_ext_in. intros r Hr.
  now rewrite (existsb_false_forall _ _ Hids r Hr).
Qed.

(** X10.  [create_superuser] with an e-mail that the database accepts
    returns an active user with [is_admin = True] (so [is_staff] holds),
    and the table of users has gained exactly one row, the one returned:
    the second [save] updates the row the first one inserted.  Nothing is
    logged and no mail is sent. *)
Theorem create_superuser_persists_one_admin :
  forall (E : environment) (email : string) (password : option string) (w : world),
    email <> EmptyString ->
    db_fault E (db_ops w) = None ->
    db_fault E (S (db_ops w)) = None ->
    user_insertable (new_user E email password w) (db w) = true ->
    exists (u : User.t) (w' : world),
      create_superuser E (Some email) password w = Return u w'
      /\ users (db w') = (users (db w) ++ [u])%list
      /\ verification_tokens (db w') = verification_tokens (db w)
      /\ agreements (db w') = agreements (db w)
      /\ User.is_admin u = true /\ is_staff u = true /\ User.is_active u = true
      /\ User.email u = normalize_email E email
      /\ User.password u = make_password E password
      /\ visible (trace w') = visible (trace w).
Proof.
  intros E email password w Hemail Hdb Hdb2 Hfresh.
  destruct (create_user_run_world E email password w Hemail Hdb Hfresh)
    as [w1 [Hrun [Hdb1 [Hops1 [Hclock1 Hsilent1]]]]].
  pose proof Hfresh as Hkeys. unfold user_insertable in Hkeys.
  apply andb_prop in Hkeys. destruct Hkeys as [Hid Hmail].
  apply negb_true_iff in Hid. apply negb_true_iff in Hmail.
  destruct (save_user_updates_last_row E
              (set_is_admin true (new_user E email password w))
              (new_user E email password w) (users (db w)) w1)
    as [w' [Hsave [Hdb' Hsilent']]].
  - now rewrite Hops1.
  - now rewrite Hdb1.
  - reflexivity.
  - exact Hid.
  - exact Hmail.
  - unfold create_superuser, bind. rewrite Hrun, Hsave.
    eexists. exists w'. split; [reflexivity|].
    rewrite Hdb', Hdb1, Hsilent', Hsilent1. cbn. repeat split.
Qed.

Lemma create_superuser_persists_one_admin_witness :
  exists (u : User.t) (w' : world),
    create_superuser (calm_environment constant_source) (Some "root@example.org")
                     (Some "s3cret") (world_of 1000 sample_db) = Return u w'
    /\ map User.email (users (db w')) = ["ann@example.org"; "root@example.org"]
    /\ map User.is_admin (users (db w')) = [false; true]
    /\ is_staff u = true.
Proof.
  destruct (create_superuser_persists_one_admin
              (calm_environment constant_source) "root@example.org"
              (Some "s3cret") (world_of 1000 sample_db))
    as [u [w' [Hrun [Hrows [_ [_ [Hadmin [Hstaff [_ [Hmail _]]]]]]]]]].
  - discriminate.
  - reflexivity.
  - reflexivity.
  - reflexivity.
  - exists u, w'. split; [exact Hrun|]. rewrite Hrows. cbn.
    rewrite Hmail, Hadmin. repeat split. exact Hstaff.
Defined.

(** X11.  [create_superuser] is not one transaction.  Without an e-mail it
    fails like [create_user], before anything is written; but when the
    second [save] fails, the exception reaches the caller and the row of
    the first [save] stays in the table: a user without admin rights. *)
Theorem create_superuser_failure_leaves_plain_user :
  forall (E : environment) (password : option string) (w : world),
    create_superuser E None password w
    = Raise (mk_exn ValueError "Users must have an email address") w
    /\ create_superuser E (Some EmptyString) password w
       = Raise (mk_exn ValueError "Users must have an email address") w
    /\ (forall (email : string) (e : exn),
          email <> EmptyString ->
          db_fault E (db_ops w) = None ->
          db_fault E (S (db_ops w)) = Some e ->
          user_insertable (new_user E email password w) (db w) = true ->
          exists w',
            create_superuser E (Some email) password w = Raise e w'
            /\ users (db w')
               = (users (db w) ++ [new_user E email password w])%list
            /\ User.is_admin (new_user E email password w) = false).
Proof.
  intros E password w. split; [reflexivity|]. split; [reflexivity|].
  intros email e Hemail Hdb Hdb2 Hfresh.
  destruct (create_user_run_world E email password w Hemail Hdb Hfresh)
    as [w1 [Hrun [Hdb1 [Hops1 _]]]].
  unfold create_superuser. unfold bind at 1. rewrite Hrun.
  unfold save_user, bind, timezone_now, db_statement.
  rewrite Hops1, Hdb2. eexists. split; [reflexivity|].
  cbn [advance_db_ops db]. rewrite Hdb1. split; reflexivity.
Qed.

Lemma create_superuser_failure_leaves_plain_user_witness :
  exists w',
    create_superuser
      (mk_environment constant_source (fun i => N.of_nat i)
         (fun i => if (i =? 1)%nat
                   then Some (mk_exn OperationalError "database is locked")
                   else None)
         (fun _ => None) (fun s => s) (fun _ => "Xk3fQ0aZ")
         (fun _ => "870000$c2FsdA$ZGlnZXN0"))
      (Some "root@example.org") (Some "s3cret") (world_of 1000 sample_db)
    = Raise (mk_exn OperationalError "database is locked") w'
    /\ map User.email (users (db w')) = ["ann@example.org"; "root@example.org"]
    /\ map User.is_admin (users (db w')) = [false; false].
Proof.
  destruct (proj2 (proj2 (create_superuser_failure_leaves_plain_user
              (mk_environment constant_source (fun i => N.of_nat i)
                 (fun i => if (i =? 1)%nat
                           then Some (mk_exn OperationalError "database is locked")
                           else None)
                 (fun _ => None) (fun s => s) (fun _ => "Xk3fQ0aZ")
                 (fun _ => "870000$c2FsdA$ZGlnZXN0"))
              (Some "s3cret") (world_of 1000 sample_db)))
              "root@example.org" (mk_exn OperationalError "database is locked"))
    as [w' [Hrun [Hrows _]]].
  - discriminate.
  - reflexivity.
  - reflexivity.
  - reflexivity.
  - exists w'. split; [exact Hrun|]. rewrite Hrows. split; reflexivity.
Defined.

(** ** More on the agreements *)

Lemma visible_add_events (evs : list event) (w : world) :
  visible (trace (add_events evs w)) = (visible (trace w) ++ visible evs)%list.
Proof. now rewrite trace_add_events, visible_app. Qed.

Lemma deferred_add_events (evs : list event) (w : world) :
  deferred (add_events evs w) = deferred w.
Proof.
  unfold add_events. revert w.
  induction evs as [|ev evs IH]; intros w; cbn [fold_left];
    [reflexivity | now rewrite IH].
Qed.

(** Where the foreign keys are checked with the statement, the database
    takes exactly the rows that are insertable. *)
Lemma agreement_accepted_autocommit (a : PaymentAgreement.t) (w : world) :
  atomic_blocks w = [] ->
  agreement_accepted a w = agreement_insertable a (db w).
Proof.
  intros Hauto. unfold agreement_accepted, agreement_insertable, checked_now,
    agreement_resolves.
  rewrite Hauto. cbn [andb]. now rewrite negb_involutive.
Qed.

(** How the creation of an agreement leaves the world: either the tables
    are what they were and nothing was logged or sent, or the database took
    the row, which heads the table of agreements, and inside a block its
    foreign keys wait for COMMIT. *)
Lemma create_agreement_outcome
    (E : environment) (kw : agreement_kwargs) (w w' : world) :
  final_world (PaymentAgreement_objects_create E kw w) = Some w' ->
  users (db w') = users (db w)
  /\ verification_tokens (db w') = verification_tokens (db w)
  /\ disputes (db w') = disputes (db w)
  /\ ((db w' = db w /\ visible (trace w') = visible (trace w))
      \/ (agreement_accepted (new_agreement E kw w) w = true
          /\ agreements (db w') = new_agreement E kw w :: agreements (db w)
          /\ deferred w'
             = deferred (defer (WrittenAgreement
                                  (PaymentAgreement.id (new_agreement E kw w))) w))).
Proof.
  unfold PaymentAgreement_objects_create. unfold bind at 1.
  unfold model_PaymentAgreement at 1.
  unfold save_new_agreement, bind, timezone_now, db_statement.
  cbn [advance_entropy db_ops clock
         PaymentAgreement.id PaymentAgreement.buyer PaymentAgreement.buyer_email
         PaymentAgreement.seller PaymentAgreement.name PaymentAgreement.amount
         PaymentAgreement.currency PaymentAgreement.description
         PaymentAgreement.days_to_deliver PaymentAgreement.transaction_type
         PaymentAgreement.status].
  destruct (db_fault E (db_ops w)); cbn [advance_entropy advance_db_ops db];
    [intros Hfinal; injection Hfinal as <-; repeat split; left; split; reflexivity|].
  destruct (existsb (fun r => N.eqb (PaymentAgreement.id r) (uuid4 E (entropy w)))
                    (agreements (db w))) eqn:Hid;
    [intros Hfinal; injection Hfinal as <-; repeat split; left; split; reflexivity|].
  change (checked_now (advance_db_ops (advance_entropy w))) with (checked_now w).
  unfold agreement_resolves.
  cbn [PaymentAgreement.seller PaymentAgreement.buyer].
  destruct (checked_now w
            && negb (user_exists (kw_seller kw) (db w)
                     && match kw_buyer kw with
                        | Some b => user_exists b (db w)
                        | None => true
                        end)) eqn:Hkeys;
    [intros Hfinal; injection Hfinal as <-; repeat split; left; split; reflexivity|].
  assert (Haccepted : agreement_accepted (new_agreement E kw w) w = true).
  { unfold agreement_accepted, new_agreement, agreement_resolves.
    cbn [PaymentAgreement.id PaymentAgreement.seller PaymentAgreement.buyer].
    now rewrite Hid, Hkeys. }
  unfold transaction_on_commit.
  rewrite atomic_blocks_after_insert, atomic_blocks_defer.
  change (atomic_blocks (set_db _ (advance_db_ops (advance_entropy w))))
    with (atomic_blocks w).
  destruct (atomic_blocks w) as [|f fs] eqn:Hblocks; cbn [run_callback].
  - rewrite onCreateAgreement_run.
    destruct (send_email E hook_call); unfold ret;
      intros Hfinal; injection Hfinal as <-;
      cbn [emit db deferred];
      rewrite ?db_add_events, ?deferred_add_events, db_after_insert,
        deferred_after_insert, db_defer;
      cbn [db set_db set_agreements users verification_tokens disputes agreements];
      (repeat split; try reflexivity); right;
      (split; [exact Haccepted|]); (split; [reflexivity|]);
      apply deferred_defer_same; reflexivity.
  - unfold ret. intros Hfinal. injection Hfinal as <-.
    cbn [db deferred set_atomic_blocks].
    rewrite db_after_insert, deferred_after_insert, db_defer.
    cbn [db set_db set_agreements users verification_tokens disputes agreements].
    (repeat split; try reflexivity); right.
    split; [exact Haccepted|]. split; [reflexivity|].
    apply deferred_defer_same; reflexivity.
Qed.

Lemma agreement_resolves_same_users (d d' : database) (a : PaymentAgreement.t) :
  users d' = users d -> agreement_resolves d' a = agreement_resolves d a.
Proof. unfold agreement_resolves, user_exists. now intros ->. Qed.

(** COMMIT refuses a written agreement whose seller or buyer has no row. *)
Lemma foreign_keys_hold_dangling_agreement
    (d : database) (a : PaymentAgreement.t) :
  agreement_resolves d a = false ->
  foreign_keys_hold (set_agreements (a :: agreements d) d)
                    (WrittenAgreement (PaymentAgreement.id a)) = false.
Proof.
  intros Hdangling. unfold foreign_keys_hold.
  cbn [set_agreements agreements forallb]. rewrite N.eqb_refl.
  change (agreement_resolves (set_agreements (a :: agreements d) d) a)
    with (agreement_resolves d a).
  now rewrite Hdangling.
Qed.

(** X12.  The creation of an agreement keeps the tables sound, however it
    ends: keys stay unique, and users, tokens and disputes are not touched.
    Outside a transaction every foreign key still points to a row, and when
    the database refuses the row (the key is taken, or seller or buyer have
    no row) no table changes, nothing is logged and the mailer is not
    called.  Inside an [atomic] block seller and buyer are not checked by
    the INSERT: an agreement that points to no user after the call is the
    row the call wrote, and the check of its foreign keys is waiting for
    COMMIT; when the creation is the body of a block at top level, COMMIT
    refuses such a row, the [IntegrityError] leaves the block, the tables
    are what they were and the hook is never run. *)
Theorem create_agreement_keeps_tables_sound :
  forall (E : environment) (kw : agreement_kwargs) (w : world),
    (forall w',
        final_world (PaymentAgreement_objects_create E kw w) = Some w' ->
        keys_unique (db w) ->
        references_resolve (db w) ->
        keys_unique (db w')
        /\ users (db w') = users (db w)
        /\ verification_tokens (db w') = verification_tokens (db w)
        /\ disputes (db w') = disputes (db w)
        /\ (atomic_blocks w = [] ->
            references_resolve (db w')
            /\ (agreement_insertable (new_agreement E kw w) (db w) = false ->
                db w' = db w /\ visible (trace w') = visible (trace w)))
        /\ (forall a, In a (agreements (db w')) ->
                      agreement_resolves (db w') a = false ->
                      atomic_blocks w <> []
                      /\ a = new_agreement E kw w
                      /\ In (WrittenAgreement (PaymentAgreement.id a))
                            (deferred w')))
    /\ (atomic_blocks w = [] ->
        db_fault E (db_ops w) = None ->
        db_fault E (S (db_ops w)) = None ->
        existsb (fun r => N.eqb (PaymentAgreement.id r)
                                (PaymentAgreement.id (new_agreement E kw w)))
                (agreements (db w)) = false ->
        agreement_resolves (db w) (new_agreement E kw w) = false ->
        exists w',
          atomic E (PaymentAgreement_objects_create E kw) w
          = Raise (mk_exn IntegrityError "FOREIGN KEY constraint failed") w'
          /\ db w' = db w
          /\ atomic_blocks w' = []
          /\ visible (trace w') = visible (trace w)).
Proof.
  intros E kw w. split.
  - intros w' Hfinal Hkeys Hrefs.
    destruct (create_agreement_outcome E kw w w' Hfinal)
      as [Husers [Htoks [Hdisputes Hcase]]].
    destruct Hkeys as [Hids [Hmails [Hutoks Huags]]].
    destruct Hrefs as [Htokrefs Hagrefs].
    assert (Hexists : forall uid, user_exists uid (db w') = user_exists uid (db w)).
    { intros uid. unfold user_exists. now rewrite Husers. }
    assert (Hold : forall a, In a (agreements (db w)) ->
                             agreement_resolves (db w') a = true).
    { intros a Hin. destruct (Hagrefs a Hin) as [Hseller Hbuyer].
      rewrite (agreement_resolves_same_users _ _ _ Husers).
      unfold agreement_resolves. rewrite Hseller. cbn [andb].
      destruct (PaymentAgreement.buyer a) as [b|] eqn:Hb; [|reflexivity].
      now apply Hbuyer. }
    assert (Hresolves : forall a, agreement_resolves (db w') a = true ->
              user_exists (PaymentAgreement.seller a) (db w') = true
              /\ forall b, PaymentAgreement.buyer a = Some b ->
                           user_exists b (db w') = true).
    { intros a Ha. unfold agreement_resolves in Ha. apply andb_prop in Ha.
      destruct Ha as [Hseller Hbuyer]. split; [exact Hseller|].
      intros b Hb. now rewrite Hb in Hbuyer. }
    split; [|split; [exact Husers|split; [exact Htoks|split; [exact Hdisputes|split]]]].
    + unfold keys_unique. rewrite Husers, Htoks.
      destruct Hcase as [[-> _]|[Haccepted [-> _]]]; [repeat split; assumption|].
      repeat split; try assumption. cbn [map]. constructor; [|assumption].
      unfold agreement_accepted in Haccepted. apply andb_prop in Haccepted.
      destruct Haccepted as [Hid _]. apply negb_true_iff in Hid.
      apply (existsb_false_not_In PaymentAgreement.id N.eqb);
        [apply N.eqb_refl | exact Hid].
    + intros Hauto. split.
      * split.
        -- rewrite Htoks. intros t Hin. rewrite Hexists. now apply Htokrefs.
        -- intros a Hin. apply Hresolves.
           destruct Hcase as [[Hdb _]|[Haccepted [Hrows _]]].
           ++ apply Hold. now rewrite <- Hdb.
           ++ rewrite Hrows in Hin. destruct Hin as [<-|Hin]; [|now apply Hold].
              rewrite (agreement_accepted_autocommit _ _ Hauto) in Haccepted.
              unfold agreement_insertable in Haccepted.
              apply andb_prop in Haccepted. destruct Haccepted as [_ Hkeys].
              rewrite (agreement_resolves_same_users _ _ _ Husers).
              exact Hkeys.
      * intros Hrefused. destruct Hcase as [Hsame|[Haccepted _]]; [exact Hsame|].
        rewrite (agreement_accepted_autocommit _ _ Hauto), Hrefused in Haccepted.
        discriminate Haccepted.
    + intros a Hin Hdangling.
      destruct Hcase as [[Hdb _]|[Haccepted [Hrows Hwaiting]]].
      * rewrite Hdb in Hin. rewrite (Hold a Hin) in Hdangling.
        discriminate Hdangling.
      * rewrite Hrows in Hin. destruct Hin as [<-|Hin];
          [|rewrite (Hold a Hin) in Hdangling; discriminate Hdangling].
        assert (Hblock : atomic_blocks w <> []).
        { intros Hauto.
          rewrite (agreement_accepted_autocommit _ _ Hauto) in Haccepted.
          unfold agreement_insertable in Haccepted.
          apply andb_prop in Haccepted. destruct Haccepted as [_ Hkeys].
          rewrite (agreement_resolves_same_users _ _ _ Husers) in Hdangling.
          unfold agreement_resolves in Hdangling.
          rewrite Hkeys in Hdangling. discriminate Hdangling. }
        split; [exact Hblock|]. split; [reflexivity|].
        rewrite Hwaiting. unfold defer.
        destruct (atomic_blocks w); [contradiction|].
        cbn [deferred set_deferred]. apply in_or_app. right. now left.
  - intros Hauto Hdb Hcommit Hid Hdangling.
    pose proof (create_agreement_in_block E kw (in_transaction w)
                  (mk_frame (db w) []) [] eq_refl Hdb Hid) as Hrun.
    cbv zeta in Hrun.
    rewrite (store_agreement_in_block _ _ (mk_frame (db w) []) []) in Hrun
      by reflexivity.
    rewrite (atomic_commit_refused E _ w _ _
               (mk_frame (db w) [OnCreateAgreement (new_agreement E kw w)])
               Hauto Hrun).
    + eexists. split; [reflexivity|].
      cbn [emit end_transaction set_deferred set_atomic_blocks set_db
             advance_db_ops db atomic_blocks trace savepoint].
      rewrite visible_app, trace_add_events, visible_app. cbn.
      rewrite !app_nil_r. repeat split.
    + reflexivity.
    + exact Hcommit.
    + cbn [set_atomic_blocks add_events fold_left emit set_deferred set_db db
             deferred in_transaction advance_db_ops advance_entropy app forallb].
      change (new_agreement E kw (in_transaction w)) with (new_agreement E kw w).
      rewrite foreign_keys_hold_dangling_agreement by exact Hdangling.
      reflexivity.
Qed.

(** Witness of X12: an agreement whose seller has no row, created as a
    block at top level. *)
Lemma create_agreement_keeps_tables_sound_witness :
  exists w',
    atomic (calm_environment constant_source)
           (PaymentAgreement_objects_create (calm_environment constant_source)
              (mk_kwargs None "ann@example.org" 9%N "Lamp" 2500%Z None None None
                         None None))
           (world_of 1000 sample_db)
    = Raise (mk_exn IntegrityError "FOREIGN KEY constraint failed") w'
    /\ db w' = sample_db
    /\ visible (trace w') = [].
Proof.
  destruct (proj2 (create_agreement_keeps_tables_sound
                     (calm_environment constant_source)
                     (mk_kwargs None "ann@example.org" 9%N "Lamp" 2500%Z None None
                                None None None)
                     (world_of 1000 sample_db))
              eq_refl eq_refl eq_refl eq_refl eq_refl)
    as [w' [Hrun [Hdb [_ Hsilent]]]].
  exists w'. split; [exact Hrun|]. split; [exact Hdb | exact Hsilent].
Defined.

(** X13.  The hook waits for the outermost commit.  When an agreement is
    created in an inner [atomic] block that ends normally, nothing is
    dispatched at the end of the inner block; if the outer block is then
    rolled back, no mail is ever dispatched and the row is gone; if the
    outer block commits, exactly one mail is dispatched, after that
    commit. *)
Theorem nested_block_notifies_after_outer_commit_only :
  forall (E : environment) (kw : agreement_kwargs) (w : world),
    atomic_blocks w = [] ->
    db_fault E (db_ops w) = None ->
    agreement_insertable (new_agreement E kw w) (db w) = true ->
    (exists w1,
        (atomic_enter ;; atomic E (PaymentAgreement_objects_create E kw)) w
        = Return (new_agreement E kw w) w1
        /\ dispatches (trace w1) = dispatches (trace w)
        /\ atomic_blocks w1
           = [mk_frame (db w) [OnCreateAgreement (new_agreement E kw w)]])
    /\ (forall e, exists w',
          atomic E (atomic E (PaymentAgreement_objects_create E kw)
                    ;; raise (A := unit) e) w = Raise e w'
          /\ db w' = db w
          /\ dispatches (trace w') = dispatches (trace w)
          /\ atomic_blocks w' = [])
    /\ (db_fault E (S (db_ops w)) = None ->
        exists w',
          final_world (atomic E (atomic E (PaymentAgreement_objects_create E kw)) w)
          = Some w'
          /\ agreements (db w') = new_agreement E kw w :: agreements (db w)
          /\ trace w' = (trace w ++ insert_event (new_agreement E kw w) :: Commit
                                 :: hook_events (new_agreement E kw w))%list
          /\ dispatches (trace w') = (dispatches (trace w) ++ [hook_call])%list).
Proof.
  intros E kw w Hauto Hdb Hfresh.
  pose proof Hfresh as Hparts. unfold agreement_insertable in Hparts.
  apply andb_prop in Hparts. destruct Hparts as [Hid Hkeys].
  apply negb_true_iff in Hid.
  assert (Hinner :
            atomic E (PaymentAgreement_objects_create E kw) (in_transaction w)
            = Return (new_agreement E kw w)
                (set_atomic_blocks
                   [mk_frame (db w) [OnCreateAgreement (new_agreement E kw w)]]
                   (add_events [insert_event (new_agreement E kw w)]
                      (set_deferred
                         [WrittenAgreement
                            (PaymentAgreement.id (new_agreement E kw w))]
                         (set_db (set_agreements
                                    (new_agreement E kw w :: agreements (db w))
                                    (db w))
                                 (advance_db_ops (advance_entropy w))))))).
  { unfold atomic. unfold bind at 1. unfold atomic_enter at 1.
    cbn [in_transaction set_atomic_blocks atomic_blocks db set_deferred].
    rewrite (create_agreement_in_block E kw _ (mk_frame (db w) [])
               [mk_frame (db w) []]) by (reflexivity || assumption).
    cbv zeta.
    rewrite (store_agreement_in_block _ _ (mk_frame (db w) [])
               [mk_frame (db w) []]) by reflexivity.
    reflexivity. }
  split; [|split].
  - unfold bind, atomic_enter. rewrite Hauto. fold (in_transaction w).
    rewrite Hinner.
    eexists. split; [reflexivity|]. cbn. rewrite dispatches_app. cbn.
    rewrite app_nil_r. split; reflexivity.
  - intros e. unfold atomic at 1. unfold bind at 1. unfold atomic_enter at 1.
    rewrite Hauto. fold (in_transaction w). unfold bind at 1. rewrite Hinner.
    unfold raise, atomic_exit_rollback. cbn [atomic_blocks set_atomic_blocks].
    eexists. split; [reflexivity|]. cbn. rewrite !dispatches_app. cbn.
    rewrite !app_nil_r. repeat split.
  - intros Hcommit. unfold atomic at 1. unfold bind at 1. unfold atomic_enter at 1.
    rewrite Hauto. fold (in_transaction w). rewrite Hinner.
    rewrite (atomic_exit_commit_outermost E _
               (mk_frame (db w) [OnCreateAgreement (new_agreement E kw w)])).
    + cbn [run_on_commit run_callbacks run_callback]. unfold bind.
      rewrite onCreateAgreement_run.
      eexists.
      destruct (send_email E hook_call); (split; [reflexivity|]);
        rewrite trace_add_events, db_add_events; cbn;
        rewrite <- !app_assoc, !dispatches_app; cbn; repeat split.
    + reflexivity.
    + exact Hcommit.
    + cbn [set_atomic_blocks add_events fold_left emit set_deferred set_db db
             deferred forallb].
      rewrite foreign_keys_hold_new_agreement by assumption. reflexivity.
Qed.

Lemma nested_block_notifies_after_outer_commit_only_witness :
  exists w',
    atomic (calm_environment constant_source)
           (atomic (calm_environment constant_source)
                   (PaymentAgreement_objects_create
                      (calm_environment constant_source) sample_kwargs)
            ;; raise (A := unit) (mk_exn ValueError "stop"))
           (world_of 1000 sample_db)
    = Raise (mk_exn ValueError "stop") w'
    /\ db w' = sample_db
    /\ dispatches (trace w') = [].
Proof.
  destruct (proj1 (proj2 (nested_block_notifies_after_outer_commit_only
              (calm_environment constant_source) sample_kwargs
              (world_of 1000 sample_db) eq_refl eq_refl eq_refl))
              (mk_exn ValueError "stop")) as [w' [Hrun [Hdb [Hmails _]]]].
  exists w'. split; [exact Hrun|]. split; [exact Hdb | exact Hmails].
Defined.

(** ** Disputes and deletions *)

(** COMMIT refuses a written dispute whose agreement or raiser has no row. *)
Lemma foreign_keys_hold_dangling_dispute
    (d : database) (rows : list Dispute.t) (x : Dispute.t) :
  dispute_resolves d x = false ->
  foreign_keys_hold (set_disputes (rows ++ [x]) d) (WrittenDispute (Dispute.id x))
  = false.
Proof.
  intros Hdangling. unfold foreign_keys_hold.
  cbn [set_disputes disputes]. rewrite forallb_app. cbn [forallb].
  rewrite N.eqb_refl.
  change (dispute_resolves (set_disputes (rows ++ [x]) d) x)
    with (dispute_resolves d x).
  rewrite Hdangling. cbn. apply andb_false_r.
Qed.

(** The INSERT of a dispute, when the database takes it. *)
Lemma Dispute_objects_create_run
    (E : environment) (kw : dispute_kwargs) (w : world) :
  db_fault E (db_ops w) = None ->
  existsb (fun r => N.eqb (Dispute.id r) (Dispute.id (new_dispute E kw w)))
          (disputes (db w)) = false ->
  checked_now w && negb (dispute_resolves (db w) (new_dispute E kw w)) = false ->
  Dispute_objects_create E kw w
  = Return (new_dispute E kw w)
      (after_insert "core_dispute" (str_uuid (Dispute.id (new_dispute E kw w)))
         (defer (WrittenDispute (Dispute.id (new_dispute E kw w)))
            (set_db (set_disputes (disputes (db w) ++ [new_dispute E kw w]) (db w))
                    (advance_db_ops (advance_entropy w))))).
Proof.
  intros Hdb Hid Hkeys. unfold Dispute_objects_create, db_statement.
  cbn [advance_entropy db_ops].
  rewrite Hdb.
  change (db (advance_db_ops (advance_entropy w))) with (db w).
  change (checked_now (advance_db_ops (advance_entropy w))) with (checked_now w).
  fold (new_dispute E kw w).
  now rewrite Hid, Hkeys.
Qed.

(** X14.  Creating a dispute does not touch the agreement it is about.  A
    dispute whose agreement (and raiser, if any) has a row is appended with
    the status ['open'] when none is given, and the tables of users, tokens
    and agreements, the status of the disputed agreement included, are what
    they were; nothing is logged and no mail is sent.  A dispute whose
    agreement or raiser has no row is refused with an [IntegrityError]:
    outside a transaction by the INSERT, and no table changes; inside an
    [atomic] block the INSERT goes through and the check waits for COMMIT,
    which refuses the row when the creation is the body of a block at top
    level, leaving the tables as they were. *)
Theorem dispute_creation_leaves_agreement_alone :
  forall (E : environment) (kw : dispute_kwargs) (w : world),
    db_fault E (db_ops w) = None ->
    existsb (fun r => N.eqb (Dispute.id r) (Dispute.id (new_dispute E kw w)))
            (disputes (db w)) = false ->
    let x := new_dispute E kw w in
    Dispute.agreement x = dk_agreement kw
    /\ Dispute.raised_by x = dk_raised_by kw
    /\ Dispute.status x = or_default (dk_status kw) Dispute.OPEN
    /\ Dispute.created_at x = Some (clock w)
    /\ (dispute_resolves (db w) x = true ->
        exists w',
          Dispute_objects_create E kw w = Return x w'
          /\ disputes (db w') = (disputes (db w) ++ [x])%list
          /\ users (db w') = users (db w)
          /\ verification_tokens (db w') = verification_tokens (db w)
          /\ agreements (db w') = agreements (db w)
          /\ visible (trace w') = visible (trace w))
    /\ (dispute_resolves (db w) x = false ->
        (atomic_blocks w = [] ->
         exists w',
           Dispute_objects_create E kw w
           = Raise (mk_exn IntegrityError "FOREIGN KEY constraint failed") w'
           /\ db w' = db w
           /\ visible (trace w') = visible (trace w))
        /\ (atomic_blocks w <> [] ->
            exists w',
              Dispute_objects_create E kw w = Return x w'
              /\ disputes (db w') = (disputes (db w) ++ [x])%list
              /\ In (WrittenDispute (Dispute.id x)) (deferred w'))
        /\ (atomic_blocks w = [] ->
            db_fault E (S (db_ops w)) = None ->
            exists w',
              atomic E (Dispute_objects_create E kw) w
              = Raise (mk_exn IntegrityError "FOREIGN KEY constraint failed") w'
              /\ db w' = db w
              /\ atomic_blocks w' = []
              /\ visible (trace w') = visible (trace w))).
Proof.
  intros E kw w Hdb Hid x. subst x.
  repeat (split; [reflexivity|]). split.
  - intros Hresolves. eexists. split.
    + apply Dispute_objects_create_run; try assumption.
      rewrite Hresolves. apply andb_false_r.
    + rewrite db_after_insert, db_defer, visible_after_insert, trace_defer.
      cbn. repeat split.
  - intros Hdangling. split; [|split].
    + intros Hauto. unfold Dispute_objects_create, db_statement.
      cbn [advance_entropy db_ops]. rewrite Hdb.
      change (db (advance_db_ops (advance_entropy w))) with (db w).
      change (checked_now (advance_db_ops (advance_entropy w)))
        with (checked_now w).
      fold (new_dispute E kw w). rewrite Hid.
      unfold checked_now. rewrite Hauto, Hdangling. cbn [negb andb].
      eexists. split; [reflexivity|]. split; reflexivity.
    + intros Hblock. eexists. split.
      * apply Dispute_objects_create_run; try assumption.
        unfold checked_now. destruct (atomic_blocks w); [contradiction|reflexivity].
      * rewrite db_after_insert, db_defer, deferred_after_insert.
        split; [reflexivity|]. unfold defer.
        cbn [atomic_blocks set_db advance_db_ops advance_entropy].
        destruct (atomic_blocks w); [contradiction|].
        cbn [deferred set_deferred set_db advance_db_ops advance_entropy].
        apply in_or_app. right. now left.
    + intros Hauto Hcommit.
      assert (Hrun : Dispute_objects_create E kw (in_transaction w)
                     = Return (new_dispute E kw w)
                         (after_insert "core_dispute"
                            (str_uuid (Dispute.id (new_dispute E kw w)))
                            (defer (WrittenDispute (Dispute.id (new_dispute E kw w)))
                               (set_db (set_disputes
                                          (disputes (db w) ++ [new_dispute E kw w])
                                          (db w))
                                  (advance_db_ops
                                     (advance_entropy (in_transaction w))))))).
      { apply (Dispute_objects_create_run E kw (in_transaction w)); try assumption.
        reflexivity. }
      rewrite (atomic_commit_refused E _ w _ _ (mk_frame (db w) []) Hauto Hrun).
      * eexists. split; [reflexivity|].
        cbn [emit end_transaction set_deferred set_atomic_blocks set_db
               advance_db_ops db atomic_blocks trace savepoint].
        rewrite visible_app, visible_after_insert, trace_defer. cbn.
        rewrite app_nil_r. repeat split.
      * rewrite atomic_blocks_after_insert, atomic_blocks_defer. reflexivity.
      * rewrite db_ops_after_insert, db_ops_defer. exact Hcommit.
      * rewrite db_after_insert, db_defer, deferred_after_insert.
        cbn [defer in_transaction atomic_blocks set_atomic_blocks set_deferred
               set_db advance_db_ops advance_entropy deferred app forallb db].
        rewrite foreign_keys_hold_dangling_dispute by exact Hdangling.
        reflexivity.
Qed.

Lemma dispute_creation_leaves_agreement_alone_witness :
  (exists (x : Dispute.t) (w' : world),
      Dispute_objects_create (calm_environment constant_source)
        (mk_dispute_kwargs 100%N (Some 7%N) None) (world_of 1000 market_db)
      = Return x w'
      /\ Dispute.status x = "open"
      /\ map Dispute.id (disputes (db w')) = [200%N; 201%N; 0%N]
      /\ map PaymentAgreement.status (agreements (db w')) = ["pending"; "active"])
  /\ (exists w',
         atomic (calm_environment constant_source)
                (Dispute_objects_create (calm_environment constant_source)
                   (mk_dispute_kwargs 555%N None None))
                (world_of 1000 market_db)
         = Raise (mk_exn IntegrityError "FOREIGN KEY constraint failed") w'
         /\ db w' = market_db).
Proof.
  split.
  - destruct (dispute_creation_leaves_agreement_alone
                (calm_environment constant_source)
                (mk_dispute_kwargs 100%N (Some 7%N) None)
                (world_of 1000 market_db) eq_refl eq_refl)
      as [_ [_ [Hstatus [_ [Hcreated _]]]]].
    destruct (Hcreated eq_refl) as [w' [Hrun [Hrows [_ [_ [Hagreements _]]]]]].
    eexists. exists w'. split; [exact Hrun|]. split; [exact Hstatus|].
    rewrite Hrows, Hagreements. split; reflexivity.
  - destruct (dispute_creation_leaves_agreement_alone
                (calm_environment constant_source)
                (mk_dispute_kwargs 555%N None None)
                (world_of 1000 market_db) eq_refl eq_refl)
      as [_ [_ [_ [_ [_ Hrefused]]]]].
    destruct (proj2 (proj2 (Hrefused eq_refl)) eq_refl eq_refl)
      as [w' [Hrun [Hdb _]]].
    exists w'. split; [exact Hrun | exact Hdb].
Defined.

(** *** Deleting a user *)

(** A column that is unique in a table is unique among the rows a DELETE
    leaves. *)
Lemma NoDup_map_filter {row key : Type} (column : row -> key)
    (keep : row -> bool) :
  forall table : list row,
    NoDup (map column table) -> NoDup (map column (filter keep table)).
Proof.
  intros table. induction table as [|r table IH]; cbn; intros Huniq.
  - constructor.
  - inversion Huniq as [|? ? Hfresh Hrest]; subst.
    destruct (keep r); cbn; [constructor|]; auto.
    intros Hin. apply Hfresh. apply in_map_iff in Hin as [r' [Hr' Hin]].
    apply filter_In in Hin as [Hin _]. apply in_map_iff. eauto.
Qed.

Lemma existsb_none {A : Type} (f : A -> bool) (l : list A) :
  (forall x, In x l -> f x = false) -> existsb f l = false.
Proof.
  intros Hall. destruct (existsb f l) eqn:Hsome; [|reflexivity].
  apply existsb_exists in Hsome as [x [Hin Hfx]].
  rewrite (Hall x Hin) in Hfx. discriminate.
Qed.

Lemma user_exists_after_delete (uid x : UUID) (d : database) :
  user_exists x d = true -> x <> uid ->
  user_exists x (delete_user_rows uid d) = true.
Proof.
  unfold user_exists, delete_user_rows. cbn [users].
  intros H Hne. apply existsb_exists in H as [u [Hin Hu]].
  apply existsb_exists. exists u. split; [|exact Hu].
  apply filter_In. split; [exact Hin|].
  apply N.eqb_eq in Hu. rewrite Hu. apply negb_true_iff, N.eqb_neq. exact Hne.
Qed.

(** The agreements and the disputes that are left come from rows that were
    there, with the same columns but for a reference that was cleared. *)
Lemma agreement_after_delete
    (uid : UUID) (d : database) (a' : PaymentAgreement.t) :
  In a' (agreements (delete_user_rows uid d)) ->
  exists a, In a (agreements d)
            /\ PaymentAgreement.seller a <> uid
            /\ PaymentAgreement.id a' = PaymentAgreement.id a
            /\ PaymentAgreement.seller a' = PaymentAgreement.seller a
            /\ (is_user uid (PaymentAgreement.buyer a) = true
                /\ a' = set_buyer None a
                \/ is_user uid (PaymentAgreement.buyer a) = false /\ a' = a).
Proof.
  unfold delete_user_rows. cbn [agreements]. intros Hin.
  apply in_map_iff in Hin as [a [Ha Hin]].
  apply filter_In in Hin as [Hin Hseller].
  apply negb_true_iff, N.eqb_neq in Hseller.
  exists a. split; [exact Hin|]. split; [exact Hseller|].
  destruct (is_user uid (PaymentAgreement.buyer a)); subst a'; cbn; auto.
Qed.

Lemma dispute_after_delete (uid : UUID) (d : database) (x' : Dispute.t) :
  In x' (disputes (delete_user_rows uid d)) ->
  exists x, In x (disputes d)
            /\ (forall a, In a (agreements d) ->
                          PaymentAgreement.seller a = uid ->
                          PaymentAgreement.id a <> Dispute.agreement x)
            /\ Dispute.agreement x' = Dispute.agreement x
            /\ (is_user uid (Dispute.raised_by x) = true
                /\ x' = set_raised_by None x
                \/ is_user uid (Dispute.raised_by x) = false /\ x' = x).
Proof.
  unfold delete_user_rows. cbn [disputes]. intros Hin.
  apply in_map_iff in Hin as [x [Hx Hin]].
  apply filter_In in Hin as [Hin Hsold].
  apply negb_true_iff in Hsold.
  exists x. split; [exact Hin|]. split.
  - intros a Ha Hseller Hid.
    assert (Hex : existsb (fun a0 => N.eqb (PaymentAgreement.id a0)
                                           (Dispute.agreement x))
                    (filter (fun a0 => N.eqb (PaymentAgreement.seller a0) uid)
                            (agreements d)) = true).
    { apply existsb_exists. exists a. split.
      - apply filter_In. split; [exact Ha|]. now apply N.eqb_eq.
      - now apply N.eqb_eq. }
    congruence.
  - destruct (is_user uid (Dispute.raised_by x)); subst x'; cbn; auto.
Qed.

Lemma is_user_false (uid : UUID) (o : option UUID) :
  is_user uid o = false -> o <> Some uid.
Proof.
  destruct o as [u|]; cbn; [|discriminate].
  intros H Heq. injection Heq as ->. now rewrite N.eqb_refl in H.
Qed.

Lemma is_user_true (uid : UUID) (o : option UUID) :
  is_user uid o = true -> o = Some uid.
Proof.
  destruct o as [u|]; cbn; [|discriminate].
  intros H. apply N.eqb_eq in H. now subst.
Qed.

Lemma User_delete_outcome (E : environment) (self : User.t) (w : world) :
  db_fault E (db_ops w) = None ->
  exists w',
    User_delete E self w = Return tt w'
    /\ db w' = delete_user_rows (User.id self) (db w)
    /\ visible (trace w') = visible (trace w).
Proof.
  intros Hdb. unfold User_delete, bind, db_statement. rewrite Hdb.
  change (db (advance_db_ops w)) with (db w).
  eexists. split; [reflexivity|].
  rewrite db_after_write, visible_after_write. cbn. split; reflexivity.
Qed.

(** X15.  Deleting the buyer of an agreement that someone else sells leaves
    the agreement in its table: the row has the same identifier, the
    same [buyer_email] and the same other columns, and no buyer. *)
Theorem deleting_buyer_keeps_agreement_without_buyer :
  forall (E : environment) (self : User.t) (w : world) (a : PaymentAgreement.t),
    db_fault E (db_ops w) = None ->
    In a (agreements (db w)) ->
    PaymentAgreement.buyer a = Some (User.id self) ->
    PaymentAgreement.seller a <> User.id self ->
    exists (w' : world) (a' : PaymentAgreement.t),
      User_delete E self w = Return tt w'
      /\ In a' (agreements (db w'))
      /\ PaymentAgreement.buyer a' = None
      /\ PaymentAgreement.id a' = PaymentAgreement.id a
      /\ PaymentAgreement.buyer_email a' = PaymentAgreement.buyer_email a
      /\ PaymentAgreement.status a' = PaymentAgreement.status a
      /\ set_buyer (Some (User.id self)) a' = a.
Proof.
  intros E self w a Hdb Hin Hbuyer Hseller.
  destruct (User_delete_outcome E self w Hdb) as [w' [Hrun [Hrows _]]].
  exists w', (set_buyer None a).
  split; [exact Hrun|]. split.
  - rewrite Hrows. unfold delete_user_rows. cbn [agreements].
    apply in_map_iff. exists a. split.
    + rewrite Hbuyer. cbn. now rewrite N.eqb_refl.
    + apply filter_In. split; [exact Hin|].
      now apply negb_true_iff, N.eqb_neq.
  - repeat split. destruct a. cbn in *. now subst.
Qed.

Lemma deleting_buyer_keeps_agreement_without_buyer_witness :
  exists (w' : world) (a' : PaymentAgreement.t),
    User_delete (calm_environment constant_source) sample_user
                (world_of 1000 market_db) = Return tt w'
    /\ In a' (agreements (db w'))
    /\ PaymentAgreement.buyer a' = None
    /\ PaymentAgreement.id a' = 100%N
    /\ PaymentAgreement.buyer_email a' = "ann@example.org"
    /\ PaymentAgreement.status a' = "active"
    /\ set_buyer (Some 7%N) a' = bought_by_ann.
Proof.
  apply (deleting_buyer_keeps_agreement_without_buyer
           (calm_environment constant_source) sample_user
           (world_of 1000 market_db) bought_by_ann).
  - reflexivity.
  - cbn. auto.
  - reflexivity.
  - cbn. discriminate.
Defined.

(** X16.  Deleting a user takes along what the user owns: afterwards the
    user has no row, no token of the user is left, no agreement the user
    sold is left, and no dispute about such an agreement is left. *)
Theorem deleting_seller_removes_agreements_tokens_and_disputes :
  forall (E : environment) (self : User.t) (w : world),
    db_fault E (db_ops w) = None ->
    exists w' : world,
      User_delete E self w = Return tt w'
      /\ user_exists (User.id self) (db w') = false
      /\ (forall t, In t (verification_tokens (db w')) ->
                    UserVerificationToken.user_id t <> User.id self)
      /\ (forall a', In a' (agreements (db w')) ->
                     PaymentAgreement.seller a' <> User.id self)
      /\ (forall x' a, In x' (disputes (db w')) -> In a (agreements (db w)) ->
                       PaymentAgreement.seller a = User.id self ->
                       Dispute.agreement x' <> PaymentAgreement.id a).
Proof.
  intros E self w Hdb.
  destruct (User_delete_outcome E self w Hdb) as [w' [Hrun [Hrows _]]].
  exists w'. split; [exact Hrun|]. rewrite Hrows.
  split; [|split; [|split]].
  - unfold user_exists, delete_user_rows. cbn [users].
    apply existsb_none. intros u Hu.
    apply filter_In in Hu as [_ Hu]. now apply negb_true_iff in Hu.
  - unfold delete_user_rows. cbn [verification_tokens]. intros t Ht.
    apply filter_In in Ht as [_ Ht]. now apply negb_true_iff, N.eqb_neq in Ht.
  - intros a' Ha'.
    destruct (agreement_after_delete _ _ _ Ha') as [a [_ [Hne [_ [-> _]]]]].
    exact Hne.
  - intros x' a Hx' Ha Hseller Heq.
    destruct (dispute_after_delete _ _ _ Hx') as [x [_ [Hsold [Hagr _]]]].
    apply (Hsold a Ha Hseller). congruence.
Qed.

Lemma deleting_seller_removes_agreements_tokens_and_disputes_witness :
  exists w' : world,
    User_delete (calm_environment constant_source) sample_user
                (world_of 1000 market_db) = Return tt w'
    /\ map User.id (users (db w')) = [9%N]
    /\ verification_tokens (db w') = []
    /\ map PaymentAgreement.id (agreements (db w')) = [100%N]
    /\ map Dispute.id (disputes (db w')) = [200%N]
    /\ user_exists 7%N (db w') = false.
Proof.
  destruct (deleting_seller_removes_agreements_tokens_and_disputes
              (calm_environment constant_source) sample_user
              (world_of 1000 market_db) eq_refl)
    as [w' [Hrun [Hgone _]]].
  exists w'.
  assert (Hw : db w' = delete_user_rows 7%N market_db).
  { vm_compute in Hrun. injection Hrun as <-. reflexivity. }
  split; [exact Hrun|]. rewrite Hw in *.
  repeat split; try reflexivity.
Defined.

Lemma market_db_sound :
  keys_unique market_db /\ references_resolve market_db
  /\ disputes_resolve market_db.
Proof.
  split; [|split].
  - unfold keys_unique. repeat split; nodup_small.
  - split.
    + intros t [<-|[]]. reflexivity.
    + intros a [<-|[<-|[]]]; (split; [reflexivity|]);
        intros b Hb; injection Hb as <-; reflexivity.
  - intros x [<-|[<-|[]]]; (split; [reflexivity|]);
      intros r Hr; injection Hr as <-; reflexivity.
Qed.

(** X17.  Deleting a user keeps the tables sound: the unique columns stay
    free of duplicates, every foreign key of a row that is left points to
    a row that is left, and no row refers to the deleted user any more. *)
Theorem deleting_user_keeps_tables_sound :
  forall (E : environment) (self : User.t) (w : world),
    db_fault E (db_ops w) = None ->
    keys_unique (db w) ->
    references_resolve (db w) ->
    disputes_resolve (db w) ->
    exists w' : world,
      User_delete E self w = Return tt w'
      /\ keys_unique (db w')
      /\ references_resolve (db w')
      /\ disputes_resolve (db w')
      /\ (forall a', In a' (agreements (db w')) ->
                     PaymentAgreement.buyer a' <> Some (User.id self))
      /\ (forall x', In x' (disputes (db w')) ->
                     Dispute.raised_by x' <> Some (User.id self)).
Proof.
  intros E self w Hdb [Hids [Hemails [Htokens Hagreements]]]
         [Htoken_user Hagreement_users] Hdisputes.
  destruct (User_delete_outcome E self w Hdb) as [w' [Hrun [Hrows _]]].
  exists w'. split; [exact Hrun|]. rewrite Hrows.
  set (uid := User.id self).
  assert (Hbuyers :
            forall a', In a' (agreements (delete_user_rows uid (db w))) ->
                       forall b, PaymentAgreement.buyer a' = Some b ->
                                 b <> uid /\ user_exists b (db w) = true).
  { intros a' Ha' b Hb.
    destruct (agreement_after_delete _ _ _ Ha')
      as [a [Ha [_ [_ [_ [[_ ->]|[Hother ->]]]]]]].
    - discriminate Hb.
    - split.
      + intros ->. now apply (is_user_false _ _ Hother).
      + now apply (proj2 (Hagreement_users a Ha)). }
  assert (Hraisers :
            forall x', In x' (disputes (delete_user_rows uid (db w))) ->
                       forall r, Dispute.raised_by x' = Some r ->
                                 r <> uid /\ user_exists r (db w) = true).
  { intros x' Hx' r Hr.
    destruct (dispute_after_delete _ _ _ Hx')
      as [x [Hx [_ [_ [[_ ->]|[Hother ->]]]]]].
    - discriminate Hr.
    - split.
      + intros ->. now apply (is_user_false _ _ Hother).
      + now apply (proj2 (Hdisputes x Hx)). }
  split; [|split; [|split; [|split]]].
  - unfold keys_unique, delete_user_rows.
    cbn [users verification_tokens agreements].
    split; [now apply NoDup_map_filter|].
    split; [now apply NoDup_map_filter|].
    split; [now apply NoDup_map_filter|].
    rewrite map_map.
    rewrite (map_ext _ PaymentAgreement.id).
    + now apply NoDup_map_filter.
    + intros a. now destruct (is_user uid (PaymentAgreement.buyer a)).
  - split.
    + intros t Ht.
      unfold delete_user_rows in Ht. cbn [verification_tokens] in Ht.
      apply filter_In in Ht as [Ht Hother].
      apply negb_true_iff, N.eqb_neq in Hother.
      apply user_exists_after_delete; [now apply Htoken_user | exact Hother].
    + intros a' Ha'. split.
      * destruct (agreement_after_delete _ _ _ Ha')
          as [a [Ha [Hseller [_ [-> _]]]]].
        apply user_exists_after_delete; [|exact Hseller].
        now apply (proj1 (Hagreement_users a Ha)).
      * intros b Hb. destruct (Hbuyers a' Ha' b Hb) as [Hne Hex].
        now apply user_exists_after_delete.
  - intros x' Hx'. split.
    + destruct (dispute_after_delete _ _ _ Hx')
        as [x [Hx [Hsold [-> _]]]].
      destruct (Hdisputes x Hx) as [Hex _].
      unfold agreement_exists in Hex.
      apply existsb_exists in Hex as [a [Ha Hid]].
      apply N.eqb_eq in Hid.
      unfold agreement_exists, delete_user_rows. cbn [agreements].
      apply existsb_exists.
      exists (if is_user uid (PaymentAgreement.buyer a)
              then set_buyer None a else a).
      split.
      * apply in_map_iff. exists a. split; [reflexivity|].
        apply filter_In. split; [exact Ha|].
        apply negb_true_iff, N.eqb_neq. intros Hseller.
        now apply (Hsold a Ha Hseller).
      * apply N.eqb_eq.
        now destruct (is_user uid (PaymentAgreement.buyer a)).
    + intros r Hr. destruct (Hraisers x' Hx' r Hr) as [Hne Hex].
      now apply user_exists_after_delete.
  - intros a' Ha' Hb. now destruct (Hbuyers a' Ha' _ Hb).
  - intros x' Hx' Hr. now destruct (Hraisers x' Hx' _ Hr).
Qed.

Lemma deleting_user_keeps_tables_sound_witness :
  exists w' : world,
    User_delete (calm_environment constant_source) second_user
                (world_of 1000 market_db) = Return tt w'
    /\ keys_unique (db w')
    /\ references_resolve (db w')
    /\ disputes_resolve (db w')
    /\ (forall a', In a' (agreements (db w')) ->
                   PaymentAgreement.buyer a' <> Some 9%N)
    /\ (forall x', In x' (disputes (db w')) -> Dispute.raised_by x' <> Some 9%N).
Proof.
  apply (deleting_user_keeps_tables_sound
           (calm_environment constant_source) second_user
           (world_of 1000 market_db) eq_refl);
    apply market_db_sound.
Defined.

(** X18.  Deleting a user leaves the rows of the others as they are: the
    other users, their tokens, the agreements the user neither sold nor
    bought and the disputes the user did not raise about agreements of
    other sellers are all still there, unchanged.  Nothing is logged, no
    mail is sent; and when the database fails nothing is deleted. *)
Theorem deleting_user_leaves_other_rows :
  forall (E : environment) (self : User.t) (w : world),
    (db_fault E (db_ops w) = None ->
     exists w' : world,
       User_delete E self w = Return tt w'
       /\ (forall u, In u (users (db w)) -> User.id u <> User.id self ->
                     In u (users (db w')))
       /\ (forall t, In t (verification_tokens (db w)) ->
                     UserVerificationToken.user_id t <> User.id self ->
                     In t (verification_tokens (db w')))
       /\ (forall a, In a (agreements (db w)) ->
                     PaymentAgreement.seller a <> User.id self ->
                     PaymentAgreement.buyer a <> Some (User.id self) ->
                     In a (agreements (db w')))
       /\ (forall x, In x (disputes (db w)) ->
                     Dispute.raised_by x <> Some (User.id self) ->
                     (forall a, In a (agreements (db w)) ->
                                PaymentAgreement.seller a = User.id self ->
                                PaymentAgreement.id a <> Dispute.agreement x) ->
                     In x (disputes (db w')))
       /\ visible (trace w') = visible (trace w))
    /\ (forall e, db_fault E (db_ops w) = Some e ->
        exists w', User_delete E self w = Raise e w'
                   /\ db w' = db w /\ trace w' = trace w).
Proof.
  intros E self w. split.
  - intros Hdb.
    destruct (User_delete_outcome E self w Hdb) as [w' [Hrun [Hrows Hsilent]]].
    exists w'. split; [exact Hrun|]. rewrite Hrows.
    unfold delete_user_rows. cbn [users verification_tokens agreements disputes].
    split; [|split; [|split; [|split]]].
    + intros u Hu Hne. apply filter_In. split; [exact Hu|].
      now apply negb_true_iff, N.eqb_neq.
    + intros t Ht Hne. apply filter_In. split; [exact Ht|].
      now apply negb_true_iff, N.eqb_neq.
    + intros a Ha Hseller Hbuyer. apply in_map_iff. exists a. split.
      * destruct (is_user (User.id self) (PaymentAgreement.buyer a)) eqn:Hb;
          [|reflexivity].
        now apply is_user_true in Hb.
      * apply filter_In. split; [exact Ha|].
        now apply negb_true_iff, N.eqb_neq.
    + intros x Hx Hraiser Hsold. apply in_map_iff. exists x. split.
      * destruct (is_user (User.id self) (Dispute.raised_by x)) eqn:Hr;
          [|reflexivity].
        now apply is_user_true in Hr.
      * apply filter_In. split; [exact Hx|].
        apply negb_true_iff. apply existsb_none. intros a Ha.
        apply filter_In in Ha as [Ha Hseller]. apply N.eqb_eq in Hseller.
        apply N.eqb_neq. now apply Hsold.
    + exact Hsilent.
  - intros e Hdb. unfold User_delete, bind, db_statement. rewrite Hdb.
    eexists. split; [reflexivity|]. split; reflexivity.
Qed.

Lemma deleting_user_leaves_other_rows_witness :
  exists w' : world,
    User_delete (calm_environment constant_source) second_user
                (world_of 1000 market_db) = Return tt w'
    /\ In sample_user (users (db w'))
    /\ In token_aaaaaaa (verification_tokens (db w'))
    /\ visible (trace w') = [].
Proof.
  destruct (proj1 (deleting_user_leaves_other_rows
                     (calm_environment constant_source) second_user
                     (world_of 1000 market_db)) eq_refl)
    as [w' [Hrun [Husers [Htokens [_ [_ Hsilent]]]]]].
  exists w'. split; [exact Hrun|]. split; [|split].
  - apply Husers; [cbn; auto | cbn; discriminate].
  - apply Htokens; [cbn; auto | cbn; discriminate].
  - exact Hsilent.
Defined.

(** *** Deleting an agreement *)

(** X19.  Deleting an agreement removes the agreement and the disputes
    about it, and nothing else: the other disputes and agreements, the
    users and the tokens are left as they are, and the disputes that are
    left still point to rows. *)
Theorem deleting_agreement_removes_its_disputes_only :
  forall (E : environment) (self : PaymentAgreement.t) (w : world),
    db_fault E (db_ops w) = None ->
    disputes_resolve (db w) ->
    exists w' : world,
      PaymentAgreement_delete E self w = Return tt w'
      /\ agreement_exists (PaymentAgreement.id self) (db w') = false
      /\ (forall x, In x (disputes (db w')) <->
                    In x (disputes (db w))
                    /\ Dispute.agreement x <> PaymentAgreement.id self)
      /\ (forall a, In a (agreements (db w')) <->
                    In a (agreements (db w))
                    /\ PaymentAgreement.id a <> PaymentAgreement.id self)
      /\ users (db w') = users (db w)
      /\ verification_tokens (db w') = verification_tokens (db w)
      /\ disputes_resolve (db w').
Proof.
  intros E self w Hdb Hdisputes.
  unfold PaymentAgreement_delete, bind, db_statement. rewrite Hdb.
  change (db (advance_db_ops w)) with (db w).
  unfold delete_agreement_rows.
  eexists. split; [reflexivity|].
  rewrite db_after_write. cbn [db set_db agreements users verification_tokens
                                  disputes].
  assert (Hleft : forall a,
            In a (filter (fun a0 => negb (N.eqb (PaymentAgreement.id a0)
                                                (PaymentAgreement.id self)))
                         (agreements (db w)))
            <-> In a (agreements (db w))
                /\ PaymentAgreement.id a <> PaymentAgreement.id self).
  { intros a. rewrite filter_In, negb_true_iff, N.eqb_neq. reflexivity. }
  split; [|split; [|split; [|split; [|split]]]].
  - unfold agreement_exists. cbn [agreements]. apply existsb_none.
    intros a Ha. apply filter_In in Ha as [_ Ha]. now apply negb_true_iff.
  - intros x. rewrite filter_In, negb_true_iff, N.eqb_neq. reflexivity.
  - exact Hleft.
  - reflexivity.
  - reflexivity.
  - intros x Hx. cbn [disputes] in Hx. apply filter_In in Hx as [Hx Hother].
    apply negb_true_iff, N.eqb_neq in Hother.
    destruct (Hdisputes x Hx) as [Hex Hraiser]. split; [|exact Hraiser].
    unfold agreement_exists in *. cbn [agreements].
    apply existsb_exists in Hex as [a [Ha Hid]].
    apply existsb_exists. exists a. split; [|exact Hid].
    apply Hleft. split; [exact Ha|]. apply N.eqb_eq in Hid. congruence.
Qed.

Lemma deleting_agreement_removes_its_disputes_only_witness :
  exists w' : world,
    PaymentAgreement_delete (calm_environment constant_source) bought_by_ann
                            (world_of 1000 market_db)
    = Return tt w'
    /\ agreement_exists 100%N (db w') = false
    /\ map Dispute.id (disputes (db w')) = [201%N]
    /\ agreements (db w') = [sold_by_ann]
    /\ users (db w') = [sample_user; second_user].
Proof.
  destruct (deleting_agreement_removes_its_disputes_only
              (calm_environment constant_source) bought_by_ann
              (world_of 1000 market_db) eq_refl
              (proj2 (proj2 market_db_sound)))
    as [w' [Hrun [Hgone [_ [_ [Husers _]]]]]].
  exists w'. split; [exact Hrun|]. split; [exact Hgone|].
  vm_compute in Hrun. injection Hrun as <-.
  repeat split.
Defined.

(** *** The text of an agreement *)

Lemma related_user_of_row
    (E : environment) (uid : UUID) (w : world) :
  db_fault E (db_ops w) = None ->
  user_exists uid (db w) = true ->
  exists u, related_user E uid w = Return u (advance_db_ops w)
            /\ In u (users (db w)) /\ User.id u = uid.
Proof.
  intros Hdb Hex. unfold related_user, bind, db_statement. rewrite Hdb.
  change (db (advance_db_ops w)) with (db w).
  destruct (find (fun r => N.eqb (User.id r) uid) (users (db w))) as [u|] eqn:Hfind.
  - exists u. split; [reflexivity|].
    apply find_some in Hfind as [Hin Hid]. apply N.eqb_eq in Hid. auto.
  - unfold user_exists in Hex. apply existsb_exists in Hex as [u [Hin Hid]].
    rewrite (find_none _ _ Hfind u Hin) in Hid. discriminate.
Qed.

(** X20.  In sound tables [str(agreement)] always has a value and changes
    nothing: the text names the seller by the e-mail of the seller's
    account, and the buyer by the e-mail of the buyer's account (not by
    [buyer_email]) or as [None] when the agreement has no buyer. *)
Theorem agreement_str_names_accounts :
  forall (E : environment) (self : PaymentAgreement.t) (w : world),
    (forall n, db_fault E (db_ops w + n) = None) ->
    references_resolve (db w) ->
    In self (agreements (db w)) ->
    exists (seller : User.t) (buyer : string) (w' : world),
      PaymentAgreement_str E self w
      = Return ("Agreement " ++ str_uuid (PaymentAgreement.id self)
                ++ " between " ++ buyer ++ " and " ++ User.email seller) w'
      /\ db w' = db w
      /\ trace w' = trace w
      /\ In seller (users (db w))
      /\ User.id seller = PaymentAgreement.seller self
      /\ match PaymentAgreement.buyer self with
         | None => buyer = "None"
         | Some b => exists u, In u (users (db w)) /\ User.id u = b
                               /\ buyer = User.email u
         end.
Proof.
  intros E self w Hdb [_ Hrefs] Hin.
  destruct (Hrefs self Hin) as [Hseller Hbuyer].
  unfold PaymentAgreement_str.
  destruct (PaymentAgreement.buyer self) as [b|] eqn:Hb.
  - assert (Hdb0 : db_fault E (db_ops w) = None)
      by (rewrite <- (Nat.add_0_r (db_ops w)); apply Hdb).
    destruct (related_user_of_row E b w Hdb0 (Hbuyer b eq_refl))
      as [u [Hu [Hu_in Hu_id]]].
    assert (Hdb1 : db_fault E (db_ops (advance_db_ops w)) = None)
      by (cbn [advance_db_ops db_ops]; rewrite <- Nat.add_1_r; apply Hdb).
    destruct (related_user_of_row E (PaymentAgreement.seller self)
                (advance_db_ops w) Hdb1 Hseller)
      as [s [Hs [Hs_in Hs_id]]].
    exists s, (User.email u). eexists.
    unfold bind at 1. unfold bind at 1. rewrite Hu. unfold ret at 1.
    unfold bind at 1. unfold bind at 1. rewrite Hs. unfold ret.
    split; [reflexivity|]. cbn. repeat split; try assumption.
    exists u. auto.
  - assert (Hdb0 : db_fault E (db_ops w) = None)
      by (rewrite <- (Nat.add_0_r (db_ops w)); apply Hdb).
    destruct (related_user_of_row E (PaymentAgreement.seller self) w Hdb0 Hseller)
      as [s [Hs [Hs_in Hs_id]]].
    exists s, "None". eexists.
    unfold bind at 1. unfold ret at 1.
    unfold bind at 1. unfold bind at 1. rewrite Hs. unfold ret.
    split; [reflexivity|]. cbn. repeat split; assumption.
Qed.

Lemma agreement_str_names_accounts_witness :
  exists (seller : User.t) (buyer : string) (w' : world),
    PaymentAgreement_str (calm_environment constant_source) bought_by_ann
                         (world_of 1000 market_db)
    = Return ("Agreement " ++ str_uuid 100%N ++ " between " ++ buyer
              ++ " and " ++ User.email seller) w'
    /\ db w' = market_db
    /\ trace w' = []
    /\ In seller (users market_db)
    /\ User.id seller = 9%N
    /\ exists u, In u (users market_db) /\ User.id u = 7%N
                 /\ buyer = User.email u.
Proof.
  apply (agreement_str_names_accounts
           (calm_environment constant_source) bought_by_ann
           (world_of 1000 market_db)).
  - intros n. reflexivity.
  - apply market_db_sound.
  - cbn. auto.
Defined.
